(** * Notification dispatch engine of bot_bgpk.py

    A shallow embedding of the schedule scanner
    ([check_and_notify_upcoming_classes], [db_get_upcoming_class], the
    [notifications_sent] ledger), of the two Firestore listeners
    ([ApplicationsListener], [NewsListener]) and of the two fan-out
    loops ([send_announcement_to_all],
    [NewsListener._send_notification_to_all_users]), followed by the
    properties the specification states about them. *)

From Stdlib Require Import ZArith Lia Bool List String Ascii Sorted.
From stdpp Require Import base gmap sets list strings.

Open Scope string_scope.
Open Scope Z_scope.

(** ** Python values the code manipulates *)

(** The exceptions that the modelled code can raise.  [TelegramAPIError]
    stands for whatever [bot.send_message] and its siblings raise (a
    blocked chat, a network failure, ...), [FirebaseError] for whatever
    a call of the Firebase client raises; like the others they are
    subclasses of [Exception]. *)
Inductive exn : Type :=
| ValueError
| KeyError
| IndexError
| OverflowError
| AttributeError
| TypeError
| FirebaseError
| TelegramAPIError.

Inductive result (A : Type) : Type :=
| Ok (a : A)
| Raise (e : exn).
Arguments Ok {A} a.
Arguments Raise {A} e.

(** [except (ValueError, KeyError)] *)
Definition is_ValueError_or_KeyError (e : exn) : bool :=
  match e with
  | ValueError | KeyError => true
  | _ => false
  end.

(** [except Exception] catches every constructor of [exn]. *)
Definition is_Exception (e : exn) : bool := true.

(** *** Strings: [str.split(sep)] *)

(** [s.split(sep)] for a one-character separator: never the empty list. *)
Fixpoint split (sep : ascii) (s : string) : list string :=
  match s with
  | EmptyString => [EmptyString]
  | String c rest =>
      if Ascii.eqb c sep then EmptyString :: split sep rest
      else match split sep rest with
           | [] => [String c EmptyString]
           | p :: ps => String c p :: ps
           end
  end.

(** [parts[i]]: IndexError out of range (the indices used are 0 and 1). *)
Definition getitem (parts : list string) (i : nat) : result string :=
  match nth_error parts i with
  | Some p => Ok p
  | None => Raise IndexError
  end.

(** *** Text

    A [str] is kept as the bytes of its UTF-8 encoding, so that equality
    of texts is equality of strings.  Where the source looks at
    characters ([str.split], [str.strip], [int]) the bytes are cut into
    characters first, each as long as its first byte announces. *)

Definition utf8_len (b : ascii) : nat :=
  let n := N_of_ascii b in
  if (n <? 192)%N then 1%nat
  else if (n <? 224)%N then 2%nat
  else if (n <? 240)%N then 3%nat
  else 4%nat.

Fixpoint chars_of (fuel : nat) (l : list ascii) : list (list ascii) :=
  match fuel, l with
  | S fuel', b :: _ => firstn (utf8_len b) l :: chars_of fuel' (skipn (utf8_len b) l)
  | _, _ => []
  end.

(** the characters of a text *)
Definition chars (l : list ascii) : list (list ascii) := chars_of (length l) l.

(** the six low bits of a continuation byte *)
Definition continuation (c : ascii) : option N :=
  let n := N_of_ascii c in
  if ((128 <=? n) && (n <? 192))%N then Some (n - 128)%N else None.

(** The code point that a character stands for: the shortest encoding
    of a scalar value, as the encoder of a [str] writes it. *)
Definition code_point (ch : list ascii) : option N :=
  match ch with
  | [a] => if (N_of_ascii a <? 128)%N then Some (N_of_ascii a) else None
  | [a; b] =>
      match continuation b with
      | Some y =>
          let cp := ((N_of_ascii a - 192) * 64 + y)%N in
          if ((192 <=? N_of_ascii a) && (N_of_ascii a <? 224) && (128 <=? cp))%N
          then Some cp else None
      | None => None
      end
  | [a; b; c] =>
      match continuation b, continuation c with
      | Some y, Some z =>
          let cp := ((N_of_ascii a - 224) * 4096 + y * 64 + z)%N in
          if ((224 <=? N_of_ascii a) && (N_of_ascii a <? 240) && (2048 <=? cp)
              && negb ((55296 <=? cp) && (cp <? 57344)))%N
          then Some cp else None
      | _, _ => None
      end
  | [a; b; c; d] =>
      match continuation b, continuation c, continuation d with
      | Some y, Some z, Some u =>
          let cp := ((N_of_ascii a - 240) * 262144 + y * 4096 + z * 64 + u)%N in
          if ((240 <=? N_of_ascii a) && (65536 <=? cp) && (cp <? 1114112))%N
          then Some cp else None
      | _, _, _ => None
      end
  | _ => None
  end.

(** The characters for which [str.isspace] holds: those that
    [str.split()] splits on and [str.strip()] strips. *)
Definition str_whitespace : list N :=
  [9; 10; 11; 12; 13; 28; 29; 30; 31; 32; 133; 160; 5760;
   8192; 8193; 8194; 8195; 8196; 8197; 8198; 8199; 8200; 8201; 8202;
   8232; 8233; 8239; 8287; 12288]%N.

Definition isspace (ch : list ascii) : bool :=
  match code_point ch with
  | Some cp => existsb (N.eqb cp) str_whitespace
  | None => false
  end.

Fixpoint lstrip (l : list (list ascii)) : list (list ascii) :=
  match l with
  | ch :: rest => if isspace ch then lstrip rest else l
  | [] => []
  end.

(** [s.strip()] on the characters of [s] *)
Definition strip (l : list (list ascii)) : list (list ascii) :=
  rev (lstrip (rev (lstrip l))).

(** The decimal digits: each entry is the digit zero of a script, the
    nine characters after it are its digits one to nine (the category
    Nd of Unicode 14.0, the character database of Python 3.11). *)
Definition decimal_zeros : list N :=
  [48; 1632; 1776; 1984; 2406; 2534; 2662; 2790; 2918; 3046; 3174; 3302; 3430;
   3558; 3664; 3792; 3872; 4160; 4240; 6112; 6160; 6470; 6608; 6784; 6800; 6992;
   7088; 7232; 7248; 42528; 43216; 43264; 43472; 43504; 43600; 44016; 65296;
   66720; 68912; 69734; 69872; 69942; 70096; 70384; 70736; 70864; 71248; 71360;
   71472; 71904; 72016; 72784; 73040; 73120; 92768; 92864; 93008; 120782; 120792;
   120802; 120812; 120822; 123200; 123632; 125264; 130032]%N.

Definition to_decimal (cp : N) : option N :=
  match List.find (fun zero => (zero <=? cp) && (cp <? zero + 10))%N decimal_zeros with
  | Some zero => Some (cp - zero)%N
  | None => None
  end.

(** What [int] makes of a character before it parses the text: an ASCII
    character stays; of the others a white space becomes a space and a
    decimal digit its ASCII digit; no other character is accepted. *)
Definition int_char (ch : list ascii) : option ascii :=
  match code_point ch with
  | Some cp =>
      if (cp <? 127)%N then Some (ascii_of_N cp)
      else if existsb (N.eqb cp) str_whitespace then Some " "%char
      else match to_decimal cp with
           | Some d => Some (ascii_of_N (48 + d))
           | None => None
           end
  | None => None
  end.

Fixpoint int_chars (l : list (list ascii)) : option (list ascii) :=
  match l with
  | [] => Some []
  | ch :: rest =>
      match int_char ch, int_chars rest with
      | Some c, Some cs => Some (c :: cs)
      | _, _ => None
      end
  end.

(** the white space that the parser of [int] skips on both sides: TAB,
    LF, VT, FF, CR and SPACE *)
Definition is_space (c : ascii) : bool :=
  let n := nat_of_ascii c in
  ((9 <=? n)%nat && (n <=? 13)%nat) || (n =? 32)%nat.

Definition digit_val (c : ascii) : option Z :=
  let n := nat_of_ascii c in
  if ((48 <=? n)%nat && (n <=? 57)%nat)%bool then Some (Z.of_nat n - 48) else None.

Fixpoint skip_spaces (l : list ascii) : list ascii :=
  match l with
  | c :: rest => if is_space c then skip_spaces rest else l
  | [] => []
  end.

(** The digits of a decimal literal; single underscores are allowed
    between digits, as in Python 3.6 and later. *)
Fixpoint parse_digits (l : list ascii) (acc : Z) (after_digit : bool) : option Z :=
  match l with
  | [] => if after_digit then Some acc else None
  | c :: rest =>
      match digit_val c with
      | Some d => parse_digits rest (10 * acc + d) true
      | None =>
          if (Ascii.eqb c "_"%char && after_digit)%bool then parse_digits rest acc false
          else None
      end
  end.

(** [sys.int_max_str_digits], at its default *)
Definition int_max_str_digits : nat := 4300.

(** [int(s)]: the text with its characters made ASCII, then optional
    white space, an optional sign, the digits, optional white space.  A
    numeral of more digits than the limit is refused like a malformed
    one. *)
Definition py_int (s : string) : result Z :=
  match int_chars (chars (list_ascii_of_string s)) with
  | None => Raise ValueError
  | Some text =>
      let body := rev (skip_spaces (rev (skip_spaces text))) in
      let signed :=
        match body with
        | c :: rest =>
            if Ascii.eqb c "-"%char then (-1, rest)
            else if Ascii.eqb c "+"%char then (1, rest)
            else (1, body)
        | [] => (1, body)
        end in
      if (int_max_str_digits <? length (List.filter (fun c => match digit_val c with
                                                             | Some _ => true
                                                             | None => false
                                                             end) (snd signed)))%nat
      then Raise ValueError
      else
        match parse_digits (snd signed) 0 false with
        | Some n => Ok (fst signed * n)
        | None => Raise ValueError
        end
  end.

(** *** [datetime] *)

(** A naive [datetime]: [ordinal] is [date.toordinal()], the proleptic
    Gregorian day number, so that [strftime("%Y-%m-%d")] of two values
    agree exactly when their ordinals do. *)
Record datetime : Type := mkDatetime {
  ordinal : Z;
  hour : Z;
  minute : Z;
  second : Z;
  microsecond : Z
}.

(** [d.weekday()]: Monday is 0 (day 1 of year 1 was a Monday). *)
Definition weekday (d : datetime) : Z := (ordinal d + 6) mod 7.

(** the C implementation takes the fields of [replace] as C ints *)
Definition fits_c_int (z : Z) : bool :=
  (-2147483648 <=? z) && (z <=? 2147483647).

(** [d.replace(hour=h, minute=m, second=0, microsecond=0)] *)
Definition replace_hm (d : datetime) (h m : Z) : result datetime :=
  if negb (fits_c_int h && fits_c_int m) then Raise OverflowError
  else if negb ((0 <=? h) && (h <? 24)) then Raise ValueError
  else if negb ((0 <=? m) && (m <? 60)) then Raise ValueError
  else Ok (mkDatetime (ordinal d) h m 0 0).

(** [d + timedelta(days=1)] *)
Definition plus_one_day (d : datetime) : datetime :=
  mkDatetime (ordinal d + 1) (hour d) (minute d) (second d) (microsecond d).

Definition to_microseconds (d : datetime) : Z :=
  ((ordinal d * 86400 + hour d * 3600 + minute d * 60 + second d) * 1000000)
  + microsecond d.

(** [a - b] as a [timedelta], in microseconds.  The source divides
    [total_seconds()] by 60 and compares the float with 0 and with the
    integer window; for differences of at most a few days the float is
    within 1e-10 of the exact quotient while two distinct differences
    are at least 1e-8 minutes apart, so the comparisons are those of the
    exact microsecond counts below. *)
Definition timedelta_us (a b : datetime) : Z :=
  to_microseconds a - to_microseconds b.

Definition us_per_minute : Z := 60000000.

(** ** The SQLite tables *)

Record user_row : Type := mkUser {
  u_phone : string;
  u_fio : string;
  u_class_name : string;
  u_role : string;
  u_tg_id : option Z;
  u_events_notifications : Z
}.

Record lesson_row : Type := mkLesson {
  l_class_name : string;
  l_day_name : string;
  l_lesson_number : Z;
  l_subject : string;
  l_teacher : string;
  l_start_time : string;
  l_end_time : string
}.

(** [sent_date] is the text of [strftime("%Y-%m-%d %H:%M:%S")]; the
    record keeps the fields that text is made of. *)
Record sent_row : Type := mkSent {
  s_user_phone : string;
  s_class_name : string;
  s_day_name : string;
  s_lesson_number : Z;
  s_sent_date : datetime
}.

Record DB : Type := mkDB {
  users : list user_row;
  schedule : list lesson_row;
  notifications_sent : list sent_row
}.

(** [SELECT * FROM users WHERE phone = ?] then [fetchone()] *)
Definition db_get_user (d : DB) (phone_norm : string) : option user_row :=
  List.find (fun u => String.eqb (u_phone u) phone_norm) (users d).

(** [ORDER BY lesson_number]: a stable insertion sort. *)
Fixpoint insert_lesson (x : lesson_row) (l : list lesson_row) : list lesson_row :=
  match l with
  | [] => [x]
  | y :: rest =>
      if l_lesson_number x <=? l_lesson_number y then x :: l
      else y :: insert_lesson x rest
  end.

Definition order_by_lesson_number (l : list lesson_row) : list lesson_row :=
  fold_right insert_lesson [] l.

(** [SELECT * FROM schedule WHERE class_name = ? AND day_name = ?
    ORDER BY lesson_number] *)
Definition select_schedule (d : DB) (class_name day_name : string) : list lesson_row :=
  order_by_lesson_number
    (List.filter (fun l => String.eqb (l_class_name l) class_name
                        && String.eqb (l_day_name l) day_name) (schedule d)).

Definition days_ua : list string :=
  ["Понеділок"; "Вівторок"; "Середа"; "Четвер"; "П'ятниця"; "Субота"; "Неділя"].

Definition day_ua (index : Z) : string := nth (Z.to_nat index) days_ua "".

(** ** Effects: the world, the trace, the monad *)

Inductive send_kind : Type :=
| SendMessage | SendPhoto | SendVideo | SendAudio | SendDocument.

(** What a message carries.  The f-strings that render the text are
    presentation; a payload keeps the values they interpolate. *)
Inductive payload : Type :=
| LessonNotice (upcoming : lesson_row)
| Announcement (announcement_text : string) (input_file : option string)
| AnnouncementReport (success_count error_count : Z)
| AnnouncementFailure (e : exn)
| NewsNotice (news_id : string).

Record request : Type := mkRequest {
  r_kind : send_kind;
  r_chat : Z;
  r_payload : payload
}.

(** The schedule side's dedup key without its date. *)
Record dedup_key : Type := mkKey {
  k_phone : string;
  k_class_name : string;
  k_day_name : string;
  k_lesson_number : Z
}.

(** Records written with [logging.info], [logging.warning] and
    [logging.error]; [basicConfig(level=logging.INFO)] drops the
    [logging.debug] ones. *)
Inductive log_record : Type :=
| LogBackgroundCheck (current_time : datetime)
| LogMatchToday (lesson : lesson_row)
| LogMatchTomorrow (lesson : lesson_row)
| LogLessonParseError (lesson_number : Z) (e : exn)
| LogTomorrowParseError (e : exn)
| LogUpcoming (class_name : string) (upcoming : lesson_row) (minutes_window : Z)
| LogSent (tg_id : Z) (fio : string) (upcoming : lesson_row)
| LogSendError (tg_id : Z) (e : exn)
| LogCriticalError (e : exn)
| LogAnnouncementUserError (tg_id : Z) (e : exn)
| LogAnnouncementReportError (e : exn)
| LogAnnouncementDone (success_count error_count : Z)
| LogAnnouncementFileRemoved (file_path : string)
| LogAnnouncementFailed (e : exn)
| LogNoNewsRecipients
| LogNewsDone (success_count failed_count : Z)
| LogNewsFailed (e : exn).

(** The trace: what the run did, oldest first.  [Sent] is one awaited
    call of the transport with its outcome, [Recorded] one INSERT into
    [notifications_sent], [Slept] one [asyncio.sleep].  [Visited],
    [Lookup], [Checked] and [Delivered] are markers: the user loop took
    up a subscriber, [db_get_upcoming_class] was called,
    [check_notification_already_sent] answered, and a schedule
    notification for a key left without an exception. *)
Inductive event : Type :=
| Log (r : log_record)
| Visited (phone : string)
| Lookup (phone : string) (minutes_ahead : Z)
| Checked (k : dedup_key) (already_sent : bool)
| Sent (req : request) (ok : bool)
| Delivered (k : dedup_key) (tg_id : Z)
| Recorded (row : sent_row)
| Slept (seconds : Z).

Record World : Type := mkWorld {
  w_db : DB;
  w_files : list string;
  w_reads : nat;
  w_attempts : nat;
  w_trace : list event
}.

Definition M (A : Type) : Type := World -> result A * World.

Definition ret {A} (a : A) : M A := fun w => (Ok a, w).

Definition raise {A} (e : exn) : M A := fun w => (Raise e, w).

Definition bind {A B} (m : M A) (f : A -> M B) : M B :=
  fun w =>
    match m w with
    | (Ok a, w') => f a w'
    | (Raise e, w') => (Raise e, w')
    end.

Notation "'let!' x ':=' m 'in' k" := (bind m (fun x => k))
  (at level 10, x binder, m at level 100, k at level 200).
Notation "'do!' m 'then' k" := (bind m (fun _ => k))
  (at level 10, m at level 100, k at level 200).

(** [try: body  except <classes> as e: handler e] *)
Definition try_except {A} (body : M A) (catches : exn -> bool) (handler : exn -> M A) : M A :=
  fun w =>
    match body w with
    | (Ok a, w') => (Ok a, w')
    | (Raise e, w') => if catches e then handler e w' else (Raise e, w')
    end.

Definition lift {A} (r : result A) : M A := fun w => (r, w).

Definition emit (e : event) : M unit :=
  fun w => (Ok tt, mkWorld (w_db w) (w_files w) (w_reads w) (w_attempts w) (w_trace w ++ [e])).

Definition logging (r : log_record) : M unit := emit (Log r).

Definition get_db : M DB := fun w => (Ok (w_db w), w).

Definition sleep (seconds : Z) : M unit := emit (Slept seconds).

Definition rbind {A B} (r : result A) (f : A -> result B) : result B :=
  match r with
  | Ok a => f a
  | Raise e => Raise e
  end.

(** The two statements that open both [try] bodies of
    [db_get_upcoming_class]:
      [start_parts = lesson["start_time"].split(":")]
      [start_time = base.replace(hour=int(start_parts[0]),
                                 minute=int(start_parts[1]), second=0, microsecond=0)]
    with Python's left-to-right evaluation of the arguments. *)
Definition lesson_start (base : datetime) (lesson : lesson_row) : result datetime :=
  let start_parts := split ":"%char (l_start_time lesson) in
  rbind (getitem start_parts 0) (fun p0 =>
  rbind (py_int p0) (fun h =>
  rbind (getitem start_parts 1) (fun p1 =>
  rbind (py_int p1) (fun m =>
  replace_hm base h m)))).

(** [db_get_events_notifications] *)
Definition db_get_events_notifications (d : DB) (phone_norm : string) : bool :=
  match db_get_user d phone_norm with
  | Some user => u_events_notifications user =? 1
  | None => false
  end.

(** [SELECT * FROM users WHERE tg_id IS NOT NULL], each row with its
    (non-NULL) [tg_id]. *)
Definition select_users_with_tg (d : DB) : list (Z * user_row) :=
  omap (fun u => match u_tg_id u with
                 | Some tg_id => Some (tg_id, u)
                 | None => None
                 end) (users d).

(** the rows that [check_notification_already_sent] counts: the four
    key columns equal and [sent_date LIKE 'YYYY-MM-DD%'] for today's
    date ([today] is the date's ordinal) *)
Definition sent_matches (k : dedup_key) (today : Z) (r : sent_row) : bool :=
  String.eqb (s_user_phone r) (k_phone k)
  && String.eqb (s_class_name r) (k_class_name k)
  && String.eqb (s_day_name r) (k_day_name k)
  && (s_lesson_number r =? k_lesson_number k)
  && (ordinal (s_sent_date r) =? today).

(** whether the ledger holds a row for the key on the date *)
Definition ledger_has (k : dedup_key) (today : Z) (d : DB) : bool :=
  existsb (sent_matches k today) (notifications_sent d).

Definition insert_sent (row : sent_row) : M unit :=
  fun w =>
    let d := w_db w in
    (Ok tt, mkWorld (mkDB (users d) (schedule d) (notifications_sent d ++ [row]))
                    (w_files w) (w_reads w) (w_attempts w) (w_trace w ++ [Recorded row])).

(** The two scanning loops of [db_get_upcoming_class] touch nothing but
    the log: each returns the records it logs and its outcome, [Some]
    being the [return lesson] of the source.  The list
    [upcoming_lessons] that the source appends to is never read and is
    left out. *)

(** [for lesson in today_schedule] *)
Fixpoint scan_today (now : datetime) (minutes_ahead : Z)
         (today_schedule : list lesson_row)
  : list log_record * result (option lesson_row) :=
  match today_schedule with
  | [] => ([], Ok None)
  | lesson :: rest =>
      match lesson_start now lesson with
      | Ok start_time =>
          let time_diff := timedelta_us start_time now in
          if 0 <=? time_diff then
            if time_diff <=? minutes_ahead * us_per_minute then
              ([LogMatchToday lesson], Ok (Some lesson))
            else scan_today now minutes_ahead rest
          else scan_today now minutes_ahead rest
      | Raise e =>
          if is_ValueError_or_KeyError e then
            let out := scan_today now minutes_ahead rest in
            (LogLessonParseError (l_lesson_number lesson) e :: fst out, snd out)
          else ([], Raise e)
      end
  end.

(** [for lesson in tomorrow_schedule] *)
Fixpoint scan_tomorrow (now tomorrow_date : datetime) (minutes_ahead : Z)
         (tomorrow_schedule : list lesson_row)
  : list log_record * result (option lesson_row) :=
  match tomorrow_schedule with
  | [] => ([], Ok None)
  | lesson :: rest =>
      match lesson_start tomorrow_date lesson with
      | Ok start_time =>
          let time_diff := timedelta_us start_time now in
          if (0 <=? time_diff) && (time_diff <=? minutes_ahead * us_per_minute) then
            ([LogMatchTomorrow lesson], Ok (Some lesson))
          else scan_tomorrow now tomorrow_date minutes_ahead rest
      | Raise e =>
          if is_ValueError_or_KeyError e then
            let out := scan_tomorrow now tomorrow_date minutes_ahead rest in
            (LogTomorrowParseError e :: fst out, snd out)
          else ([], Raise e)
      end
  end.

(** write the records of a loop to the log, then take its outcome *)
Definition logged {A} (out : list log_record * result A) : M A :=
  fun w =>
    (snd out, mkWorld (w_db w) (w_files w) (w_reads w) (w_attempts w)
                      (w_trace w ++ map Log (fst out))).

Definition check_windows : list Z := [5; 10; 20; 30].

(** *** Firestore documents *)

(** The value of a field of a (schema-less) Firestore document. *)
Inductive fs_value : Type :=
| VNull
| VBool (b : bool)
| VInt (z : Z)
| VStr (s : string).

(** Python truthiness *)
Definition truthy (v : fs_value) : bool :=
  match v with
  | VNull => false
  | VBool b => b
  | VInt z => negb (z =? 0)
  | VStr s => negb (String.eqb s "")
  end.

(** [data.get(field, default)] on the dict of [doc.to_dict()] *)
Definition dict_get (data : gmap string fs_value) (field : string) (default : fs_value)
  : fs_value :=
  match data !! field with
  | Some v => v
  | None => default
  end.

(** *** File names *)

Definition lower_char (c : ascii) : ascii :=
  let n := nat_of_ascii c in
  if ((65 <=? n)%nat && (n <=? 90)%nat)%bool then ascii_of_nat (n + 32) else c.

(** [s.lower()] as far as the ASCII characters of the result go: the
    ASCII capitals, and the Kelvin sign (U+212A, the bytes 226 132 170),
    the one other character whose lower case is an ASCII letter. *)
Fixpoint lower (s : string) : string :=
  match s with
  | EmptyString => EmptyString
  | String c rest =>
      match rest with
      | String c1 (String c2 rest2) =>
          if ((nat_of_ascii c =? 226)%nat && (nat_of_ascii c1 =? 132)%nat
              && (nat_of_ascii c2 =? 170)%nat)%bool
          then String "k"%char (lower rest2)
          else String (lower_char c) (lower rest)
      | _ => String (lower_char c) (lower rest)
      end
  end.

Fixpoint starts_with (pre l : list ascii) : bool :=
  match pre, l with
  | [], _ => true
  | a :: pre', b :: l' => Ascii.eqb a b && starts_with pre' l'
  | _ :: _, [] => false
  end.

(** [s.endswith((suffix, ...))] *)
Definition endswith (s : string) (suffixes : list string) : bool :=
  existsb (fun suf => starts_with (rev (list_ascii_of_string suf))
                                  (rev (list_ascii_of_string s))) suffixes.

(** the transport call [send_announcement_to_all] picks for a file *)
Definition announcement_kind (file_path : string) : send_kind :=
  if endswith (lower file_path) [".jpg"; ".jpeg"; ".png"; ".gif"] then SendPhoto
  else if endswith (lower file_path) [".mp4"; ".mov"; ".avi"; ".mkv"] then SendVideo
  else if endswith (lower file_path) [".mp3"; ".wav"; ".m4a"; ".flac"] then SendAudio
  else SendDocument.

(** [file_path and os.path.exists(file_path)] *)
Definition file_present (file_path : option string) : M bool :=
  fun w =>
    (Ok match file_path with
        | Some path => negb (String.eqb path "") && existsb (String.eqb path) (w_files w)
        | None => false
        end, w).

(** [os.remove(file_path)] of a file that exists *)
Definition os_remove (path : string) : M unit :=
  fun w =>
    (Ok tt, mkWorld (w_db w) (List.filter (fun f => negb (String.eqb path f)) (w_files w))
                    (w_reads w) (w_attempts w) (w_trace w)).

(** [image_url and image_url.strip()] as a condition: a text is tested
    after stripping, a falsy value stops at [and], any other value has
    no [strip]. *)
Definition image_given (image_url : fs_value) : result bool :=
  match image_url with
  | VStr s => Ok (match strip (chars (list_ascii_of_string s)) with
                  | [] => false
                  | _ => true
                  end)
  | v => if truthy v then Raise AttributeError else Ok false
  end.

(** [_format_news_notification].  The text that it renders is
    presentation and is not kept; what the callers see of it is that
    [re.sub] wants the [content] of the document to be a text. *)
Definition format_news_notification (news_data : gmap string fs_value) : result unit :=
  match dict_get news_data "content" (VStr "") with
  | VStr _ => Ok tt
  | _ => Raise TypeError
  end.

(** [SELECT tg_id FROM users WHERE tg_id IS NOT NULL AND
    events_notifications = 1] *)
Definition select_news_recipients (d : DB) : list Z :=
  omap (fun u => if u_events_notifications u =? 1 then u_tg_id u else None) (users d).

Section Engine.

(** The outside world: the [n]-th call of [datetime.now()] returns
    [clock n]; the [n]-th awaited call of the bot's transport returns
    normally when [transport n req] is true and raises otherwise. *)
Variable clock : nat -> datetime.
Variable transport : nat -> request -> bool.

Definition datetime_now : M datetime :=
  fun w => (Ok (clock (w_reads w)),
            mkWorld (w_db w) (w_files w) (S (w_reads w)) (w_attempts w) (w_trace w)).

Definition bot_send (req : request) : M unit :=
  fun w =>
    let ok := transport (w_attempts w) req in
    (if ok then Ok tt else Raise TelegramAPIError,
     mkWorld (w_db w) (w_files w) (w_reads w) (S (w_attempts w))
             (w_trace w ++ [Sent req ok])).

Definition db_get_upcoming_class (phone_norm : string) (minutes_ahead : Z)
  : M (option lesson_row) :=
  do! emit (Lookup phone_norm minutes_ahead) then
  let! d := get_db in
  match db_get_user d phone_norm with
  | None => ret None
  | Some user =>
      let class_name := u_class_name user in
      let! now := datetime_now in
      let today_index := weekday now in
      let today_ua := day_ua today_index in
      let today_schedule := select_schedule d class_name today_ua in
      let! found := logged (scan_today now minutes_ahead today_schedule) in
      match found with
      | Some lesson => ret (Some lesson)
      | None =>
          let tomorrow_index := (today_index + 1) mod 7 in
          let tomorrow_ua := day_ua tomorrow_index in
          let tomorrow_date := plus_one_day now in
          let tomorrow_schedule := select_schedule d class_name tomorrow_ua in
          logged (scan_tomorrow now tomorrow_date minutes_ahead tomorrow_schedule)
      end
  end.

Definition check_notification_already_sent
           (phone_norm class_name day_name : string) (lesson_number : Z) : M bool :=
  let k := mkKey phone_norm class_name day_name lesson_number in
  let! today := datetime_now in
  let! d := get_db in
  let cnt := Z.of_nat (length (List.filter (sent_matches k (ordinal today))
                                           (notifications_sent d))) in
  do! emit (Checked k (0 <? cnt)) then
  ret (0 <? cnt).

Definition db_record_notification_sent
           (phone_norm class_name day_name : string) (lesson_number : Z) : M unit :=
  let! now := datetime_now in
  insert_sent (mkSent phone_norm class_name day_name lesson_number now).

(** the loop [for minutes_window in check_windows] of one subscriber;
    returning without the recursive call is its [break] *)
Fixpoint notify_windows (tg_id : Z) (user : user_row) (windows : list Z) : M unit :=
  match windows with
  | [] => ret tt
  | minutes_window :: rest =>
      let phone_norm := u_phone user in
      let class_name := u_class_name user in
      let! upcoming := db_get_upcoming_class phone_norm minutes_window in
      match upcoming with
      | Some upcoming =>
          do! logging (LogUpcoming class_name upcoming minutes_window) then
          let! already_sent :=
            check_notification_already_sent phone_norm class_name
              (l_day_name upcoming) (l_lesson_number upcoming) in
          if negb already_sent then
            let! done :=
              try_except
                (do! bot_send (mkRequest SendMessage tg_id (LessonNotice upcoming)) then
                 do! emit (Delivered (mkKey phone_norm class_name (l_day_name upcoming)
                                            (l_lesson_number upcoming)) tg_id) then
                 do! logging (LogSent tg_id (u_fio user) upcoming) then
                 do! db_record_notification_sent phone_norm class_name
                       (l_day_name upcoming) (l_lesson_number upcoming) then
                 ret true)
                is_Exception
                (fun e => do! logging (LogSendError tg_id e) then ret false) in
            if done then ret tt else notify_windows tg_id user rest
          else ret tt
      | None => notify_windows tg_id user rest
      end
  end.

(** the body of [for user in users] *)
Definition notify_user (tg_id : Z) (user : user_row) : M unit :=
  do! emit (Visited (u_phone user)) then
  let! d := get_db in
  if negb (db_get_events_notifications d (u_phone user)) then ret tt
  else notify_windows tg_id user check_windows.

Fixpoint notify_users (us : list (Z * user_row)) : M unit :=
  match us with
  | [] => ret tt
  | (tg_id, user) :: rest =>
      do! notify_user tg_id user then
      notify_users rest
  end.

(** one iteration of the [while True] of
    [check_and_notify_upcoming_classes] *)
Definition scanner_tick : M unit :=
  try_except
    (let! current_time := datetime_now in
     do! logging (LogBackgroundCheck current_time) then
     let! d := get_db in
     do! notify_users (select_users_with_tg d) then
     sleep 60)
    is_Exception
    (fun e => do! logging (LogCriticalError e) then sleep 60).

(** Between two ticks the other handlers of the bot may rewrite the
    [users] and [schedule] tables; nothing but
    [db_record_notification_sent] writes [notifications_sent]. *)
Definition install_tables (us : list user_row) (sch : list lesson_row) : M unit :=
  fun w =>
    (Ok tt, mkWorld (mkDB us sch (notifications_sent (w_db w)))
                    (w_files w) (w_reads w) (w_attempts w) (w_trace w)).

(** the scanner run for as many ticks as [tables] has entries *)
Fixpoint scanner_run (tables : list (list user_row * list lesson_row)) : M unit :=
  match tables with
  | [] => ret tt
  | (us, sch) :: rest =>
      do! install_tables us sch then
      do! scanner_tick then
      scanner_run rest
  end.

(** *** Fan-out *)

(** the loop [for user in users] of [send_announcement_to_all] with
    its two counters *)
Fixpoint announce_users (announcement_text : string) (file_path : option string)
         (us : list (Z * user_row)) (success_count error_count : Z) : M (Z * Z) :=
  match us with
  | [] => ret (success_count, error_count)
  | (tg_id, user) :: rest =>
      let! sent :=
        try_except
          (let! with_file := file_present file_path in
           do! (if with_file then
                  bot_send (mkRequest (announcement_kind (default "" file_path)) tg_id
                                      (Announcement announcement_text file_path))
                else
                  bot_send (mkRequest SendMessage tg_id
                                      (Announcement announcement_text None))) then
           ret true)
          is_Exception
          (fun e => do! logging (LogAnnouncementUserError tg_id e) then ret false) in
      if sent then announce_users announcement_text file_path rest (success_count + 1) error_count
      else announce_users announcement_text file_path rest success_count (error_count + 1)
  end.

Definition send_announcement_to_all (announcement_text : string)
           (file_path : option string) (admin_tg_id : Z) : M unit :=
  try_except
    (let! d := get_db in
     let! counts := announce_users announcement_text file_path
                      (select_users_with_tg d) 0 0 in
     do! try_except
           (bot_send (mkRequest SendMessage admin_tg_id
                                (AnnouncementReport (fst counts) (snd counts))))
           is_Exception
           (fun e => logging (LogAnnouncementReportError e)) then
     do! logging (LogAnnouncementDone (fst counts) (snd counts)) then
     let! with_file := file_present file_path in
     if with_file then
       do! os_remove (default "" file_path) then
       logging (LogAnnouncementFileRemoved (default "" file_path))
     else ret tt)
    is_Exception
    (fun e =>
       do! logging (LogAnnouncementFailed e) then
       try_except
         (bot_send (mkRequest SendMessage admin_tg_id (AnnouncementFailure e)))
         is_Exception
         (fun e2 => logging (LogAnnouncementReportError e2))).

(** the loop [for user_id in user_tg_ids] of
    [NewsListener._send_notification_to_all_users] *)
Fixpoint news_users (news_id : string) (image_url : fs_value)
         (user_tg_ids : list Z) (success_count failed_count : Z) : M (Z * Z) :=
  match user_tg_ids with
  | [] => ret (success_count, failed_count)
  | user_id :: rest =>
      let! sent :=
        try_except
          (let! with_image := lift (image_given image_url) in
           if with_image then
             try_except
               (do! bot_send (mkRequest SendPhoto user_id (NewsNotice news_id)) then
                ret true)
               is_Exception
               (fun _ =>
                  try_except
                    (do! bot_send (mkRequest SendMessage user_id (NewsNotice news_id)) then
                     ret true)
                    is_Exception
                    (fun _ => ret false))
           else
             do! bot_send (mkRequest SendMessage user_id (NewsNotice news_id)) then
             ret true)
          is_Exception
          (fun _ => ret false) in
      if sent then news_users news_id image_url rest (success_count + 1) failed_count
      else news_users news_id image_url rest success_count (failed_count + 1)
  end.

Definition send_notification_to_all_users (news_id : string)
           (news_data : gmap string fs_value) : M unit :=
  try_except
    (let! d := get_db in
     let user_tg_ids := select_news_recipients d in
     match user_tg_ids with
     | [] => logging LogNoNewsRecipients
     | _ =>
         do! lift (format_news_notification news_data) then
         let image_url := dict_get news_data "image" (VStr "") in
         let! counts := news_users news_id image_url user_tg_ids 0 0 in
         logging (LogNewsDone (fst counts) (snd counts))
     end)
    is_Exception
    (fun e => logging (LogNewsFailed e)).

End Engine.

(** ** The Firestore listeners *)

Inductive change_type : Type := ADDED | MODIFIED | REMOVED.

(** a document snapshot: [doc.id] and [doc.to_dict()] *)
Record document : Type := mkDocument {
  doc_id : string;
  doc_data : option (gmap string fs_value)
}.

Record change : Type := mkChange {
  c_type : change_type;
  c_document : document
}.

(** [change.type.name in ['ADDED', 'MODIFIED']] *)
Definition added_or_modified (t : change_type) : bool :=
  match t with
  | ADDED | MODIFIED => true
  | REMOVED => false
  end.

(** The fields of a listener object: whether [self.db],
    [self.unsubscribe] and [self.loop] are set, and the tracked set. *)
Record listener : Type := mkListener {
  ls_db : bool;
  ls_unsubscribe : bool;
  ls_tracking : gset string;
  ls_loop : bool
}.

(** [__init__] *)
Definition new_listener : listener := mkListener false false ∅ false.

(** What a listener does that can be seen from outside: a coroutine
    handed to the loop with [run_coroutine_threadsafe], or a log record. *)
Inductive feed_event : Type :=
| Scheduled (doc : string) (data : gmap string fs_value)
| InfoNewDocument (doc : string)
| WarnFirebaseUnavailable
| WarnCredentialsMissing
| InfoFirebaseInitialised
| ErrorFirebaseInit
| WarnInitFailed
| InfoLoaded (tracked : nat)
| InfoListening
| ErrorStartListening
| InfoListenerStarted
| WarnListenersNotStarted.

(** The outcomes of the backend calls that one [start_listening] makes.
    [stream_docs] are the documents the collection stream yields;
    [stream_ok = false] means it raises after yielding them. *)
Record firebase_calls : Type := mkCalls {
  credentials_exist : bool;
  certificate_ok : bool;
  initialize_app_ok : bool;
  client_ok : bool;
  stream_docs : list document;
  stream_ok : bool;
  on_snapshot_ok : bool
}.

(** *** Start-up: state and exceptions

    The code that runs before polling works on a state and can raise;
    [Run S] is the monad of such code over the state [S]. *)
Definition Run (S A : Type) : Type := S -> result A * S.

Definition run_ret {S A} (a : A) : Run S A := fun s => (Ok a, s).

Definition run_bind {S A B} (m : Run S A) (f : A -> Run S B) : Run S B :=
  fun s =>
    match m s with
    | (Ok a, s') => f a s'
    | (Raise e, s') => (Raise e, s')
    end.

Notation "'let+' x ':=' m 'in' k" := (run_bind m (fun x => k))
  (at level 10, x binder, m at level 100, k at level 200).
Notation "'do+' m 'then' k" := (run_bind m (fun _ => k))
  (at level 10, m at level 100, k at level 200).

(** [try: body  except Exception as e: handler e] *)
Definition run_try {S A} (body : Run S A) (handler : exn -> Run S A) : Run S A :=
  fun s =>
    match body s with
    | (Ok a, s') => (Ok a, s')
    | (Raise e, s') => handler e s'
    end.

(** What a method of a listener works on: whether [firebase_admin._apps]
    holds an app, the object [self], and the log. *)
Record boot : Type := mkBoot {
  b_apps : bool;
  b_self : listener;
  b_log : list feed_event
}.

(** a call of the Firebase library, which returns or raises *)
Definition backend_call (ok : bool) : Run boot unit :=
  fun s => (if ok then Ok tt else Raise FirebaseError, s).

Definition feed_log (e : feed_event) : Run boot unit :=
  fun s => (Ok tt, mkBoot (b_apps s) (b_self s) (b_log s ++ [e])).

Definition get_apps : Run boot bool := fun s => (Ok (b_apps s), s).

Definition set_apps (apps : bool) : Run boot unit :=
  fun s => (Ok tt, mkBoot apps (b_self s) (b_log s)).

Definition get_self : Run boot listener := fun s => (Ok (b_self s), s).

Definition update_self (f : listener -> listener) : Run boot unit :=
  fun s => (Ok tt, mkBoot (b_apps s) (f (b_self s)) (b_log s)).

Section Listener.

(** What tells the two listener classes apart: the test a changed
    document must pass, and the test a document of the startup scan
    must pass to be tracked. *)
Variable qualifies : gmap string fs_value -> bool.
Variable seeded : document -> bool.

(** [_init_firebase] *)
Definition init_firebase (FIREBASE_AVAILABLE : bool) (env : firebase_calls) : Run boot bool :=
  if negb FIREBASE_AVAILABLE then
    do+ feed_log WarnFirebaseUnavailable then
    run_ret false
  else
    run_try
      (if negb (credentials_exist env) then
         do+ feed_log WarnCredentialsMissing then
         run_ret false
       else
         let+ apps := get_apps in
         do+ (if negb apps then
                do+ backend_call (certificate_ok env) then
                do+ backend_call (initialize_app_ok env) then
                set_apps true
              else run_ret tt) then
         do+ backend_call (client_ok env) then
         do+ update_self (fun self => mkListener true (ls_unsubscribe self)
                                                 (ls_tracking self) (ls_loop self)) then
         do+ feed_log InfoFirebaseInitialised then
         run_ret true)
      (fun _ =>
         do+ feed_log ErrorFirebaseInit then
         run_ret false).

(** the loop [for doc in docs] of [start_listening] *)
Fixpoint seed_tracking (docs : list document) (tracking : gset string) : gset string :=
  match docs with
  | [] => tracking
  | doc :: rest =>
      if seeded doc then seed_tracking rest ({[doc_id doc]} ∪ tracking)
      else seed_tracking rest tracking
  end.

(** [start_listening]; the stream yields its documents to the loop and
    then ends or raises *)
Definition start_listening (FIREBASE_AVAILABLE : bool) (env : firebase_calls)
  : Run boot unit :=
  let+ ok := init_firebase FIREBASE_AVAILABLE env in
  if negb ok then feed_log WarnInitFailed
  else
    do+ update_self (fun self => mkListener (ls_db self) (ls_unsubscribe self)
                                            (ls_tracking self) true) then
    run_try
      (do+ update_self (fun self =>
             mkListener (ls_db self) (ls_unsubscribe self)
                        (seed_tracking (stream_docs env) (ls_tracking self))
                        (ls_loop self)) then
       do+ backend_call (stream_ok env) then
       let+ self := get_self in
       do+ feed_log (InfoLoaded (size (ls_tracking self))) then
       do+ backend_call (on_snapshot_ok env) then
       do+ update_self (fun self => mkListener (ls_db self) true
                                               (ls_tracking self) (ls_loop self)) then
       feed_log InfoListening)
      (fun _ => feed_log ErrorStartListening).

(** [_on_snapshot]; [running] is what [self.loop.is_running()]
    answers during this call. *)
Fixpoint on_snapshot (running : bool) (changes : list change) (self : listener)
  : listener * list feed_event :=
  match changes with
  | [] => (self, [])
  | change :: rest =>
      let doc := c_document change in
      match doc_data doc with
      | None => on_snapshot running rest self
      | Some data =>
          if added_or_modified (c_type change)
             && qualifies data
             && negb (bool_decide (doc_id doc ∈ ls_tracking self))
          then
            let self1 := mkListener (ls_db self) (ls_unsubscribe self)
                                    ({[doc_id doc]} ∪ ls_tracking self) (ls_loop self) in
            let out := on_snapshot running rest self1 in
            (fst out,
             (InfoNewDocument (doc_id doc)
              :: (if ls_loop self && running then [Scheduled (doc_id doc) data] else [])
              ++ snd out)%list)
          else on_snapshot running rest self
      end
  end.

End Listener.

(** [status == 'new'] with [status = app_data.get('status', '')] *)
Definition status_is_new (app_data : gmap string fs_value) : bool :=
  match dict_get app_data "status" (VStr "") with
  | VStr s => String.eqb s "new"
  | _ => false
  end.

(** [published] with [published = news_data.get('published', False)] *)
Definition is_published (news_data : gmap string fs_value) : bool :=
  truthy (dict_get news_data "published" (VBool false)).

(** [news_data and news_data.get('published')] of the startup scan *)
Definition published_at_start (doc : document) : bool :=
  match doc_data doc with
  | Some news_data =>
      negb (bool_decide (news_data = ∅)) && truthy (dict_get news_data "published" VNull)
  | None => false
  end.

(** What happens to a listener after its start: the feed client calls
    [_on_snapshot] with a batch of changes, or an administrator presses
    a button of an application.  [DeleteApplication] carries whether the
    Firestore [delete()] returned. *)
Inductive feed_action : Type :=
| SnapshotBatch (running : bool) (changes : list change)
| ViewApplication (app_id : string)
| AcceptApplication (app_id : string)
| RejectApplication (app_id : string)
| DeleteApplication (app_id : string) (delete_ok : bool).

Module ApplicationsListener.

Definition _init_firebase := init_firebase.

(** the startup scan tracks every document of the collection *)
Definition start_listening := start_listening (fun _ => true).

Definition _on_snapshot := on_snapshot status_is_new.

(** [delete_application_callback]: the listener after the button was
    handled ([tracking_applications.discard(app_id)] unless the
    listener has no client or [delete()] raised). *)
Definition delete_application_callback (app_id : string) (delete_ok : bool)
           (self : listener) : listener :=
  if negb (ls_db self) then self
  else if negb delete_ok then self
  else mkListener (ls_db self) (ls_unsubscribe self)
                  (ls_tracking self ∖ {[app_id]}) (ls_loop self).

Definition step (a : feed_action) (self : listener) : listener * list feed_event :=
  match a with
  | SnapshotBatch running changes => _on_snapshot running changes self
  | ViewApplication _ => (self, [])
  | AcceptApplication _ => (self, [])
  | RejectApplication _ => (self, [])
  | DeleteApplication app_id delete_ok =>
      (delete_application_callback app_id delete_ok self, [])
  end.

Fixpoint run (actions : list feed_action) (self : listener) : listener * list feed_event :=
  match actions with
  | [] => (self, [])
  | a :: rest =>
      let s1 := step a self in
      let s2 := run rest (fst s1) in
      (fst s2, (snd s1 ++ snd s2)%list)
  end.

End ApplicationsListener.

Module NewsListener.

Definition _init_firebase := init_firebase.

Definition start_listening := start_listening published_at_start.

Definition _on_snapshot := on_snapshot is_published.

(** no button of the bot touches [tracking_news] *)
Definition step (a : feed_action) (self : listener) : listener * list feed_event :=
  match a with
  | SnapshotBatch running changes => _on_snapshot running changes self
  | _ => (self, [])
  end.

Fixpoint run (actions : list feed_action) (self : listener) : listener * list feed_event :=
  match actions with
  | [] => (self, [])
  | a :: rest =>
      let s1 := step a self in
      let s2 := run rest (fst s1) in
      (fst s2, (snd s1 ++ snd s2)%list)
  end.

End NewsListener.

(** ** [main] up to [dp.start_polling] *)

(** the two instances of the listener *)
Inductive feed : Type := Applications | News.

Definition feed_start_listening (which : feed) :=
  match which with
  | Applications => ApplicationsListener.start_listening
  | News => NewsListener.start_listening
  end.

(** The process: the state of the Firebase library, the two globals
    that hold the listeners, whether the task of the scanner was created
    and polling was started, and the log. *)
Record process : Type := mkProcess {
  firebase_apps : bool;
  applications_listener : option listener;
  news_listener : option listener;
  scanner_task_created : bool;
  polling_started : bool;
  startup_log : list feed_event
}.

(** the process when [main] is entered *)
Definition booting : process := mkProcess false None None false false [].

Definition listener_of (which : feed) (p : process) : option listener :=
  match which with
  | Applications => applications_listener p
  | News => news_listener p
  end.

(** [applications_listener = ...] and [news_listener = ...] *)
Definition set_listener (which : feed) (self : listener) : Run process unit :=
  fun p =>
    (Ok tt,
     match which with
     | Applications =>
         mkProcess (firebase_apps p) (Some self) (news_listener p)
                   (scanner_task_created p) (polling_started p) (startup_log p)
     | News =>
         mkProcess (firebase_apps p) (applications_listener p) (Some self)
                   (scanner_task_created p) (polling_started p) (startup_log p)
     end).

(** a method called on the listener that a global holds: it works on
    that object, on the library and on the log, and what it raises
    leaves the call *)
Definition call_method (which : feed) (method : Run boot unit) : Run process unit :=
  fun p =>
    match listener_of which p with
    | None => (Raise AttributeError, p)
    | Some self =>
        let out := method (mkBoot (firebase_apps p) self (startup_log p)) in
        let s := snd out in
        (fst out,
         match which with
         | Applications =>
             mkProcess (b_apps s) (Some (b_self s)) (news_listener p)
                       (scanner_task_created p) (polling_started p) (b_log s)
         | News =>
             mkProcess (b_apps s) (applications_listener p) (Some (b_self s))
                       (scanner_task_created p) (polling_started p) (b_log s)
         end)
    end.

Definition process_log (e : feed_event) : Run process unit :=
  fun p =>
    (Ok tt, mkProcess (firebase_apps p) (applications_listener p) (news_listener p)
                      (scanner_task_created p) (polling_started p) (startup_log p ++ [e])).

(** [asyncio.create_task(check_and_notify_upcoming_classes())] *)
Definition create_scanner_task : Run process unit :=
  fun p =>
    (Ok tt, mkProcess (firebase_apps p) (applications_listener p) (news_listener p)
                      true (polling_started p) (startup_log p)).

(** [await dp.start_polling(bot)], as far as its start *)
Definition start_polling : Run process unit :=
  fun p =>
    (Ok tt, mkProcess (firebase_apps p) (applications_listener p) (news_listener p)
                      (scanner_task_created p) true (startup_log p)).

(** [main], after [db_init()] *)
Definition main (FIREBASE_AVAILABLE : bool) (applications_env news_env : firebase_calls)
  : Run process unit :=
  do+ (if FIREBASE_AVAILABLE then
         do+ set_listener Applications new_listener then
         do+ call_method Applications
               (ApplicationsListener.start_listening FIREBASE_AVAILABLE applications_env) then
         do+ process_log InfoListenerStarted then
         do+ set_listener News new_listener then
         do+ call_method News
               (NewsListener.start_listening FIREBASE_AVAILABLE news_env) then
         process_log InfoListenerStarted
       else process_log WarnListenersNotStarted) then
  do+ create_scanner_task then
  start_polling.

(** ** Observations on runs *)

(** A small program logic for [M]: from a world in [P], [m] ends in a
    result and a world in [Q]. *)
Definition triple {A} (P : World -> Prop) (m : M A) (Q : result A -> World -> Prop) : Prop :=
  forall w, P w -> Q (fst (m w)) (snd (m w)).

(** [m] keeps the invariant [I], whether it returns or raises *)
Definition preserves {A} (I : World -> Prop) (m : M A) : Prop :=
  triple I m (fun _ w => I w).

Definition key_eqb (a b : dedup_key) : bool :=
  String.eqb (k_phone a) (k_phone b)
  && String.eqb (k_class_name a) (k_class_name b)
  && String.eqb (k_day_name a) (k_day_name b)
  && (k_lesson_number a =? k_lesson_number b).

Definition is_delivery (k : dedup_key) (e : event) : bool :=
  match e with
  | Delivered k' _ => key_eqb k' k
  | _ => false
  end.

(** how many schedule notifications for the key the trace delivered *)
Definition deliveries (k : dedup_key) (tr : list event) : nat :=
  length (List.filter (is_delivery k) tr).

(** The invariant behind the ledger: the ledger only grows, and the key
    was delivered either never, or once, and then its row is in the
    ledger and was not there at the start ([db0]). *)
Definition at_most_once (k : dedup_key) (today : Z) (db0 : DB) (w : World) : Prop :=
  (ledger_has k today db0 = true -> ledger_has k today (w_db w) = true) /\
  (deliveries k (w_trace w) = 0%nat \/
   (deliveries k (w_trace w) = 1%nat /\
    ledger_has k today (w_db w) = true /\
    ledger_has k today db0 = false)).

(** what [db_get_upcoming_class] logs and returns for a registered
    subscriber of class [class_name] when the clock reads [now] *)
Definition two_day_scan (d : DB) (class_name : string) (now : datetime) (minutes_ahead : Z)
  : list log_record * result (option lesson_row) :=
  let today_scan :=
    scan_today now minutes_ahead (select_schedule d class_name (day_ua (weekday now))) in
  match snd today_scan with
  | Ok None =>
      let tomorrow_scan :=
        scan_tomorrow now (plus_one_day now) minutes_ahead
          (select_schedule d class_name (day_ua ((weekday now + 1) mod 7))) in
      ((fst today_scan ++ fst tomorrow_scan)%list, snd tomorrow_scan)
  | _ => today_scan
  end.

(** the windows for which the trace shows a lookup, in order *)
Definition windows_checked (tr : list event) : list Z :=
  omap (fun e => match e with Lookup _ minutes_ahead => Some minutes_ahead | _ => None end) tr.

(** the awaited transport calls of the trace with their outcomes *)
Definition sends (tr : list event) : list (request * bool) :=
  omap (fun e => match e with Sent req ok => Some (req, ok) | _ => None end) tr.

(** the subscribers the user loop took up *)
Definition visited (tr : list event) : list string :=
  omap (fun e => match e with Visited phone => Some phone | _ => None end) tr.

(** the exceptions that reached the handler of the tick *)
Definition critical_errors (tr : list event) : list exn :=
  omap (fun e => match e with Log (LogCriticalError e) => Some e | _ => None end) tr.

(** the log records of the trace *)
Definition log_of (tr : list event) : list log_record :=
  omap (fun e => match e with Log r => Some r | _ => None end) tr.

(** The scenario of the specification: class 10-A has Algebra as lesson
    1 on Monday at 08:30; the scanner runs at 08:12 and again later the
    same day. *)
Definition algebra : lesson_row :=
  mkLesson "10-A" "Понеділок" 1 "Algebra" "Teacher" "08:30" "09:15".





Definition pupil : user_row := mkUser "380501234567" "Pupil" "10-A" "учень" (Some 1001) 1.

Definition algebra_key : dedup_key := mkKey "380501234567" "10-A" "Понеділок" 1.

(** day 1 of year 1 is a Monday *)
Definition monday_0812 (n : nat) : datetime := mkDatetime 1 8 12 0 0.

Definition always_delivers (n : nat) (req : request) : bool := true.

Definition fresh_world (d : DB) : World := mkWorld d [] 0 0 [].

(** a night class: lesson 1 on Tuesday starts at 00:03 *)
Definition night_lesson : lesson_row :=
  mkLesson "10-A" "Вівторок" 1 "Astronomy" "Teacher" "00:03" "00:48".

Definition monday_2358 (n : nat) : datetime := mkDatetime 1 23 58 0 0.

(** a Tuesday lesson before the night lesson whose start time has a
    letter in it *)
Definition misprinted : lesson_row :=
  mkLesson "10-A" "Вівторок" 0 "Drawing" "Teacher" "0o:01" "00:46".

(** two lessons that the scan meets before the night lesson: one on
    Monday at 23:59, and a first lesson of Tuesday at 00:01 *)
Definition late_lesson : lesson_row :=
  mkLesson "10-A" "Понеділок" 8 "Choir" "Teacher" "23:59" "00:40".

Definition midnight_lesson : lesson_row :=
  mkLesson "10-A" "Вівторок" 0 "Vigil" "Teacher" "00:01" "00:02".

(** A stored start time without its colon, on a lesson that sorts before
    Algebra, and a subscriber of another class whose own lesson starts
    at 08:30. *)
Definition smudged : lesson_row :=
  mkLesson "10-A" "Понеділок" 0 "Physics" "Teacher" "0745" "08:30".

Definition classmate : user_row :=
  mkUser "380507654321" "Classmate" "10-B" "учень" (Some 1002) 1.

Definition chemistry : lesson_row :=
  mkLesson "10-B" "Понеділок" 1 "Chemistry" "Teacher" "08:30" "09:15".

Definition smudged_db : DB := mkDB [pupil; classmate] [smudged; algebra; chemistry] [].

(** Three subscribers in the order of the table: one of class 10-B, one
    of class 10-A, and a second one of class 10-B.  Class 10-A has a
    Tuesday lesson whose stored start time has no colon. *)
Definition freshman : user_row :=
  mkUser "380509998877" "Freshman" "10-B" "учень" (Some 1003) 1.

Definition smudged_tuesday : lesson_row :=
  mkLesson "10-A" "Вівторок" 1 "Physics" "Teacher" "0745" "08:30".

Definition starved_db : DB :=
  mkDB [classmate; pupil; freshman] [chemistry; algebra; smudged_tuesday] [].

(** how many coroutines the events schedule for a document id *)
Definition scheduled_for (doc : string) (evs : list feed_event) : nat :=
  length (List.filter (fun e => match e with
                                | Scheduled d _ => String.eqb d doc
                                | _ => false
                                end) evs).

(** whether an action is a delete of the document that went through *)
Definition deletes (doc : string) (a : feed_action) : bool :=
  match a with
  | DeleteApplication app_id delete_ok => String.eqb app_id doc && delete_ok
  | _ => false
  end.

(** the boolean that [_init_firebase] returns *)
Definition init_succeeded (r : result bool * boot) : bool :=
  match fst r with
  | Ok ok => ok
  | Raise _ => false
  end.

(** The causes for which [_init_firebase] answers [False]: the library
    is not there, the credentials file is not there, the certificate or
    the app cannot be made (when no app exists yet), or the client
    cannot be made; and the record that it logs for each. *)
Definition init_fails (FIREBASE_AVAILABLE : bool) (env : firebase_calls) (apps : bool)
  : bool :=
  negb FIREBASE_AVAILABLE
  || negb (credentials_exist env)
  || (negb apps && (negb (certificate_ok env) || negb (initialize_app_ok env)))
  || negb (client_ok env).

Definition init_failure_record (FIREBASE_AVAILABLE : bool) (env : firebase_calls)
  : feed_event :=
  if negb FIREBASE_AVAILABLE then WarnFirebaseUnavailable
  else if negb (credentials_exist env) then WarnCredentialsMissing
  else ErrorFirebaseInit.

(** a backend on which every call succeeds, with the documents given *)
Definition healthy_backend (docs : list document) : firebase_calls :=
  mkCalls true true true true docs true true.

(** a backend whose client cannot be constructed *)
Definition broken_client : firebase_calls :=
  mkCalls true true true false [] true true.

Definition new_application : gmap string fs_value :=
  {[ "status" := VStr "new" ]}.

Definition published_article : gmap string fs_value :=
  {[ "published" := VBool true ]}.

(** the two instances of the listener *)
Definition feed_on_snapshot (which : feed) :=
  match which with
  | Applications => ApplicationsListener._on_snapshot
  | News => NewsListener._on_snapshot
  end.

Definition feed_run (which : feed) :=
  match which with
  | Applications => ApplicationsListener.run
  | News => NewsListener.run
  end.

(** the listener object after [start_listening] on a fresh one *)
Definition started (which : feed) (FIREBASE_AVAILABLE : bool) (env : firebase_calls)
           (apps : bool) : listener :=
  b_self (snd (feed_start_listening which FIREBASE_AVAILABLE env
                 (mkBoot apps new_listener []))).

(** an application arrives as a new document "a1" *)
Definition a1_added : feed_action :=
  SnapshotBatch true [mkChange ADDED (mkDocument "a1" (Some new_application))].

Definition a1_modified : list change :=
  [mkChange MODIFIED (mkDocument "a1" (Some new_application))].

(** every backend call of one [start_listening] succeeds *)
Definition healthy (env : firebase_calls) : bool :=
  credentials_exist env && certificate_ok env && initialize_app_ok env
  && client_ok env && stream_ok env && on_snapshot_ok env.

(** whether a listener of the process holds a subscription *)
Definition subscribed (l : option listener) : bool :=
  match l with
  | Some self => ls_unsubscribe self
  | None => false
  end.

(** The attempts of one fan-out pass, grouped by recipient: whether a
    group holds a successful call, how many groups do and how many do
    not, and what it means for the groups to follow the recipient list
    (one non-empty group per recipient, in order, addressed to it). *)
Definition delivered (g : list (request * bool)) : bool := existsb snd g.

Definition successes (groups : list (list (request * bool))) : Z :=
  Z.of_nat (length (List.filter delivered groups)).

Definition failures (groups : list (list (request * bool))) : Z :=
  Z.of_nat (length (List.filter (fun g => negb (delivered g)) groups)).

Definition attempted_each (recipients : list Z) (groups : list (list (request * bool)))
  : Prop :=
  Forall2 (fun tg_id g => g <> [] /\ Forall (fun a => r_chat (fst a) = tg_id) g)
          recipients groups.

(** one group per recipient, in order, holding calls addressed to it
    (none, when no call was made for the recipient) *)
Definition addressed_each (recipients : list Z) (groups : list (list (request * bool)))
  : Prop :=
  Forall2 (fun tg_id g => Forall (fun a => r_chat (fst a) = tg_id) g) recipients groups.

(** five subscribers; the transport refuses every call for the third *)
Definition five_users : list user_row :=
  [mkUser "1" "A" "10-A" "учень" (Some 101) 1;
   mkUser "2" "B" "10-A" "учень" (Some 102) 1;
   mkUser "3" "C" "10-A" "учень" (Some 103) 1;
   mkUser "4" "D" "10-A" "учень" (Some 104) 1;
   mkUser "5" "E" "10-A" "учень" (Some 105) 1].

Definition third_is_unreachable (n : nat) (req : request) : bool :=
  negb (r_chat req =? 103).

Definition illustrated_article : gmap string fs_value :=
  {[ "published" := VBool true; "image" := VStr "https://bgpk-liceum.site/cover.png" ]}.

(** the answers of the ledger query for a key, in order *)
Definition checks (k : dedup_key) (tr : list event) : list bool :=
  omap (fun e => match e with
                 | Checked k' already_sent => if key_eqb k' k then Some already_sent else None
                 | _ => None
                 end) tr.

(** three minutes before Algebra, and a transport that refuses its
    first five calls *)
Definition monday_0827 (n : nat) : datetime := mkDatetime 1 8 27 0 0.

Definition refuses_five_calls (n : nat) (req : request) : bool := (5 <=? n)%nat.

(** a transport that refuses its first call only *)
Definition refuses_first_call (n : nat) (req : request) : bool := (1 <=? n)%nat.

(** whether the start time of a lesson either parses or raises what the
    scanning loops catch *)
Definition start_time_is_guarded (lesson : lesson_row) : bool :=
  match lesson_start (mkDatetime 0 0 0 0 0) lesson with
  | Ok _ => true
  | Raise e => is_ValueError_or_KeyError e
  end.

(** What a scan does with a lesson that it does not return: the start
    time parses and lies outside the window (the lesson has begun
    already, or it starts after the window), or parsing it raises what
    the loop catches and the lesson is skipped.  [base] is [now] for
    today's scan and [now] plus a day for tomorrow's. *)
Definition passed_over (base now : datetime) (minutes_ahead : Z) (lesson : lesson_row)
  : bool :=
  match lesson_start base lesson with
  | Ok start_time =>
      (timedelta_us start_time now <? 0)
      || (minutes_ahead * us_per_minute <? timedelta_us start_time now)
  | Raise e => is_ValueError_or_KeyError e
  end.

(** the chats whose send raised, and the chats of the send errors that
    the scanner logged *)
Definition refused (tr : list event) : list Z :=
  omap (fun e => match e with Sent req false => Some (r_chat req) | _ => None end) tr.

Definition send_errors_logged (tr : list event) : list Z :=
  omap (fun e => match e with Log (LogSendError tg_id _) => Some tg_id | _ => None end) tr.

(** the records that the two scanning loops write *)
Definition scan_record (r : log_record) : bool :=
  match r with
  | LogMatchToday _ | LogMatchTomorrow _
  | LogLessonParseError _ _ | LogTomorrowParseError _ => true
  | _ => false
  end.

(** The invariant of a tick whose stored start times are all guarded:
    the subscribers taken up so far are [seen], nothing reached the
    handler of the tick, and every send that raised was logged. *)
Definition tick_goes_on (seen : list string) (w : World) : Prop :=
  Forall (fun l => start_time_is_guarded l = true) (schedule (w_db w)) /\
  visited (w_trace w) = seen /\
  critical_errors (w_trace w) = [] /\
  send_errors_logged (w_trace w) = refused (w_trace w).

(** the first tick reads the clock six times at 08:12; the readings of
    the second tick are taken at 08:20 *)
Definition monday_0812_then_0820 (n : nat) : datetime :=
  if (n <? 6)%nat then mkDatetime 1 8 12 0 0 else mkDatetime 1 8 20 0 0.

(** ** The rest of the database layer

    These functions of the source read and write the global [DB]; here
    they take the tables and return them.  Of the [users] table the
    record [user_row] keeps the columns that the modelled code reads;
    [registered_at] and [welcomed], which [db_upsert_user] also fills
    in, are not among them. *)

Definition is_digit (c : ascii) : bool :=
  match digit_val c with
  | Some _ => true
  | None => false
  end.

(** a character that is a decimal digit: what the pattern [\d] matches *)
Definition is_decimal_char (ch : list ascii) : bool :=
  match code_point ch with
  | Some cp => match to_decimal cp with Some _ => true | None => false end
  | None => false
  end.

(** [re.sub(r"\D+", "", phone or "")]: the decimal digits of the text
    stay, those of other scripts as they are *)
Definition normalize_phone (phone : option string) : string :=
  string_of_list_ascii
    (concat (List.filter is_decimal_char (chars (list_ascii_of_string (default "" phone))))).

(** [UPDATE users SET ... WHERE phone = ?] *)
Definition update_users (d : DB) (phone_norm : string) (set : user_row -> user_row) : DB :=
  mkDB (map (fun u => if String.eqb (u_phone u) phone_norm then set u else u) (users d))
       (schedule d) (notifications_sent d).

(** [SELECT * FROM users WHERE tg_id = ?] then [fetchone()] *)
Definition db_get_user_by_tg (d : DB) (tg_id : Z) : option user_row :=
  List.find (fun u => match u_tg_id u with
                      | Some t => t =? tg_id
                      | None => false
                      end) (users d).

(** [db_bind_tg_to_phone]: the UPDATE is refused ([None], an
    [sqlite3.IntegrityError]) when it would leave two rows with the
    same [tg_id], as the unique index [idx_users_tg_id] that [db_init]
    creates demands. *)
Definition db_bind_tg_to_phone (d : DB) (tg_id : Z) (phone_norm : string) : option DB :=
  let updated := List.filter (fun u => String.eqb (u_phone u) phone_norm) (users d) in
  let others := List.filter (fun u => negb (String.eqb (u_phone u) phone_norm)) (users d) in
  let taken := existsb (fun u => match u_tg_id u with
                                 | Some t => t =? tg_id
                                 | None => false
                                 end) others in
  match updated with
  | [] => Some d
  | [_] =>
      if taken then None
      else Some (update_users d phone_norm
                   (fun u => mkUser (u_phone u) (u_fio u) (u_class_name u) (u_role u)
                                    (Some tg_id) (u_events_notifications u)))
  | _ :: _ :: _ => None
  end.

(** [db_upsert_user]; a new row has no [tg_id] and the column default 1
    in [events_notifications]. *)
Definition db_upsert_user (d : DB) (phone_norm fio class_name role : string) : DB :=
  match db_get_user d phone_norm with
  | Some existing =>
      update_users d phone_norm
        (fun u => mkUser (u_phone u) fio class_name role (u_tg_id u)
                         (u_events_notifications u))
  | None =>
      mkDB (users d ++ [mkUser phone_norm fio class_name role None 1])
           (schedule d) (notifications_sent d)
  end.

(** [db_toggle_events_notifications] *)
Definition db_toggle_events_notifications (d : DB) (phone_norm : string) : DB :=
  let current := match db_get_user d phone_norm with
                 | Some user => u_events_notifications user
                 | None => 1
                 end in
  let new_value := 1 - current in
  update_users d phone_norm
    (fun u => mkUser (u_phone u) (u_fio u) (u_class_name u) (u_role u) (u_tg_id u) new_value).

(** [db_get_user_role] *)
Definition db_get_user_role (d : DB) (phone_norm : string) : string :=
  match db_get_user d phone_norm with
  | Some user => u_role user
  | None => "учень"
  end.

Definition is_admin (d : DB) (phone_norm : string) : bool :=
  String.eqb (db_get_user_role d phone_norm) "admin".

(** [db_set_user_role] *)
Definition db_set_user_role (d : DB) (phone_norm role : string) : DB :=
  update_users d phone_norm
    (fun u => mkUser (u_phone u) (u_fio u) (u_class_name u) role (u_tg_id u)
                     (u_events_notifications u)).

(** the columns of the UNIQUE constraint of [schedule] *)
Definition same_slot (a b : lesson_row) : bool :=
  String.eqb (l_class_name a) (l_class_name b)
  && String.eqb (l_day_name a) (l_day_name b)
  && (l_lesson_number a =? l_lesson_number b).

(** [db_insert_schedule]: INSERT OR REPLACE deletes the row that holds
    the slot (class, day, lesson number) and adds the new one. *)
Definition db_insert_schedule (d : DB) (class_name day_name : string) (lesson_number : Z)
           (subject teacher start_time end_time : string) : DB :=
  let row := mkLesson class_name day_name lesson_number subject teacher start_time end_time in
  mkDB (users d)
       (List.filter (fun l => negb (same_slot l row)) (schedule d) ++ [row])
       (notifications_sent d).

(** [db_get_schedule_for_user_today], which reads the clock once when
    the subscriber is known *)
Definition db_get_schedule_for_user_today (clock : nat -> datetime) (phone_norm : string)
  : M (list lesson_row) :=
  let! d := get_db in
  match db_get_user d phone_norm with
  | None => ret []
  | Some user =>
      let! now := datetime_now clock in
      ret (select_schedule d (u_class_name user) (day_ua (weekday now)))
  end.

(** the primary key of [users] and the unique index on [tg_id] *)
Definition phones_unique (d : DB) : Prop := NoDup (map u_phone (users d)).

Definition tg_ids_unique (d : DB) : Prop := NoDup (omap u_tg_id (users d)).

(** the UNIQUE constraint of [schedule] *)
Definition slot_of (l : lesson_row) : string * string * Z :=
  (l_class_name l, l_day_name l, l_lesson_number l).

Definition slots_unique (d : DB) : Prop := NoDup (map slot_of (schedule d)).

(** text whose bytes are all ASCII *)
Definition is_ascii_text (s : string) : Prop :=
  Forall (fun c => (nat_of_ascii c < 128)%nat) (list_ascii_of_string s).

(** [ORDER BY lesson_number] with no two rows on one number *)
Definition in_lesson_order (lessons : list lesson_row) : Prop :=
  StronglySorted (fun a b => l_lesson_number a < l_lesson_number b) lessons.

(** the lesson starts, on the date of [base], at most [minutes_ahead]
    minutes after [now] and not before it *)
Definition starts_within (base now : datetime) (minutes_ahead : Z) (lesson : lesson_row)
  : Prop :=
  exists start_time,
    lesson_start base lesson = Ok start_time /\
    0 <= timedelta_us start_time now <= minutes_ahead * us_per_minute.

(** ** Views of a tick *)

(** the events that the user loop writes outside the [try] around the
    send *)
Definition is_marker (e : event) : bool :=
  match e with
  | Log _ | Visited _ | Lookup _ _ | Checked _ _ => true
  | _ => false
  end.

(** a transport call that carries a lesson of the timetable, as plain
    text, to the chat of a subscriber who has notifications on *)
Definition is_lesson_notice_for (d : DB) (s : request * bool) : Prop :=
  exists user lesson,
    In user (users d) /\
    u_tg_id user = Some (r_chat (fst s)) /\
    db_get_events_notifications d (u_phone user) = true /\
    r_kind (fst s) = SendMessage /\
    r_payload (fst s) = LessonNotice lesson /\
    In lesson (schedule d).

(** the tables are those of [d0] and every transport call so far
    satisfies [P] *)
Definition sends_satisfy (P : request * bool -> Prop) (d0 : DB) (w : World) : Prop :=
  users (w_db w) = users d0 /\ schedule (w_db w) = schedule d0 /\
  Forall P (sends (w_trace w)).

(** the [asyncio.sleep] calls of the trace *)
Definition sleeps (tr : list event) : list Z :=
  omap (fun e => match e with Slept seconds => Some seconds | _ => None end) tr.

(** the lessons (day name, lesson number) of the ledger rows, and of
    the lesson notices whose send returned *)
Definition recorded_lessons (d : DB) : list (string * Z) :=
  map (fun r => (s_day_name r, s_lesson_number r)) (notifications_sent d).

Definition delivered_lessons (tr : list event) : list (string * Z) :=
  omap (fun e => match e with
                 | Sent req true =>
                     match r_payload req with
                     | LessonNotice l => Some (l_day_name l, l_lesson_number l)
                     | _ => None
                     end
                 | _ => None
                 end) tr.

(** the ledger is [pre] followed by one row per delivered notice *)
Definition ledger_follows_sends (pre : list (string * Z)) (w : World) : Prop :=
  recorded_lessons (w_db w) = (pre ++ delivered_lessons (w_trace w))%list.

(** the [users] and [schedule] tables are those of [d0] *)
Definition tables_of (d0 : DB) (w : World) : Prop :=
  users (w_db w) = users d0 /\ schedule (w_db w) = schedule d0.

(** the test of [_on_snapshot] in each listener class *)
Definition feed_qualifies (which : feed) : gmap string fs_value -> bool :=
  match which with
  | Applications => status_is_new
  | News => is_published
  end.

(** ** Views of an announcement pass *)



(** the transport calls that the news loop makes for one recipient: the
    photo and, when that call raised, the text; the text alone when
    there is no image; none when testing the image raised *)
Definition news_attempts (news_id : string) (image_url : fs_value) (user_id : Z)
           (g : list (request * bool)) : Prop :=
  let photo := mkRequest SendPhoto user_id (NewsNotice news_id) in
  let text := mkRequest SendMessage user_id (NewsNotice news_id) in
  match image_given image_url with
  | Ok true => g = [(photo, true)] \/ exists ok, g = [(photo, false); (text, ok)]
  | Ok false => exists ok, g = [(text, ok)]
  | Raise _ => g = []
  end.

(** the transport calls of a news pass for one recipient: those of the
    loop, which is reached when the text of the notification could be
    rendered *)
Definition news_pass_attempts (news_id : string) (news_data : gmap string fs_value)
           (user_id : Z) (g : list (request * bool)) : Prop :=
  match format_news_notification news_data with
  | Ok _ => news_attempts news_id (dict_get news_data "image" (VStr "")) user_id g
  | Raise _ => g = []
  end.

(** the record that ends a news pass *)
Definition news_report (news_data : gmap string fs_value) (recipients : list Z)
           (groups : list (list (request * bool))) : log_record :=
  match recipients with
  | [] => LogNoNewsRecipients
  | _ =>
      match format_news_notification news_data with
      | Ok _ => LogNewsDone (successes groups) (failures groups)
      | Raise e => LogNewsFailed e
      end
  end.

(** ** Helpers of the handlers *)

(** [s.split()]: the maximal runs of characters that are not white
    space ([word] is the run being read) *)
Fixpoint split_whitespace (s : list (list ascii)) (word : list ascii) : list (list ascii) :=
  match s with
  | [] => match word with [] => [] | _ => [word] end
  | ch :: rest =>
      if isspace ch then
        match word with
        | [] => split_whitespace rest []
        | _ => word :: split_whitespace rest []
        end
      else split_whitespace rest (word ++ ch)
  end.

(** [is_valid_fio]:
      [parts = [p for p in (text or "").split() if p.strip()]]
      [return len(parts) >= 3] *)
Definition is_valid_fio (text : option string) : bool :=
  let parts :=
    List.filter (fun p => match strip (chars p) with [] => false | _ => true end)
                (split_whitespace (chars (list_ascii_of_string (default "" text))) []) in
  (3 <=? length parts)%nat.

(** one character: as many bytes as its first byte announces *)
Definition is_char (ch : list ascii) : bool :=
  match ch with
  | b :: _ => (length ch =? utf8_len b)%nat
  | [] => false
  end.

(** white space: characters that are white space, any number of them *)
Definition is_blank (g : list (list ascii)) : bool :=
  forallb (fun ch => is_char ch && isspace ch) g.

(** a word: characters, at least one, none of them white space *)
Definition is_word (w : list (list ascii)) : bool :=
  match w with
  | [] => false
  | _ => forallb (fun ch => is_char ch && negb (isspace ch)) w
  end.

(** a gap: white space, at least one character of it *)
Definition is_gap (g : list (list ascii)) : bool :=
  match g with
  | [] => false
  | _ => is_blank g
  end.

(** the characters of [lead], of a first word, of gap and word in turn,
    and of [trail] *)
Definition spaced_words (lead first : list (list ascii))
           (more : list (list (list ascii) * list (list ascii)))
           (trail : list (list ascii)) : list (list ascii) :=
  (lead ++ first ++ concat (map (fun gw => fst gw ++ snd gw) more) ++ trail)%list.

(** the no-break space (U+00A0) and the thin space (U+2009) *)
Definition no_break_space : string :=
  String (ascii_of_nat 194) (String (ascii_of_nat 160) EmptyString).

Definition thin_space : string :=
  String (ascii_of_nat 226) (String (ascii_of_nat 128) (String (ascii_of_nat 137) EmptyString)).

(** the loop of [kb_subjects] over the button texts: [rows] and [row]
    are its two variables *)
Fixpoint kb_rows (subjects : list string) (rows : list (list string)) (row : list string)
  : list (list string) :=
  match subjects with
  | [] => match row with [] => rows | _ => (rows ++ [row])%list end
  | s :: rest =>
      let row := (row ++ [s])%list in
      if (length row =? 2)%nat then kb_rows rest (rows ++ [row])%list []
      else kb_rows rest rows row
  end.

(** consecutive pairs, the last row holding one text when the number of
    texts is odd *)
Fixpoint pairs_of (texts : list string) : list (list string) :=
  match texts with
  | a :: b :: rest => [a; b] :: pairs_of rest
  | [a] => [[a]]
  | [] => []
  end.

(** [SUBJECTS] and [TEACHERS]; a teacher is a name and a room *)
Definition SUBJECTS : list string :=
  ["Алгебра";
   "Геометрія";
   "Фізика та астрономія";
   "Хімія";
   "Українська мова";
   "Українська література";
   "Іноземна мова";
   "Історія України";
   "Всесвітня історія";
   "Зарубіжна література";
   "Біологія та екологія";
   "Географія";
   "Інформатика";
   "Захист України";
   "Правознавство";
   "Громадянська освіта";
   "Фізична культура";
   "Фінансова грамотність";
   "Мистецтво";
   "Практикум усного і писемного мовлення";
   "Практикум з математики";
   "Практичні основи юридичної проф.";
   "Година куратора"].

Definition TEACHERS : list (string * list (string * string)) :=
  [("Алгебра", [("Погребнюк Н.О.", "110"); ("Білик Ю.П.", "101")]);
   ("Геометрія", [("Погребнюк Н.О.", "110"); ("Білик Ю.П.", "101")]);
   ("Фізика та астрономія", [("Хомчак В.М.", "304")]);
   ("Хімія", [("Нечитайло М.М.", "302")]);
   ("Українська мова", [("Слободянюк Л.М.", "201")]);
   ("Українська література", [("Королюк Г.Ф.", "306")]);
   ("Іноземна мова", [("Журавель О.Д.", "311")]);
   ("Практикум з математики", [("Погребнюк Н.О.", "110"); ("Білик Ю.П.", "101")]);
   ("Практикум усного і писемного мовлення", [("Шостаківська Г.Г.", "—")]);
   ("Історія України", [("Харитонова І.В.", "207")]);
   ("Всесвітня історія", [("Маліновський Ю.Л.", "307")]);
   ("Зарубіжна література", [("Середюк С.Д.", "103")]);
   ("Біологія та екологія", [("Новак В.В.", "302")]);
   ("Географія", [("Косюк Н.А.", "203")]);
   ("Інформатика", [("Зеленюк С.В.", "—"); ("Білик Ю.П.", "—")]);
   ("Захист України", [("Радлієвський В.В.", "—")]);
   ("Громадянська освіта", [("Лемпій О.В.", "306"); ("Гуцол Д.О.", "306")]);
   ("Правознавство", [("Лемпій О.В.", "103")]);
   ("Фізична культура", [("Прухніцький Е.А.", "спортзал")]);
   ("Фінансова грамотність", [("Блідченко Н.Г.", "107")]);
   ("Мистецтво", [("Гуцол Д.О.", "102")]);
   ("Практичні основи юридичної проф.", [("Супрун-Ковальчук Т.М.", "206")]);
   ("Година куратора", [("Куратор класу", "Ваша аудиторія")])].

Definition kb_subjects : list (list string) := kb_rows SUBJECTS [] [].

(** [TEACHERS.get(subject, [])] *)
Definition teachers_of (subject : string) : list (string * string) :=
  match List.find (fun entry => String.eqb (fst entry) subject) TEACHERS with
  | Some entry => snd entry
  | None => []
  end.

Definition newline : string := String (ascii_of_nat 10) EmptyString.

Definition no_teachers_text : string := "Поки що немає інформації по цьому предмету.".

(** [format_teachers] *)
Definition format_teachers (subject : string) : string :=
  match teachers_of subject with
  | [] => no_teachers_text
  | items =>
      String.concat newline
        (("**" ++ subject ++ "**" ++ newline)
         :: map (fun t => "• " ++ fst t ++ " — каб. " ++ snd t) items)
  end.

(** ** The message handlers

    One private chat: the tables, the state and the data that the FSM
    storage keeps for the chat, and the calls of [message.answer] with
    their outcomes.  The column [welcomed] of [users] is kept beside the
    tables, as the set of the phones whose row has [welcomed = 1]. *)

Inductive fsm_state : Type :=
| Reg_waiting_for_phone
| Reg_confirm_found_fio
| Reg_input_fio
| Reg_confirm_input_fio
| Reg_choose_class
| Reg_confirm_class
| Form_waiting_for_class
| Form_waiting_for_day
| Teachers_waiting_for_subject
| Settings_main_menu
| AdminAnnouncement_waiting_for_announcement
| AdminAnnouncement_waiting_for_file.

(** the keys of the FSM data that [start] and [handle_message] read or
    write *)
Record fsm_data : Type := mkData {
  d_phone : option string;
  d_tg_id : option Z;
  d_found_fio : option string;
  d_fio : option string;
  d_class_name : option string
}.

Definition no_data : fsm_data := mkData None None None None None.

(** of an incoming message: [from_user.id], [text], and
    [contact.phone_number] when there is a contact *)
Record message : Type := mkMessage {
  m_from_user : Z;
  m_text : option string;
  m_contact : option string
}.

(** of a news document, as [get_latest_news] returns it: the id of the
    document, and its fields [content] and [image] ([None] for a field
    that the document does not have) *)
Record news_item : Type := mkNews {
  n_id : string;
  n_content : option fs_value;
  n_image : option fs_value
}.

(** [format_news_post]: like [_format_news_notification], it needs the
    content to be a text; the text it renders is not kept *)
Definition format_news_post (news : news_item) : result unit :=
  match default (VStr "") (n_content news) with
  | VStr _ => Ok tt
  | _ => Raise TypeError
  end.

(** What the bot answers; each constructor is one text of the source
    with its keyboard, and keeps the values that the text interpolates. *)
Inductive reply : Type :=
| AlreadyRegistered (fio class_name : string)
| MainMenu
| Greeting
| ChooseSubjectButton
| TeachersText (text : string)
| PressShare
| Thanks
| IsThisYourFio (fio : string)
| NotFoundWriteFio
| PressYesOrNo
| Welcome
| EnterCorrectFio
| FioFormat
| IsFioCorrect (fio : string)
| ChooseYourClass
| ChooseClassButton
| YouChose (class_name : string)
| ChooseClassAgain
| WhichDay
| ChooseClassText
| ChooseClassKeyboard
| NoTimetableYet
| Timetable (class_name : option string) (day : string) (lessons : list lesson_row)
| ChooseDayText
| Cancelled
| ChooseSubject
| LoadingSettings
| SettingsPanel (notifications_enabled : bool)
| NoNews
| NewsPhoto (news_id : string)
| NewsText (news_id : string)
| DontKnow
| NotificationsNow (notifications_enabled : bool)
| ChooseOptionBelow.

Inductive chat_event : Type :=
| Answered (r : reply) (ok : bool)
| Paused.

(** what leaves a handler: an exception of the modelled code, or the
    [sqlite3.IntegrityError] of an UPDATE that the unique index refuses *)
Inductive handler_exn : Type :=
| Python (e : exn)
| IntegrityError.

Inductive outcome (A : Type) : Type :=
| Returned (a : A)
| Raised (e : handler_exn).

Arguments Returned {A} a.
Arguments Raised {A} e.

Record Chat : Type := mkChat {
  c_db : DB;
  c_welcomed : gset string;
  c_state : option fsm_state;
  c_data : fsm_data;
  c_answers : nat;
  c_fetches : nat;
  c_out : list chat_event
}.

Definition Handler (A : Type) : Type := Chat -> outcome A * Chat.

Definition hret {A} (a : A) : Handler A := fun c => (Returned a, c).

Definition hraise {A} (e : handler_exn) : Handler A := fun c => (Raised e, c).

Definition hbind {A B} (m : Handler A) (f : A -> Handler B) : Handler B :=
  fun c =>
    match m c with
    | (Returned a, c') => f a c'
    | (Raised e, c') => (Raised e, c')
    end.

Notation "'let?' x ':=' m 'in' k" := (hbind m (fun x => k))
  (at level 10, x binder, m at level 100, k at level 200).
Notation "'do?' m 'then' k" := (hbind m (fun _ => k))
  (at level 10, m at level 100, k at level 200).

(** [try: body  except Exception: handler] *)
Definition htry {A} (body handler : Handler A) : Handler A :=
  fun c =>
    match body c with
    | (Returned a, c') => (Returned a, c')
    | (Raised _, c') => handler c'
    end.

Definition get_tables : Handler DB := fun c => (Returned (c_db c), c).

Definition set_tables (d : DB) : Handler unit :=
  fun c => (Returned tt, mkChat d (c_welcomed c) (c_state c) (c_data c)
                                (c_answers c) (c_fetches c) (c_out c)).

(** [state.get_state()], [state.get_data()], [state.set_state(s)],
    [state.update_data(...)], [state.clear()] *)
Definition get_state : Handler (option fsm_state) := fun c => (Returned (c_state c), c).

Definition get_data : Handler fsm_data := fun c => (Returned (c_data c), c).

Definition set_state (s : fsm_state) : Handler unit :=
  fun c => (Returned tt, mkChat (c_db c) (c_welcomed c) (Some s) (c_data c)
                                (c_answers c) (c_fetches c) (c_out c)).

Definition update_data (f : fsm_data -> fsm_data) : Handler unit :=
  fun c => (Returned tt, mkChat (c_db c) (c_welcomed c) (c_state c) (f (c_data c))
                                (c_answers c) (c_fetches c) (c_out c)).

Definition state_clear : Handler unit :=
  fun c => (Returned tt, mkChat (c_db c) (c_welcomed c) None no_data
                                (c_answers c) (c_fetches c) (c_out c)).

(** [data[key]] *)
Definition data_item {A} (value : option A) : Handler A :=
  match value with
  | Some v => hret v
  | None => hraise (Python KeyError)
  end.

(** [await asyncio.sleep(0.5)] *)
Definition pause : Handler unit :=
  fun c => (Returned tt, mkChat (c_db c) (c_welcomed c) (c_state c) (c_data c)
                                (c_answers c) (c_fetches c) (c_out c ++ [Paused])).

(** [message.text == s] and [message.text in (...)] *)
Definition text_is (text : option string) (s : string) : bool :=
  match text with
  | Some t => String.eqb t s
  | None => false
  end.

Definition text_in (text : option string) (options : list string) : bool :=
  existsb (text_is text) options.

Definition class_names : list string := ["10-А"; "10-Б"; "11-А"; "11-Б"].

Definition school_days : list string :=
  ["Понеділок"; "Вівторок"; "Середа"; "Четвер"; "П'ятниця"].

(** [s.strip()] *)
Definition py_strip (s : string) : string :=
  string_of_list_ascii (concat (strip (chars (list_ascii_of_string s)))).

(** [db_is_welcomed] and [db_set_welcomed] *)
Definition db_is_welcomed (d : DB) (welcomed : gset string) (phone_norm : string) : bool :=
  match db_get_user d phone_norm with
  | Some _ => bool_decide (phone_norm ∈ welcomed)
  | None => false
  end.

Definition db_set_welcomed (d : DB) (welcomed : gset string) (phone_norm : string)
  : gset string :=
  match db_get_user d phone_norm with
  | Some _ => {[phone_norm]} ∪ welcomed
  | None => welcomed
  end.

(** the timetable query of [handle_message]; a missing class is a NULL
    parameter, which no row equals *)
Definition timetable (d : DB) (class_name : option string) (day : string)
  : list lesson_row :=
  match class_name with
  | Some c => select_schedule d c day
  | None => []
  end.

Section Handlers.

(** The outside world of a handler: the [n]-th call of [message.answer]
    or [message.answer_photo] returns when [delivers n r] and raises
    otherwise; the [n]-th query of [get_latest_news] finds the
    published news [published_news n], newest first (none when the
    listener has no client or the query raises). *)
Variable delivers : nat -> reply -> bool.
Variable published_news : nat -> list news_item.

Definition answer (r : reply) : Handler unit :=
  fun c =>
    let ok := delivers (c_answers c) r in
    (if ok then Returned tt else Raised (Python TelegramAPIError),
     mkChat (c_db c) (c_welcomed c) (c_state c) (c_data c)
            (S (c_answers c)) (c_fetches c) (c_out c ++ [Answered r ok])).

Definition show_main_menu : Handler unit := answer MainMenu.

(** [get_latest_news(limit)] *)
Definition get_latest_news (limit : nat) : Handler (list news_item) :=
  fun c =>
    (Returned (firstn limit (published_news (c_fetches c))),
     mkChat (c_db c) (c_welcomed c) (c_state c) (c_data c)
            (c_answers c) (S (c_fetches c)) (c_out c)).

(** [db_bind_tg_to_phone] on the tables of the chat *)
Definition bind_tg_to_phone (tg_id : Z) (phone_norm : string) : Handler unit :=
  let? d := get_tables in
  match db_bind_tg_to_phone d tg_id phone_norm with
  | Some d' => set_tables d'
  | None => hraise IntegrityError
  end.

(** [db_upsert_user]; the INSERT of a new row writes [welcomed = 0] *)
Definition upsert_user (phone_norm fio class_name role : string) : Handler unit :=
  fun c =>
    (Returned tt,
     mkChat (db_upsert_user (c_db c) phone_norm fio class_name role)
            (match db_get_user (c_db c) phone_norm with
             | Some _ => c_welcomed c
             | None => c_welcomed c ∖ {[phone_norm]}
             end)
            (c_state c) (c_data c) (c_answers c) (c_fetches c) (c_out c)).

(** [if not db_is_welcomed(phone_norm): answer(...); db_set_welcomed(phone_norm)] *)
Definition welcome_once (phone_norm : string) : Handler unit :=
  fun c =>
    if db_is_welcomed (c_db c) (c_welcomed c) phone_norm then (Returned tt, c)
    else
      (do? answer Welcome then
       fun c1 =>
         (Returned tt,
          mkChat (c_db c1) (db_set_welcomed (c_db c1) (c_welcomed c1) phone_norm)
                 (c_state c1) (c_data c1) (c_answers c1) (c_fetches c1) (c_out c1))) c.

(** [start] *)
Definition start (message : message) : Handler unit :=
  do? state_clear then
  let tg_id := m_from_user message in
  let? d := get_tables in
  match db_get_user_by_tg d tg_id with
  | Some user =>
      do? answer (AlreadyRegistered (u_fio user) (u_class_name user)) then
      show_main_menu
  | None =>
      do? answer Greeting then
      set_state Reg_waiting_for_phone
  end.

(** the loop [for news in news_list] of the branch "Події" *)
Fixpoint send_news (news_list : list news_item) : Handler unit :=
  match news_list with
  | [] => hret tt
  | news :: rest =>
      do? (match format_news_post news with
           | Ok _ => hret tt
           | Raise e => hraise (Python e)
           end) then
      let? with_image :=
        (match image_given (default (VStr "") (n_image news)) with
         | Ok b => hret b
         | Raise e => hraise (Python e)
         end) in
      do? (if with_image then
             htry (answer (NewsPhoto (n_id news))) (answer (NewsText (n_id news)))
           else answer (NewsText (n_id news))) then
      do? pause then
      send_news rest
  end.

(** the end of [handle_message]: the branches that do not depend on the
    state, the answer to anything else, and the block for
    [Settings.main_menu] that follows that answer *)
Definition menu (message : message) (current_state : option fsm_state) : Handler unit :=
  let text := m_text message in
  let tg_id := m_from_user message in
  if text_is text "Скасувати" then
    do? state_clear then
    do? answer Cancelled then
    show_main_menu
  else if text_is text "Предмети" then
    do? set_state Teachers_waiting_for_subject then
    answer ChooseSubject
  else if text_is text "Розклад" then
    do? set_state Form_waiting_for_class then
    answer ChooseClassKeyboard
  else if text_is text "Параметри" then
    do? set_state Settings_main_menu then
    let? d := get_tables in
    match db_get_user_by_tg d tg_id with
    | Some user =>
        let notifications_enabled := db_get_events_notifications d (u_phone user) in
        do? answer LoadingSettings then
        answer (SettingsPanel notifications_enabled)
    | None => hret tt
    end
  else if text_is text "Події" then
    let? news_list := get_latest_news 3 in
    match news_list with
    | [] => answer NoNews
    | _ => send_news news_list
    end
  else
    do? answer DontKnow then
    match current_state with
    | Some Settings_main_menu =>
        if text_is text "Назад" then
          do? state_clear then
          show_main_menu
        else if text_is text "Уведомлення про події" then
          let? d := get_tables in
          match db_get_user_by_tg d tg_id with
          | Some user =>
              let phone_norm := u_phone user in
              do? set_tables (db_toggle_events_notifications d phone_norm) then
              let? d' := get_tables in
              let notifications_enabled := db_get_events_notifications d' phone_norm in
              do? answer (NotificationsNow notifications_enabled) then
              do? state_clear then
              show_main_menu
          | None => hret tt
          end
        else answer ChooseOptionBelow
    | _ => hret tt
    end.

(** [handle_message] *)
Definition handle_message (message : message) : Handler unit :=
  let? current_state := get_state in
  let text := m_text message in
  match current_state with
  | Some Teachers_waiting_for_subject =>
      match text with
      | Some subject =>
          if existsb (String.eqb subject) SUBJECTS then
            do? answer (TeachersText (format_teachers subject)) then
            do? state_clear then
            show_main_menu
          else answer ChooseSubjectButton
      | None => answer ChooseSubjectButton
      end
  | Some Reg_waiting_for_phone =>
      match m_contact message with
      | None => answer PressShare
      | Some phone_number =>
          if String.eqb phone_number "" then answer PressShare
          else
            do? answer Thanks then
            let tg_id := m_from_user message in
            let phone_norm := normalize_phone (Some phone_number) in
            do? update_data (fun data =>
                  mkData (Some phone_norm) (Some tg_id) (d_found_fio data)
                         (d_fio data) (d_class_name data)) then
            let? d := get_tables in
            match db_get_user d phone_norm with
            | Some user_by_phone =>
                do? update_data (fun data =>
                      mkData (d_phone data) (d_tg_id data) (Some (u_fio user_by_phone))
                             (d_fio data) (d_class_name data)) then
                do? answer (IsThisYourFio (u_fio user_by_phone)) then
                set_state Reg_confirm_found_fio
            | None =>
                do? answer NotFoundWriteFio then
                set_state Reg_input_fio
            end
      end
  | Some Reg_confirm_found_fio =>
      if negb (text_in text ["Так"; "Ні"]) then answer PressYesOrNo
      else
        let? data := get_data in
        let? phone_norm := data_item (d_phone data) in
        let? tg_id := data_item (d_tg_id data) in
        if text_is text "Так" then
          do? bind_tg_to_phone tg_id phone_norm then
          do? welcome_once phone_norm then
          do? state_clear then
          show_main_menu
        else
          do? answer EnterCorrectFio then
          set_state Reg_input_fio
  | Some Reg_input_fio =>
      let fio := py_strip (default "" text) in
      if negb (is_valid_fio (Some fio)) then answer FioFormat
      else
        do? update_data (fun data =>
              mkData (d_phone data) (d_tg_id data) (d_found_fio data)
                     (Some fio) (d_class_name data)) then
        do? answer (IsFioCorrect fio) then
        set_state Reg_confirm_input_fio
  | Some Reg_confirm_input_fio =>
      if negb (text_in text ["Так"; "Ні"]) then answer PressYesOrNo
      else if text_is text "Ні" then
        do? answer EnterCorrectFio then
        set_state Reg_input_fio
      else
        do? answer ChooseYourClass then
        set_state Reg_choose_class
  | Some Reg_choose_class =>
      match text with
      | Some class_name =>
          if existsb (String.eqb class_name) class_names then
            do? update_data (fun data =>
                  mkData (d_phone data) (d_tg_id data) (d_found_fio data)
                         (d_fio data) (Some class_name)) then
            do? answer (YouChose class_name) then
            set_state Reg_confirm_class
          else answer ChooseClassButton
      | None => answer ChooseClassButton
      end
  | Some Reg_confirm_class =>
      if negb (text_in text ["Так"; "Ні"]) then answer PressYesOrNo
      else if text_is text "Ні" then
        do? answer ChooseClassAgain then
        set_state Reg_choose_class
      else
        let? data := get_data in
        let? tg_id := data_item (d_tg_id data) in
        let? phone_norm := data_item (d_phone data) in
        let? fio := data_item (d_fio data) in
        let? class_name := data_item (d_class_name data) in
        do? upsert_user phone_norm fio class_name "учень" then
        do? bind_tg_to_phone tg_id phone_norm then
        do? welcome_once phone_norm then
        do? state_clear then
        show_main_menu
  | Some Form_waiting_for_class =>
      match text with
      | Some class_name =>
          if existsb (String.eqb class_name) class_names then
            do? update_data (fun data =>
                  mkData (d_phone data) (d_tg_id data) (d_found_fio data)
                         (d_fio data) (Some class_name)) then
            do? answer WhichDay then
            set_state Form_waiting_for_day
          else if String.eqb class_name "Назад" then
            do? state_clear then
            show_main_menu
          else answer ChooseClassText
      | None => answer ChooseClassText
      end
  | Some Form_waiting_for_day =>
      if text_is text "Назад" then
        do? set_state Form_waiting_for_class then
        answer ChooseClassKeyboard
      else
        match text with
        | Some day =>
            if existsb (String.eqb day) school_days then
              let? data := get_data in
              let class_name := d_class_name data in
              let? d := get_tables in
              let lessons := timetable d class_name day in
              do? (match lessons with
                   | [] => answer NoTimetableYet
                   | _ => answer (Timetable class_name day lessons)
                   end) then
              do? state_clear then
              show_main_menu
            else answer ChooseDayText
        | None => answer ChooseDayText
        end
  | _ => menu message current_state
  end.

(** the two handlers behind the dispatcher: [CommandStart()] filters
    the messages that [start] takes *)
Inductive incoming : Type :=
| StartCommand (message : message)
| Other (message : message).

Definition dispatch (i : incoming) : Handler unit :=
  match i with
  | StartCommand message => start message
  | Other message => handle_message message
  end.

(** a conversation: the handlers run one message after the other; an
    exception that leaves a handler ends that handler only *)
Fixpoint converse (messages : list incoming) (c : Chat) : Chat :=
  match messages with
  | [] => c
  | i :: rest => converse rest (snd (dispatch i c))
  end.

End Handlers.

(** the answers of the chat, in order *)
Definition answers (c : Chat) : list reply :=
  omap (fun e => match e with Answered r _ => Some r | Paused => None end) (c_out c).

(** what the registration states need in the FSM data: the phone and
    the Telegram id from [Reg.confirm_found_fio] on, a valid name from
    [Reg.confirm_input_fio] on, a class of the school in
    [Reg.confirm_class] *)
Definition registration_data_complete (c : Chat) : Prop :=
  let data := c_data c in
  let has_contact := d_phone data <> None /\ d_tg_id data <> None in
  let has_fio := exists fio, d_fio data = Some fio /\ is_valid_fio (Some fio) = true in
  let has_class := exists class_name, d_class_name data = Some class_name
                                      /\ In class_name class_names in
  match c_state c with
  | Some Reg_confirm_found_fio | Some Reg_input_fio => has_contact
  | Some Reg_confirm_input_fio | Some Reg_choose_class => has_contact /\ has_fio
  | Some Reg_confirm_class => has_contact /\ has_fio /\ has_class
  | _ => True
  end.


(** * Properties *)

(** ** Rules of the program logic *)

Lemma triple_bind {A B} (P : World -> Prop) (m : M A) (f : A -> M B)
      (Q1 : result A -> World -> Prop) (Q : result B -> World -> Prop) :
  triple P m Q1 ->
  (forall a, triple (Q1 (Ok a)) (f a) Q) ->
  (forall e w, Q1 (Raise e) w -> Q (Raise e) w) ->
  triple P (bind m f) Q.
Proof.
  intros Hm Hf He w Hw. specialize (Hm w Hw). unfold bind.
  destruct (m w) as [[a|e] w1]; simpl in *.
  - apply Hf, Hm.
  - apply He, Hm.
Qed.

Lemma preserves_bind {A B} (I : World -> Prop) (m : M A) (f : A -> M B) :
  preserves I m -> (forall a, preserves I (f a)) -> preserves I (bind m f).
Proof.
  intros Hm Hf. eapply triple_bind; [exact Hm | exact Hf | auto].
Qed.


Lemma preserves_ret {A} (I : World -> Prop) (a : A) : preserves I (ret a).
Proof. intros w Hw. exact Hw. Qed.

Lemma preserves_raise {A} (I : World -> Prop) (e : exn) : preserves I (@raise A e).
Proof. intros w Hw. exact Hw. Qed.

Lemma preserves_lift {A} (I : World -> Prop) (r : result A) : preserves I (lift r).
Proof. intros w Hw. exact Hw. Qed.

Lemma preserves_get_db (I : World -> Prop) : preserves I get_db.
Proof. intros w Hw. exact Hw. Qed.

(** ** Lists *)

Lemma forallb_weaken {A} (f g : A -> bool) (l : list A) :
  (forall x, f x = true -> g x = true) -> forallb f l = true -> forallb g l = true.
Proof.
  intros Hfg. induction l as [|x l IH]; simpl; [reflexivity|].
  intros H. apply andb_true_iff in H as [Hx Hl].
  rewrite (Hfg x Hx), (IH Hl). reflexivity.
Qed.


(** ** Text *)

Lemma chars_of_fuel (fuel fuel' : nat) (l : list ascii) :
  (length l <= fuel)%nat -> (length l <= fuel')%nat -> chars_of fuel l = chars_of fuel' l.
Proof.
  revert fuel' l. induction fuel as [|fuel IH]; intros fuel' l Hf Hf'.
  - destruct l; [|simpl in Hf; lia]. destruct fuel'; reflexivity.
  - destruct l as [|b rest]; [destruct fuel'; reflexivity|].
    destruct fuel' as [|fuel']; [simpl in Hf'; lia|].
    simpl chars_of. f_equal.
    assert (Hlen : (length (skipn (utf8_len b) (b :: rest)) <= length rest)%nat).
    { rewrite List.length_skipn. simpl.
      assert (1 <= utf8_len b)%nat by (unfold utf8_len; repeat destruct (_ <? _)%N; lia).
      lia. }
    simpl in Hf, Hf'. apply IH; lia.
Qed.

(** a character at the head of the bytes is the first that [chars] cuts *)
Lemma chars_cons (ch rest : list ascii) :
  is_char ch = true -> chars (ch ++ rest) = ch :: chars rest.
Proof.
  intros Hch. destruct ch as [|b ch]; [discriminate|].
  unfold is_char in Hch. apply Nat.eqb_eq in Hch.
  unfold chars. simpl length. simpl chars_of.
  assert (Hfirst : firstn (utf8_len b) (b :: ch ++ rest) = b :: ch).
  { rewrite <- Hch. change (b :: ch ++ rest)%list with ((b :: ch) ++ rest)%list.
    rewrite List.firstn_app, Nat.sub_diag, List.firstn_all, List.firstn_O.
    apply List.app_nil_r. }
  assert (Hskip : skipn (utf8_len b) (b :: ch ++ rest) = rest).
  { rewrite <- Hch. change (b :: ch ++ rest)%list with ((b :: ch) ++ rest)%list.
    rewrite List.skipn_app, Nat.sub_diag, List.skipn_all. reflexivity. }
  rewrite Hfirst, Hskip. f_equal.
  apply chars_of_fuel; [rewrite List.length_app; lia | lia].
Qed.

Lemma chars_concat (cs : list (list ascii)) :
  forallb is_char cs = true -> chars (concat cs) = cs.
Proof.
  induction cs as [|ch cs IH]; simpl; [reflexivity|].
  intros H. apply andb_true_iff in H as [Hch Hcs].
  rewrite chars_cons by exact Hch. rewrite IH by exact Hcs. reflexivity.
Qed.

Lemma forallb_reverse {A} (f : A -> bool) (l : list A) :
  forallb f (rev l) = forallb f l.
Proof.
  induction l as [|x l IH]; simpl; [reflexivity|].
  rewrite List.forallb_app, IH. simpl. rewrite andb_true_r. apply andb_comm.
Qed.


(** ** The ledger: at most one delivery per key and date *)


Lemma deliveries_app (k : dedup_key) (a b : list event) :
  deliveries k (a ++ b) = (deliveries k a + deliveries k b)%nat.
Proof. unfold deliveries. rewrite List.filter_app, List.length_app. reflexivity. Qed.

Lemma deliveries_snoc (k : dedup_key) (tr : list event) (e : event) :
  deliveries k (tr ++ [e])
  = (deliveries k tr + if is_delivery k e then 1 else 0)%nat.
Proof.
  rewrite deliveries_app. unfold deliveries at 2. simpl.
  destruct (is_delivery k e); reflexivity.
Qed.

Lemma deliveries_snoc_other (k : dedup_key) (tr : list event) (e : event) :
  is_delivery k e = false -> deliveries k (tr ++ [e]) = deliveries k tr.
Proof. intros He. rewrite deliveries_snoc, He. lia. Qed.

Lemma ledger_has_insert (k : dedup_key) (today : Z) us sch ns (row : sent_row) :
  ledger_has k today (mkDB us sch (ns ++ [row]))
  = ledger_has k today (mkDB us sch ns) || sent_matches k today row.
Proof.
  unfold ledger_has. simpl. rewrite List.existsb_app. simpl. rewrite orb_false_r. reflexivity.
Qed.

Lemma ledger_has_tables (k : dedup_key) (today : Z) us sch us' sch' ns :
  ledger_has k today (mkDB us sch ns) = ledger_has k today (mkDB us' sch' ns).
Proof. reflexivity. Qed.

Lemma count_positive_existsb {A} (f : A -> bool) (l : list A) :
  (0 <? Z.of_nat (length (List.filter f l))) = existsb f l.
Proof.
  induction l as [|x l IH]; simpl; [reflexivity|].
  destruct (f x); simpl; [|exact IH].
  apply Z.ltb_lt. lia.
Qed.

Section Ledger.

Variable clock : nat -> datetime.
Variable transport : nat -> request -> bool.
Variable k : dedup_key.
Variable today : Z.
Variable db0 : DB.
Hypothesis same_date : forall n, ordinal (clock n) = today.

Abbreviation Inv := (at_most_once k today db0).




Lemma amo_bot_send (req : request) : preserves Inv (bot_send transport req).
Proof.
  intros w [Hmono Hcount]. unfold bot_send, at_most_once; simpl.
  rewrite deliveries_snoc_other by reflexivity. split; assumption.
Qed.

Lemma amo_insert_sent (row : sent_row) : preserves Inv (insert_sent row).
Proof.
  intros w [Hmono Hcount]. unfold insert_sent, at_most_once; simpl.
  rewrite deliveries_snoc_other by reflexivity.
  rewrite ledger_has_insert.
  assert (Hdb : ledger_has k today
                  (mkDB (users (w_db w)) (schedule (w_db w)) (notifications_sent (w_db w)))
                = ledger_has k today (w_db w)) by (destruct (w_db w); reflexivity).
  rewrite Hdb. split.
  - intros H0. rewrite (Hmono H0). reflexivity.
  - destruct Hcount as [Hz | (H1 & Hl & H0)]; [left; exact Hz|].
    right. rewrite Hl. auto.
Qed.












End Ledger.



(** the scenario as the specification tells it: sent once at 08:12 on
    the 20-minute window; at 08:20 the lesson is found on the 10-minute
    window, its row is there, and nothing is sent *)
Example rerun_at_0820_sends_nothing :
  let w' := snd (scanner_run monday_0812_then_0820 always_delivers
                   [([pupil], [algebra]); ([pupil], [algebra])]
                   (fresh_world (mkDB [] [] []))) in
  windows_checked (w_trace w') = [5; 10; 20; 5; 10] /\
  checks algebra_key (w_trace w') = [false; true] /\
  map (fun a => r_chat (fst a)) (sends (w_trace w')) = [1001] /\
  map s_sent_date (notifications_sent (w_db w')) = [mkDatetime 1 8 12 0 0].
Proof. vm_compute. repeat split; reflexivity. Qed.

Example three_ticks_deliver_once :
  deliveries algebra_key
    (w_trace (snd (scanner_run monday_0812 always_delivers
                     [([pupil], [algebra]); ([pupil], [algebra]); ([pupil], [algebra])]
                     (fresh_world (mkDB [] [] []))))) = 1%nat.
Proof. vm_compute. reflexivity. Qed.


(** ** The lookup *)

Lemma db_get_upcoming_class_registered
      (clock : nat -> datetime) (phone_norm : string) (minutes_ahead : Z)
      (w : World) (user : user_row) :
  db_get_user (w_db w) phone_norm = Some user ->
  db_get_upcoming_class clock phone_norm minutes_ahead w
  = (snd (two_day_scan (w_db w) (u_class_name user) (clock (w_reads w)) minutes_ahead),
     mkWorld (w_db w) (w_files w) (S (w_reads w)) (w_attempts w)
             (w_trace w ++ Lookup phone_norm minutes_ahead
                :: map Log (fst (two_day_scan (w_db w) (u_class_name user)
                                   (clock (w_reads w)) minutes_ahead)))).
Proof.
  intros Huser.
  unfold db_get_upcoming_class, two_day_scan, bind, emit, get_db, datetime_now, logged, ret.
  simpl. rewrite Huser. simpl.
  destruct (scan_today _ _ _) as [logs [[lesson|]|e]]; simpl.
  - rewrite <- List.app_assoc. reflexivity.
  - rewrite List.map_app, <- !List.app_assoc. reflexivity.
  - rewrite <- List.app_assoc. reflexivity.
Qed.

Lemma db_get_upcoming_class_unregistered
      (clock : nat -> datetime) (phone_norm : string) (minutes_ahead : Z) (w : World) :
  db_get_user (w_db w) phone_norm = None ->
  db_get_upcoming_class clock phone_norm minutes_ahead w
  = (Ok None, mkWorld (w_db w) (w_files w) (w_reads w) (w_attempts w)
                      (w_trace w ++ [Lookup phone_norm minutes_ahead])).
Proof.
  intros Huser. unfold db_get_upcoming_class, bind, emit, get_db, ret. simpl.
  rewrite Huser. reflexivity.
Qed.

(** lessons scanned without a match or an escaping exception are passed
    over *)
Lemma scan_tomorrow_app now tomorrow_date minutes_ahead (pre rest : list lesson_row) :
  snd (scan_tomorrow now tomorrow_date minutes_ahead pre) = Ok None ->
  snd (scan_tomorrow now tomorrow_date minutes_ahead (pre ++ rest))
  = snd (scan_tomorrow now tomorrow_date minutes_ahead rest).
Proof.
  induction pre as [|l pre IH]; simpl; [reflexivity|].
  destruct (lesson_start tomorrow_date l) as [st|e].
  - destruct ((0 <=? timedelta_us st now) && _); simpl; [discriminate | exact IH].
  - destruct (is_ValueError_or_KeyError e); simpl; [exact IH | discriminate].
Qed.


Lemma lesson_start_0003 (base : datetime) (lesson : lesson_row) :
  l_start_time lesson = "00:03" ->
  lesson_start base lesson = Ok (mkDatetime (ordinal base) 0 3 0 0).
Proof. intros Hst. unfold lesson_start. rewrite Hst. reflexivity. Qed.

(** lessons that a scan passes over leave it without a match *)
Lemma scan_today_passed_over now minutes_ahead (lessons : list lesson_row) :
  forallb (passed_over now now minutes_ahead) lessons = true ->
  snd (scan_today now minutes_ahead lessons) = Ok None.
Proof.
  induction lessons as [|lesson rest IH]; simpl; [reflexivity|].
  intros H. apply andb_true_iff in H as [Hl Hrest]. unfold passed_over in Hl.
  destruct (lesson_start now lesson) as [st|e].
  - apply orb_true_iff in Hl as [Hl|Hl]; apply Z.ltb_lt in Hl.
    + replace (0 <=? timedelta_us st now) with false by (symmetry; apply Z.leb_gt; lia).
      exact (IH Hrest).
    + destruct (0 <=? timedelta_us st now); [|exact (IH Hrest)].
      replace (timedelta_us st now <=? minutes_ahead * us_per_minute) with false
        by (symmetry; apply Z.leb_gt; lia).
      exact (IH Hrest).
  - rewrite Hl. simpl. exact (IH Hrest).
Qed.

Lemma scan_tomorrow_passed_over now minutes_ahead (lessons : list lesson_row) :
  forallb (passed_over (plus_one_day now) now minutes_ahead) lessons = true ->
  snd (scan_tomorrow now (plus_one_day now) minutes_ahead lessons) = Ok None.
Proof.
  induction lessons as [|lesson rest IH]; simpl; [reflexivity|].
  intros H. apply andb_true_iff in H as [Hl Hrest]. unfold passed_over in Hl.
  destruct (lesson_start (plus_one_day now) lesson) as [st|e].
  - replace ((0 <=? timedelta_us st now)
             && (timedelta_us st now <=? minutes_ahead * us_per_minute)) with false;
      [exact (IH Hrest)|].
    symmetry. apply andb_false_iff.
    apply orb_true_iff in Hl as [Hl|Hl]; apply Z.ltb_lt in Hl;
      [left | right]; apply Z.leb_gt; lia.
  - rewrite Hl. simpl. exact (IH Hrest).
Qed.

(** C5, as amended.  Day rollover: at 23:58 (any instant of that minute)
    on a Monday, for a registered subscriber whose class has a lesson
    on Tuesday with the start time 00:03, that lesson is measured
    against the same [now] with the day added, which gives five minutes
    less the seconds already elapsed, and the 5-minute lookup returns
    it, provided that the scan passes over what it meets before: every
    lesson of Monday, and every lesson of Tuesday that comes before it
    in lesson-number order, either lies outside the window or has a
    start time that is rejected with an exception that the loops catch. *)
Theorem rollover_lesson_matches_in_the_5_minute_window
        (clock : nat -> datetime) (w : World) (phone_norm : string) (user : user_row)
        (lesson : lesson_row) (pre post : list lesson_row) :
  let now := clock (w_reads w) in
  db_get_user (w_db w) phone_norm = Some user ->
  weekday now = 0 -> hour now = 23 -> minute now = 58 ->
  0 <= second now < 60 -> 0 <= microsecond now < 1000000 ->
  forallb (passed_over now now 5)
          (select_schedule (w_db w) (u_class_name user) "Понеділок") = true ->
  select_schedule (w_db w) (u_class_name user) "Вівторок" = (pre ++ lesson :: post)%list ->
  forallb (passed_over (plus_one_day now) now 5) pre = true ->
  l_start_time lesson = "00:03" ->
  fst (db_get_upcoming_class clock phone_norm 5 w) = Ok (Some lesson) /\
  exists start_time,
    lesson_start (plus_one_day now) lesson = Ok start_time /\
    ordinal start_time = ordinal now + 1 /\
    timedelta_us start_time now
    = 5 * us_per_minute - (second now * 1000000 + microsecond now) /\
    0 <= timedelta_us start_time now <= 5 * us_per_minute.
Proof.
  intros now Huser Hwd Hh Hm Hs Hus Htoday Htomorrow Hpre Hst.
  apply scan_today_passed_over in Htoday. apply scan_tomorrow_passed_over in Hpre.
  assert (Hdiff : timedelta_us (mkDatetime (ordinal now + 1) 0 3 0 0) now
                  = 5 * us_per_minute - (second now * 1000000 + microsecond now)).
  { unfold timedelta_us, to_microseconds, us_per_minute. simpl. rewrite Hh, Hm. lia. }
  split.
  - rewrite (db_get_upcoming_class_registered clock phone_norm 5 w user Huser). simpl.
    unfold two_day_scan. fold now. rewrite Hwd. simpl (day_ua _).
    change (day_ua 0) with "Понеділок". rewrite Htoday. simpl.
    change (day_ua ((0 + 1) mod 7)) with "Вівторок".
    rewrite Htomorrow, (scan_tomorrow_app _ _ _ _ _ Hpre). simpl.
    rewrite (lesson_start_0003 _ _ Hst). simpl ordinal. rewrite Hdiff.
    replace ((0 <=? _) && (_ <=? 5 * us_per_minute)) with true; [reflexivity|].
    symmetry. apply andb_true_iff. unfold us_per_minute.
    split; [apply Z.leb_le | apply Z.leb_le]; lia.
  - exists (mkDatetime (ordinal now + 1) 0 3 0 0).
    rewrite (lesson_start_0003 _ _ Hst). simpl.
    repeat split; [exact Hdiff | |]; rewrite Hdiff; unfold us_per_minute; lia.
Qed.

Lemma rollover_lesson_matches_in_the_5_minute_window_witness :
  fst (db_get_upcoming_class monday_2358 "380501234567" 5
         (fresh_world (mkDB [pupil] [algebra; night_lesson; misprinted] [])))
  = Ok (Some night_lesson) /\
  exists start_time,
    lesson_start (plus_one_day (monday_2358 0)) night_lesson = Ok start_time /\
    ordinal start_time = 2 /\
    timedelta_us start_time (monday_2358 0) = 5 * us_per_minute - (0 * 1000000 + 0) /\
    0 <= timedelta_us start_time (monday_2358 0) <= 5 * us_per_minute.
Proof.
  apply (rollover_lesson_matches_in_the_5_minute_window monday_2358
           (fresh_world (mkDB [pupil] [algebra; night_lesson; misprinted] []))
           "380501234567" pupil night_lesson [misprinted] []);
    try reflexivity; simpl; lia.
Defined.

(** the same lookup, run: the Tuesday lesson comes back *)
Example rollover_lookup_runs :
  fst (db_get_upcoming_class monday_2358 "380501234567" 5
         (fresh_world (mkDB [pupil] [algebra; night_lesson] [])))
  = Ok (Some night_lesson).
Proof. vm_compute. reflexivity. Qed.

(** C5 as stated fails when the scan meets another lesson of the window
    first.  At 23:58 on Monday, with the Tuesday lesson of 00:03 in the
    schedule: a Monday lesson at 23:59 is returned instead, since
    today's lessons are scanned first; and so is a Tuesday lesson at
    00:01 that comes before it in lesson-number order. *)
Lemma earlier_match_is_returned_instead_of_the_rollover_lesson :
  fst (db_get_upcoming_class monday_2358 "380501234567" 5
         (fresh_world (mkDB [pupil] [night_lesson; late_lesson] [])))
  = Ok (Some late_lesson) /\
  fst (db_get_upcoming_class monday_2358 "380501234567" 5
         (fresh_world (mkDB [pupil] [night_lesson; midnight_lesson] [])))
  = Ok (Some midnight_lesson) /\
  late_lesson <> night_lesson /\
  midnight_lesson <> night_lesson /\
  In night_lesson (select_schedule (mkDB [pupil] [night_lesson; late_lesson] [])
                                   "10-A" "Вівторок") /\
  In night_lesson (select_schedule (mkDB [pupil] [night_lesson; midnight_lesson] [])
                                   "10-A" "Вівторок").
Proof.
  split; [vm_compute; reflexivity|]. split; [vm_compute; reflexivity|].
  split; [discriminate|]. split; [discriminate|].
  split; vm_compute; auto.
Qed.


(** ** Malformed start times *)

Lemma split_without_separator (sep : ascii) (s : string) :
  (forall c, In c (list_ascii_of_string s) -> c <> sep) -> split sep s = [s].
Proof.
  induction s as [|c s IH]; simpl; intros Hno; [reflexivity|].
  destruct (Ascii.eqb c sep) eqn:Hc.
  - apply Ascii.eqb_eq in Hc. exfalso. apply (Hno c); [left; reflexivity | exact Hc].
  - rewrite IH; [reflexivity|]. intros c' Hin. apply Hno. right. exact Hin.
Qed.

(** a start time with no colon whose text is a number leaves both scans
    through an [IndexError], which their [except] clauses do not name *)
Lemma start_time_without_colon_raises_IndexError (base : datetime) (lesson : lesson_row) (h : Z) :
  (forall c, In c (list_ascii_of_string (l_start_time lesson)) -> c <> ":"%char) ->
  py_int (l_start_time lesson) = Ok h ->
  lesson_start base lesson = Raise IndexError /\
  is_ValueError_or_KeyError IndexError = false.
Proof.
  intros Hno Hint. split; [|reflexivity].
  unfold lesson_start. rewrite (split_without_separator _ _ Hno). simpl.
  rewrite Hint. reflexivity.
Qed.

(** a lesson whose start time raises [ValueError] is logged and the
    scan goes on with the lessons after it *)
Lemma scan_today_skips_ValueError now minutes_ahead (lesson : lesson_row) rest :
  lesson_start now lesson = Raise ValueError ->
  scan_today now minutes_ahead (lesson :: rest)
  = (LogLessonParseError (l_lesson_number lesson) ValueError
       :: fst (scan_today now minutes_ahead rest),
     snd (scan_today now minutes_ahead rest)).
Proof. intros H. simpl. rewrite H. reflexivity. Qed.

(** C3, at the failing input: Monday 08:12, class 10-A has a lesson
    whose stored start time is "0745" and, after it, Algebra at 08:30.
    The lookup does not skip the malformed lesson: it raises
    [IndexError] without logging and without looking at Algebra, for
    every window; the tick that called it stops at its outer handler,
    so that nothing is sent and the next subscriber is never taken up. *)
Theorem start_time_without_colon_aborts_the_scan :
  lesson_start (monday_0812 0) smudged = Raise IndexError /\
  (forall minutes_ahead,
     In minutes_ahead check_windows ->
     fst (db_get_upcoming_class monday_0812 "380501234567" minutes_ahead
            (fresh_world smudged_db)) = Raise IndexError /\
     log_of (w_trace (snd (db_get_upcoming_class monday_0812 "380501234567" minutes_ahead
                             (fresh_world smudged_db)))) = []) /\
  fst (db_get_upcoming_class monday_0812 "380501234567" 20
         (fresh_world (mkDB [pupil] [algebra] []))) = Ok (Some algebra) /\
  let w' := snd (scanner_tick monday_0812 always_delivers (fresh_world smudged_db)) in
  visited (w_trace w') = ["380501234567"] /\
  critical_errors (w_trace w') = [IndexError] /\
  sends (w_trace w') = [] /\
  map (fun tu => u_phone (snd tu)) (select_users_with_tg smudged_db)
  = ["380501234567"; "380507654321"].
Proof.
  split; [vm_compute; reflexivity|].
  split.
  { intros m Hm. simpl in Hm.
    destruct Hm as [<-|[<-|[<-|[<-|[]]]]]; split; vm_compute; reflexivity. }
  split; [vm_compute; reflexivity|].
  vm_compute. repeat split; reflexivity.
Qed.

(** a start time that is malformed in a way [int] or [replace] reject
    with [ValueError] is skipped, and Algebra after it is found *)
Example start_time_with_bad_minute_is_skipped :
  let bad := mkLesson "10-A" "Понеділок" 0 "Physics" "Teacher" "07:4x" "08:30" in
  let r := db_get_upcoming_class monday_0812 "380501234567" 20
             (fresh_world (mkDB [pupil] [bad; algebra] [])) in
  fst r = Ok (Some algebra) /\
  log_of (w_trace (snd r)) = [LogLessonParseError 0 ValueError; LogMatchToday algebra].
Proof. vm_compute. split; reflexivity. Qed.


(** ** The tracked sets *)

Lemma scheduled_for_app (doc : string) (a b : list feed_event) :
  scheduled_for doc (a ++ b) = (scheduled_for doc a + scheduled_for doc b)%nat.
Proof. unfold scheduled_for. rewrite List.filter_app, List.length_app. reflexivity. Qed.

Section TrackedSet.

Variable qualifies : gmap string fs_value -> bool.

(** a tracked id stays tracked, and a batch schedules nothing for it *)
Lemma on_snapshot_tracked (doc : string) (running : bool) (changes : list change)
      (self : listener) :
  doc ∈ ls_tracking self ->
  doc ∈ ls_tracking (fst (on_snapshot qualifies running changes self)) /\
  scheduled_for doc (snd (on_snapshot qualifies running changes self)) = 0%nat.
Proof.
  revert self. induction changes as [|change rest IH]; intros self Hin; simpl.
  - split; [exact Hin | reflexivity].
  - destruct (doc_data (c_document change)) as [data|]; [|apply IH; exact Hin].
    destruct (added_or_modified (c_type change) && qualifies data
              && negb (bool_decide (doc_id (c_document change) ∈ ls_tracking self))) eqn:Hq;
      [|apply IH; exact Hin].
    apply andb_true_iff in Hq as [_ Hnew].
    apply negb_true_iff, bool_decide_eq_false in Hnew.
    assert (Hne : doc_id (c_document change) <> doc)
      by (intros Heq; apply Hnew; rewrite Heq; exact Hin).
    simpl.
    destruct (IH (mkListener (ls_db self) (ls_unsubscribe self)
                             ({[doc_id (c_document change)]} ∪ ls_tracking self)
                             (ls_loop self))) as [Hin' Hz].
    { simpl. apply elem_of_union. right. exact Hin. }
    split; [exact Hin'|].
    change (InfoNewDocument ?d :: ?l)%list with ([InfoNewDocument d] ++ l)%list.
    rewrite !scheduled_for_app, Hz.
    destruct (ls_loop self && running); simpl; [|reflexivity].
    unfold scheduled_for. simpl.
    apply String.eqb_neq in Hne. rewrite Hne. reflexivity.
Qed.

(** from any state, one batch schedules an id at most once, and an id it
    schedules is tracked afterwards *)
Lemma on_snapshot_at_most_once (doc : string) (running : bool) (changes : list change)
      (self : listener) :
  (scheduled_for doc (snd (on_snapshot qualifies running changes self)) <= 1)%nat /\
  (scheduled_for doc (snd (on_snapshot qualifies running changes self)) = 1%nat ->
   doc ∈ ls_tracking (fst (on_snapshot qualifies running changes self))).
Proof.
  revert self. induction changes as [|change rest IH]; intros self; simpl.
  - unfold scheduled_for; simpl. split; [lia | discriminate].
  - destruct (doc_data (c_document change)) as [data|]; [|apply IH].
    destruct (added_or_modified (c_type change) && qualifies data
              && negb (bool_decide (doc_id (c_document change) ∈ ls_tracking self))) eqn:Hq;
      [|apply IH].
    simpl.
    set (self1 := mkListener (ls_db self) (ls_unsubscribe self)
                             ({[doc_id (c_document change)]} ∪ ls_tracking self)
                             (ls_loop self)).
    change (InfoNewDocument ?d :: ?l)%list with ([InfoNewDocument d] ++ l)%list.
    rewrite !scheduled_for_app.
    destruct (String.eqb (doc_id (c_document change)) doc) eqn:Hd.
    + apply String.eqb_eq in Hd.
      destruct (on_snapshot_tracked doc running rest self1) as [Hin Hz].
      { subst self1. simpl. rewrite <- Hd. apply elem_of_union. left.
        apply elem_of_singleton. reflexivity. }
      rewrite Hz. split; [|intros _; exact Hin].
      destruct (ls_loop self && running); unfold scheduled_for; simpl; [|lia].
      destruct (String.eqb _ doc); simpl; lia.
    + destruct (IH self1) as [Hle Hin].
      assert (Hnone : scheduled_for doc
                        (if ls_loop self && running
                         then [Scheduled (doc_id (c_document change)) data] else []) = 0%nat).
      { destruct (ls_loop self && running); unfold scheduled_for; simpl; [|reflexivity].
        rewrite Hd. reflexivity. }
      rewrite Hnone. simpl. split; assumption.
Qed.

End TrackedSet.

(** the startup scan of the applications tracks every document it sees,
    that of the news every published one *)
Lemma seed_tracking_spec (seeded : document -> bool) (docs : list document)
      (tracking : gset string) (doc : string) :
  doc ∈ seed_tracking seeded docs tracking
  <-> doc ∈ tracking \/ exists d, In d docs /\ seeded d = true /\ doc_id d = doc.
Proof.
  revert tracking. induction docs as [|d docs IH]; intros tracking; simpl.
  - split; [auto | intros [H|[d [[] _]]]; exact H].
  - destruct (seeded d) eqn:Hs; rewrite IH; split.
    + intros [H|[d' (Hin & Hs' & Hid)]].
      * apply elem_of_union in H as [H|H]; [|left; exact H].
        apply elem_of_singleton in H. right. exists d. auto.
      * right. exists d'. auto.
    + intros [H|[d' ([->|Hin] & Hs' & Hid)]].
      * left. apply elem_of_union. right. exact H.
      * left. apply elem_of_union. left. apply elem_of_singleton. symmetry. exact Hid.
      * right. exists d'. auto.
    + intros [H|[d' (Hin & Hs' & Hid)]]; [left; exact H|]. right. exists d'. auto.
    + intros [H|[d' ([->|Hin] & Hs' & Hid)]]; [left; exact H | congruence |].
      right. exists d'. auto.
Qed.


(** C6. Startup suppression, for either listener: once the scan of
    [start_listening] has put a document id into the tracked set, a
    batch of change events (ADDED or MODIFIED ones for that id among
    them) schedules no notification coroutine for it, and the id stays
    tracked. *)
Theorem startup_scan_suppresses_later_events
        (which : feed) (FIREBASE_AVAILABLE : bool) (env : firebase_calls) (apps : bool)
        (doc : string) (running : bool) (changes : list change) :
  doc ∈ ls_tracking (started which FIREBASE_AVAILABLE env apps) ->
  scheduled_for doc
    (snd (feed_on_snapshot which running changes
            (started which FIREBASE_AVAILABLE env apps))) = 0%nat /\
  doc ∈ ls_tracking
    (fst (feed_on_snapshot which running changes
            (started which FIREBASE_AVAILABLE env apps))).
Proof.
  intros Hin. destruct which; simpl.
  - destruct (on_snapshot_tracked status_is_new doc running changes _ Hin) as [H1 H2].
    split; assumption.
  - destruct (on_snapshot_tracked is_published doc running changes _ Hin) as [H1 H2].
    split; assumption.
Qed.

Lemma startup_scan_suppresses_later_events_witness :
  "a1" ∈ ls_tracking
    (started Applications true
       (healthy_backend [mkDocument "a1" (Some new_application)]) false) /\
  scheduled_for "a1"
    (snd (feed_on_snapshot Applications true a1_modified
            (started Applications true
               (healthy_backend [mkDocument "a1" (Some new_application)]) false))) = 0%nat /\
  "a1" ∈ ls_tracking
    (fst (feed_on_snapshot Applications true a1_modified
            (started Applications true
               (healthy_backend [mkDocument "a1" (Some new_application)]) false))).
Proof.
  assert (Hin : "a1" ∈ ls_tracking
                  (started Applications true
                     (healthy_backend [mkDocument "a1" (Some new_application)]) false)).
  { vm_compute. reflexivity. }
  split; [exact Hin|].
  apply (startup_scan_suppresses_later_events Applications true
           (healthy_backend [mkDocument "a1" (Some new_application)]) false
           "a1" true a1_modified Hin).
Defined.

(** what [_init_firebase] does, cause by cause *)
Lemma init_firebase_outcome (FIREBASE_AVAILABLE : bool) (env : firebase_calls) (s : boot) :
  init_firebase FIREBASE_AVAILABLE env s
  = if init_fails FIREBASE_AVAILABLE env (b_apps s) then
      (Ok false,
       mkBoot (b_apps s || (FIREBASE_AVAILABLE && credentials_exist env
                            && certificate_ok env && initialize_app_ok env))
              (b_self s)
              (b_log s ++ [init_failure_record FIREBASE_AVAILABLE env]))
    else
      (Ok true,
       mkBoot true
              (mkListener true (ls_unsubscribe (b_self s)) (ls_tracking (b_self s))
                          (ls_loop (b_self s)))
              (b_log s ++ [InfoFirebaseInitialised])).
Proof.
  destruct s as [apps self log].
  unfold init_firebase, init_fails, init_failure_record, run_try, run_bind, run_ret,
    backend_call, feed_log, get_apps, set_apps, update_self.
  destruct FIREBASE_AVAILABLE, (credentials_exist env), apps, (certificate_ok env),
    (initialize_app_ok env), (client_ok env); reflexivity.
Qed.

(** [start_listening] returns, whatever the backend does *)
Lemma start_listening_returns (seeded : document -> bool) (FIREBASE_AVAILABLE : bool)
      (env : firebase_calls) (s : boot) :
  fst (start_listening seeded FIREBASE_AVAILABLE env s) = Ok tt.
Proof.
  unfold start_listening, run_bind at 1. rewrite init_firebase_outcome.
  destruct (init_fails FIREBASE_AVAILABLE env (b_apps s)); simpl; [reflexivity|].
  unfold run_bind, run_try, update_self, backend_call, get_self, feed_log. simpl.
  destruct (stream_ok env); simpl; [|reflexivity].
  destruct (on_snapshot_ok env); reflexivity.
Qed.

(** when the initialisation fails, the object is left as it was *)
Lemma start_listening_init_fails (seeded : document -> bool) (FIREBASE_AVAILABLE : bool)
      (env : firebase_calls) (s : boot) :
  init_fails FIREBASE_AVAILABLE env (b_apps s) = true ->
  start_listening seeded FIREBASE_AVAILABLE env s
  = (Ok tt,
     mkBoot (b_apps s || (FIREBASE_AVAILABLE && credentials_exist env
                          && certificate_ok env && initialize_app_ok env))
            (b_self s)
            (b_log s ++ [init_failure_record FIREBASE_AVAILABLE env; WarnInitFailed])).
Proof.
  intros Hfail. unfold start_listening, run_bind at 1.
  rewrite init_firebase_outcome, Hfail. simpl. unfold feed_log. simpl.
  rewrite <- List.app_assoc. reflexivity.
Qed.

(** when the initialisation succeeds, the scan seeds the tracked set
    whatever the stream and the subscription do afterwards *)
Lemma start_listening_init_succeeds (seeded : document -> bool) (FIREBASE_AVAILABLE : bool)
      (env : firebase_calls) (s : boot) :
  init_fails FIREBASE_AVAILABLE env (b_apps s) = false ->
  let tracking := seed_tracking seeded (stream_docs env) (ls_tracking (b_self s)) in
  start_listening seeded FIREBASE_AVAILABLE env s
  = (Ok tt,
     mkBoot true
            (mkListener true
                        (ls_unsubscribe (b_self s) || (stream_ok env && on_snapshot_ok env))
                        tracking true)
            (b_log s
             ++ InfoFirebaseInitialised
             :: (if stream_ok env then
                   [InfoLoaded (size tracking);
                    if on_snapshot_ok env then InfoListening else ErrorStartListening]
                 else [ErrorStartListening]))).
Proof.
  intros Hok tracking. subst tracking. unfold start_listening, run_bind at 1.
  rewrite init_firebase_outcome, Hok. simpl.
  unfold run_bind, run_try, update_self, backend_call, get_self, feed_log. simpl.
  destruct (stream_ok env); simpl.
  - destruct (on_snapshot_ok env); simpl;
      rewrite ?orb_true_r, ?orb_false_r, <- ?List.app_assoc; reflexivity.
  - rewrite orb_false_r, <- ?List.app_assoc. reflexivity.
Qed.

Lemma init_succeeded_iff (FIREBASE_AVAILABLE : bool) (env : firebase_calls) (s : boot) :
  init_succeeded (init_firebase FIREBASE_AVAILABLE env s)
  = negb (init_fails FIREBASE_AVAILABLE env (b_apps s)).
Proof.
  unfold init_succeeded. rewrite init_firebase_outcome.
  destruct (init_fails FIREBASE_AVAILABLE env (b_apps s)); reflexivity.
Qed.

(** what the scan tracks: every document for the applications, the
    published ones for the news, provided the client could be built *)
Lemma startup_scan_tracks (which : feed) (env : firebase_calls) (apps : bool) (d : document) :
  init_succeeded (init_firebase true env (mkBoot apps new_listener [])) = true ->
  In d (stream_docs env) ->
  match which with Applications => true | News => published_at_start d end = true ->
  doc_id d ∈ ls_tracking (started which true env apps).
Proof.
  intros Hinit Hin Hseed.
  rewrite init_succeeded_iff in Hinit. apply negb_true_iff in Hinit.
  unfold started, feed_start_listening.
  destruct which;
    unfold ApplicationsListener.start_listening, NewsListener.start_listening;
    rewrite (start_listening_init_succeeds _ true env (mkBoot apps new_listener []) Hinit);
    apply seed_tracking_spec; right; exists d; auto.
Qed.

(** after a run, a tracked id is still tracked unless a delete of it
    went through, and nothing was scheduled for it *)
Lemma run_tracked (which : feed) (doc : string) (actions : list feed_action)
      (self : listener) :
  (which = Applications -> existsb (deletes doc) actions = false) ->
  doc ∈ ls_tracking self ->
  doc ∈ ls_tracking (fst (feed_run which actions self)) /\
  scheduled_for doc (snd (feed_run which actions self)) = 0%nat.
Proof.
  revert self. induction actions as [|a rest IH]; intros self Hdel Hin.
  - destruct which; simpl; split; auto.
  - assert (Hstep : doc ∈ ls_tracking
                      (fst (match which with
                            | Applications => ApplicationsListener.step a self
                            | News => NewsListener.step a self
                            end)) /\
                    scheduled_for doc
                      (snd (match which with
                            | Applications => ApplicationsListener.step a self
                            | News => NewsListener.step a self
                            end)) = 0%nat).
    { destruct which.
      - destruct a as [running changes|app_id|app_id|app_id|app_id delete_ok]; simpl.
        + apply on_snapshot_tracked. exact Hin.
        + split; [exact Hin | reflexivity].
        + split; [exact Hin | reflexivity].
        + split; [exact Hin | reflexivity].
        + split; [|reflexivity].
          unfold ApplicationsListener.delete_application_callback.
          destruct (negb (ls_db self)); [exact Hin|].
          destruct delete_ok; simpl; [|exact Hin].
          specialize (Hdel eq_refl). simpl in Hdel.
          apply orb_false_iff in Hdel as [Hd _].
          rewrite andb_true_r in Hd. apply String.eqb_neq in Hd.
          apply elem_of_difference. split; [exact Hin|].
          intros Hs. apply elem_of_singleton in Hs. congruence.
      - destruct a as [running changes|app_id|app_id|app_id|app_id delete_ok]; simpl;
          try (split; [exact Hin | reflexivity]).
        apply on_snapshot_tracked. exact Hin. }
    destruct Hstep as [Hin1 Hz1].
    assert (Hdel' : which = Applications -> existsb (deletes doc) rest = false).
    { intros Hw. specialize (Hdel Hw). simpl in Hdel.
      apply orb_false_iff in Hdel as [_ Hd]. exact Hd. }
    destruct which; simpl.
    + destruct (IH _ Hdel' Hin1) as [Hin2 Hz2]. simpl in Hin2, Hz2.
      rewrite scheduled_for_app, Hz1, Hz2. split; [exact Hin2 | reflexivity].
    + destruct (IH _ Hdel' Hin1) as [Hin2 Hz2]. simpl in Hin2, Hz2.
      rewrite scheduled_for_app, Hz1, Hz2. split; [exact Hin2 | reflexivity].
Qed.

(** C7, as amended: for the news listener always, and for the
    applications listener as long as no administrator delete of that
    document goes through, a run of change batches and button presses
    schedules nothing for an id that is already tracked, and schedules
    any id at most once from whatever state it starts in. *)
Theorem tracked_id_is_processed_at_most_once
        (which : feed) (doc : string) (actions : list feed_action) (self : listener) :
  (which = Applications -> existsb (deletes doc) actions = false) ->
  (doc ∈ ls_tracking self ->
   scheduled_for doc (snd (feed_run which actions self)) = 0%nat) /\
  (scheduled_for doc (snd (feed_run which actions self)) <= 1)%nat.
Proof.
  intros Hdel. split.
  - intros Hin. apply run_tracked; assumption.
  - revert self. induction actions as [|a rest IH]; intros self.
    + destruct which; unfold scheduled_for; simpl; lia.
    + assert (Hdel' : which = Applications -> existsb (deletes doc) rest = false).
      { intros Hw. specialize (Hdel Hw). simpl in Hdel.
        apply orb_false_iff in Hdel as [_ Hd]. exact Hd. }
      specialize (IH Hdel').
      assert (Hstep :
                let s1 := match which with
                          | Applications => ApplicationsListener.step a self
                          | News => NewsListener.step a self
                          end in
                (scheduled_for doc (snd s1) <= 1)%nat /\
                (scheduled_for doc (snd s1) = 1%nat -> doc ∈ ls_tracking (fst s1))).
      { destruct which; destruct a as [running changes|app_id|app_id|app_id|app_id delete_ok];
          simpl; try (unfold scheduled_for; simpl; split; [lia | discriminate]);
          apply on_snapshot_at_most_once. }
      destruct Hstep as [Hle Htr].
      destruct which; simpl; rewrite scheduled_for_app.
      * destruct (Nat.eq_dec (scheduled_for doc (snd (ApplicationsListener.step a self))) 1%nat)
          as [H1|H1].
        -- destruct (run_tracked Applications doc rest _ Hdel' (Htr H1)) as [_ Hz].
           simpl in Hz. rewrite Hz. lia.
        -- specialize (IH (fst (ApplicationsListener.step a self))). simpl in IH. lia.
      * destruct (Nat.eq_dec (scheduled_for doc (snd (NewsListener.step a self))) 1%nat)
          as [H1|H1].
        -- destruct (run_tracked News doc rest _ Hdel' (Htr H1)) as [_ Hz].
           simpl in Hz. rewrite Hz. lia.
        -- specialize (IH (fst (NewsListener.step a self))). simpl in IH. lia.
Qed.

Lemma tracked_id_is_processed_at_most_once_witness :
  (Applications = Applications ->
   existsb (deletes "a1") [a1_added; AcceptApplication "a1"; a1_added] = false) /\
  ("a1" ∈ ls_tracking (started Applications true (healthy_backend []) false) ->
   scheduled_for "a1"
     (snd (feed_run Applications [a1_added; AcceptApplication "a1"; a1_added]
             (started Applications true (healthy_backend []) false))) = 0%nat) /\
  (scheduled_for "a1"
     (snd (feed_run Applications [a1_added; AcceptApplication "a1"; a1_added]
             (started Applications true (healthy_backend []) false))) <= 1)%nat.
Proof.
  split; [intros _; reflexivity|].
  apply (tracked_id_is_processed_at_most_once Applications "a1"
           [a1_added; AcceptApplication "a1"; a1_added]
           (started Applications true (healthy_backend []) false)).
  intros _. reflexivity.
Defined.

(** C7 as stated fails for the applications listener: the document "a1"
    arrives and is tracked and scheduled; an administrator deletes it,
    which discards the id from the tracked set; a document with the
    same id arriving afterwards is scheduled a second time. *)
Lemma deleted_application_is_processed_again :
  let running := started Applications true (healthy_backend []) false in
  let first := feed_run Applications [a1_added] running in
  let later := feed_run Applications [DeleteApplication "a1" true; a1_added] (fst first) in
  "a1" ∈ ls_tracking (fst first) /\
  scheduled_for "a1" (snd first) = 1%nat /\
  scheduled_for "a1" (snd later) = 1%nat /\
  scheduled_for "a1"
    (snd (feed_run Applications [a1_added; DeleteApplication "a1" true; a1_added] running))
  = 2%nat.
Proof. vm_compute. repeat split; reflexivity. Qed.


(** ** Start-up *)

(** [main] with the library: both listeners are started, one after the
    other, then the scanner and polling *)
Lemma main_with_library (applications_env news_env : firebase_calls) :
  let sa := snd (ApplicationsListener.start_listening true applications_env
                   (mkBoot false new_listener [])) in
  let sn := snd (NewsListener.start_listening true news_env
                   (mkBoot (b_apps sa) new_listener (b_log sa ++ [InfoListenerStarted]))) in
  main true applications_env news_env booting
  = (Ok tt, mkProcess (b_apps sn) (Some (b_self sa)) (Some (b_self sn)) true true
                      (b_log sn ++ [InfoListenerStarted])).
Proof.
  intros sa sn. subst sa sn.
  unfold main, run_bind at 1 2 3, set_listener, booting. simpl.
  unfold call_method at 1. simpl.
  pose proof (start_listening_returns (fun _ => true) true applications_env
                (mkBoot false new_listener [])) as Ha.
  unfold ApplicationsListener.start_listening.
  destruct (start_listening (fun _ => true) true applications_env
              (mkBoot false new_listener [])) as [ra sa].
  simpl in Ha. subst ra. simpl.
  unfold run_bind at 1, process_log. simpl.
  unfold run_bind at 1, set_listener. simpl.
  unfold run_bind at 1, call_method. simpl.
  pose proof (start_listening_returns published_at_start true news_env
                (mkBoot (b_apps sa) new_listener (b_log sa ++ [InfoListenerStarted]))) as Hn.
  unfold NewsListener.start_listening.
  destruct (start_listening published_at_start true news_env
              (mkBoot (b_apps sa) new_listener (b_log sa ++ [InfoListenerStarted])))
    as [rn sn].
  simpl in Hn. subst rn. reflexivity.
Qed.

(** after the start-up, nothing subscribes a listener *)
Lemma on_snapshot_keeps_subscription (qualifies : gmap string fs_value -> bool)
      (running : bool) (changes : list change) (self : listener) :
  ls_unsubscribe (fst (on_snapshot qualifies running changes self)) = ls_unsubscribe self.
Proof.
  revert self. induction changes as [|change rest IH]; intros self; simpl; [reflexivity|].
  destruct (doc_data (c_document change)) as [data|]; [|apply IH].
  destruct (added_or_modified (c_type change) && qualifies data
            && negb (bool_decide (doc_id (c_document change) ∈ ls_tracking self)));
    [|apply IH].
  simpl. rewrite IH. reflexivity.
Qed.

Lemma run_keeps_subscription (which : feed) (actions : list feed_action) (self : listener) :
  ls_unsubscribe (fst (feed_run which actions self)) = ls_unsubscribe self.
Proof.
  revert self. induction actions as [|a rest IH]; intros self.
  - destruct which; reflexivity.
  - destruct which; simpl in *; rewrite IH.
    + destruct a as [running changes|app_id|app_id|app_id|app_id delete_ok]; simpl;
        try reflexivity.
      * apply on_snapshot_keeps_subscription.
      * unfold ApplicationsListener.delete_application_callback.
        destruct (negb (ls_db self)); [reflexivity|]. destruct (negb delete_ok); reflexivity.
    + destruct a as [running changes|app_id|app_id|app_id|app_id delete_ok]; simpl;
        try reflexivity.
      apply on_snapshot_keeps_subscription.
Qed.

Lemma healthy_init (env : firebase_calls) (apps : bool) :
  healthy env = true ->
  init_fails true env apps = false /\ stream_ok env = true /\ on_snapshot_ok env = true.
Proof.
  unfold healthy, init_fails. intros H.
  repeat (apply andb_true_iff in H as [H ?]).
  rewrite H, H0, H1, H2, H3, H4. destruct apps; auto.
Qed.

(** C9, as amended.  [start_listening] of either listener, when
    [_init_firebase] fails for any of its causes (the library missing,
    the credentials file missing, the certificate, the app or the client
    not made): it returns, leaves the object as it was (no client, no
    subscription, nothing added to the tracked set) and logs the cause
    once, followed by its own warning; it makes no second attempt.
    [main], when the library is there: it reaches polling whatever the
    backends do, with the scanner task created; a listener whose
    initialisation fails stays as it was made, and the other one, when
    its backend calls all succeed, is subscribed.  [main], when the
    library is not there: it starts neither listener, logs that once,
    and goes on to the scanner and to polling.  And after the start-up
    no change batch and no button subscribes a listener. *)
Theorem init_failure_disables_that_listener_only :
  (forall (which : feed) (FIREBASE_AVAILABLE : bool) (env : firebase_calls) (s : boot),
     init_fails FIREBASE_AVAILABLE env (b_apps s) = true ->
     let out := feed_start_listening which FIREBASE_AVAILABLE env s in
     fst out = Ok tt /\
     b_self (snd out) = b_self s /\
     b_log (snd out)
     = (b_log s ++ [init_failure_record FIREBASE_AVAILABLE env; WarnInitFailed])%list) /\
  (forall (applications_env news_env : firebase_calls),
     let out := main true applications_env news_env booting in
     let p := snd out in
     fst out = Ok tt /\
     scanner_task_created p = true /\
     polling_started p = true /\
     (init_fails true applications_env false = true ->
      applications_listener p = Some new_listener /\
      (healthy news_env = true -> subscribed (news_listener p) = true)) /\
     (credentials_exist news_env = false \/ client_ok news_env = false ->
      news_listener p = Some new_listener /\
      (healthy applications_env = true -> subscribed (applications_listener p) = true))) /\
  (forall (applications_env news_env : firebase_calls),
     let out := main false applications_env news_env booting in
     let p := snd out in
     fst out = Ok tt /\
     applications_listener p = None /\
     news_listener p = None /\
     startup_log p = [WarnListenersNotStarted] /\
     scanner_task_created p = true /\
     polling_started p = true) /\
  (forall (which : feed) (actions : list feed_action) (self : listener),
     ls_unsubscribe (fst (feed_run which actions self)) = ls_unsubscribe self).
Proof.
  split; [|split; [|split]].
  - intros which avail env s Hfail out. subst out.
    destruct which; unfold feed_start_listening,
      ApplicationsListener.start_listening, NewsListener.start_listening;
      rewrite start_listening_init_fails by exact Hfail; simpl; auto.
  - intros aenv nenv out p. subst p out. rewrite main_with_library. simpl.
    split; [reflexivity|]. split; [reflexivity|]. split; [reflexivity|].
    unfold ApplicationsListener.start_listening, NewsListener.start_listening.
    split.
    + intros Hfail.
      rewrite (start_listening_init_fails _ true aenv (mkBoot false new_listener []) Hfail).
      simpl. split; [reflexivity|]. intros Hh.
      destruct (healthy_init nenv
                  (credentials_exist aenv && certificate_ok aenv && initialize_app_ok aenv) Hh)
        as (Hok & Hstream & Hsnap).
      rewrite start_listening_init_succeeds by exact Hok.
      simpl. rewrite Hstream, Hsnap. reflexivity.
    + intros Hcause.
      assert (Hfail : forall apps, init_fails true nenv apps = true).
      { intros apps. unfold init_fails.
        destruct Hcause as [-> | ->]; simpl; [reflexivity|].
        rewrite !orb_true_r. reflexivity. }
      rewrite (start_listening_init_fails _ true nenv _ (Hfail _)). simpl.
      split; [reflexivity|]. intros Hh.
      destruct (healthy_init aenv false Hh) as (Hok & Hstream & Hsnap).
      rewrite (start_listening_init_succeeds _ true aenv (mkBoot false new_listener []) Hok).
      simpl. rewrite Hstream, Hsnap. reflexivity.
  - intros aenv nenv out p. subst p out. cbv. auto 10.
  - apply run_keeps_subscription.
Qed.

Lemma init_failure_disables_that_listener_only_witness :
  init_fails true broken_client false = true /\
  healthy (healthy_backend []) = true /\
  let p := snd (main true broken_client (healthy_backend []) booting) in
  applications_listener p = Some new_listener /\
  subscribed (news_listener p) = true /\
  scanner_task_created p = true /\
  polling_started p = true.
Proof.
  split; [reflexivity|]. split; [reflexivity|].
  destruct (proj1 (proj2 init_failure_disables_that_listener_only)
              broken_client (healthy_backend []))
    as (_ & Hscanner & Hpolling & Happlications & _).
  destruct (Happlications eq_refl) as [Hleft Hnews].
  split; [exact Hleft|]. split; [exact (Hnews eq_refl)|].
  split; [exact Hscanner | exact Hpolling].
Defined.

(** C9 as stated fails for its first cause.  When the Firebase library
    cannot be imported, [main] does not call [start_listening] at all:
    with two backends on which every call would succeed, neither
    listener exists afterwards and the log holds the one warning of
    [main], where the claim has that listener alone disabled and the
    other one going on.  With the library, the same backends leave both
    listeners subscribed. *)
Lemma missing_library_disables_both_listeners :
  let without := snd (main false (healthy_backend []) (healthy_backend []) booting) in
  let with_library := snd (main true (healthy_backend []) (healthy_backend []) booting) in
  applications_listener without = None /\
  news_listener without = None /\
  subscribed (applications_listener without) = false /\
  subscribed (news_listener without) = false /\
  startup_log without = [WarnListenersNotStarted] /\
  scanner_task_created without = true /\
  polling_started without = true /\
  subscribed (applications_listener with_library) = true /\
  subscribed (news_listener with_library) = true.
Proof. vm_compute. repeat split; reflexivity. Qed.

(** the client of the applications listener cannot be built, the news
    backend is sound: the process runs with the news feed alone *)
Example applications_client_fails_news_listens :
  let p := snd (main true broken_client (healthy_backend []) booting) in
  subscribed (applications_listener p) = false /\
  subscribed (news_listener p) = true /\
  scanner_task_created p = true /\
  polling_started p = true /\
  startup_log p = [ErrorFirebaseInit; WarnInitFailed; InfoListenerStarted;
                   InfoFirebaseInitialised; InfoLoaded 0; InfoListening;
                   InfoListenerStarted].
Proof. vm_compute. repeat split; reflexivity. Qed.


(** ** Fan-out *)

Lemma sends_app (a b : list event) : sends (a ++ b) = (sends a ++ sends b)%list.
Proof. apply omap_app. Qed.

Lemma successes_cons g groups :
  successes (g :: groups) = (if delivered g then 1 else 0) + successes groups.
Proof. unfold successes. simpl. destruct (delivered g); simpl length; lia. Qed.

Lemma failures_cons g groups :
  failures (g :: groups) = (if delivered g then 0 else 1) + failures groups.
Proof. unfold failures. simpl. destruct (delivered g); simpl length; lia. Qed.

Lemma successes_failures groups :
  successes groups + failures groups = Z.of_nat (length groups).
Proof.
  induction groups as [|g groups IH]; [reflexivity|].
  rewrite successes_cons, failures_cons. simpl length.
  destruct (delivered g); lia.
Qed.

Section FanOut.

Variable clock : nat -> datetime.
Variable transport : nat -> request -> bool.

Lemma announce_users_spec (announcement_text : string) (file_path : option string)
      (us : list (Z * user_row)) (success_count error_count : Z) (w : World) :
  exists groups,
    attempted_each (map fst us) groups /\
    fst (announce_users transport announcement_text file_path us
           success_count error_count w)
    = Ok (success_count + successes groups, error_count + failures groups) /\
    sends (w_trace (snd (announce_users transport announcement_text file_path us
                           success_count error_count w)))
    = (sends (w_trace w) ++ concat groups)%list /\
    Forall (fun g => length g = 1%nat) groups /\
    w_files (snd (announce_users transport announcement_text file_path us
                    success_count error_count w)) = w_files w /\
    w_db (snd (announce_users transport announcement_text file_path us
                 success_count error_count w)) = w_db w.
Proof.
  revert success_count error_count w.
  induction us as [|tu rest IH]; intros s e w.
  - exists []. unfold successes, failures; simpl.
    rewrite !Z.add_0_r, List.app_nil_r. repeat split; constructor.
  - destruct tu as [tg_id user]. simpl.
    unfold bind at 1, try_except, bind, file_present, bot_send, logging, emit, ret. simpl.
    set (with_file := match file_path with
                      | Some path => negb (String.eqb path "")
                                     && existsb (String.eqb path) (w_files w)
                      | None => false
                      end).
    set (req := if with_file
                then mkRequest (announcement_kind (default "" file_path)) tg_id
                               (Announcement announcement_text file_path)
                else mkRequest SendMessage tg_id (Announcement announcement_text None)).
    assert (Hchat : r_chat req = tg_id) by (subst req; destruct with_file; reflexivity).
    assert (Hstep :
              forall ok s1 e1 w1,
                sends (w_trace w1) = (sends (w_trace w) ++ [(req, ok)])%list ->
                w_files w1 = w_files w -> w_db w1 = w_db w ->
                s1 = s + (if ok then 1 else 0) ->
                e1 = e + (if ok then 0 else 1) ->
                exists groups,
                  attempted_each (tg_id :: map fst rest) groups /\
                  fst (announce_users transport announcement_text file_path rest s1 e1 w1)
                  = Ok (s + successes groups, e + failures groups) /\
                  sends (w_trace (snd (announce_users transport announcement_text file_path
                                         rest s1 e1 w1)))
                  = (sends (w_trace w) ++ concat groups)%list /\
                  Forall (fun g => length g = 1%nat) groups /\
                  w_files (snd (announce_users transport announcement_text file_path
                                  rest s1 e1 w1)) = w_files w /\
                  w_db (snd (announce_users transport announcement_text file_path
                               rest s1 e1 w1)) = w_db w).
    { intros ok s1 e1 w1 Hs Hf Hd Hs1 He1.
      destruct (IH s1 e1 w1) as (groups & Hall & Hres & Hsends & Hone & Hfiles & Hdb).
      exists ([(req, ok)] :: groups).
      rewrite Hres, Hsends, Hfiles, Hdb, Hs, Hf, Hd, successes_cons, failures_cons.
      simpl. rewrite <- List.app_assoc. simpl.
      split; [constructor; [split; [discriminate | constructor; [exact Hchat | constructor]]
                          | exact Hall]|].
      split; [subst s1 e1; unfold delivered; simpl; f_equal; f_equal; destruct ok; simpl; lia|].
      split; [reflexivity|].
      split; [constructor; [reflexivity | exact Hone]|].
      split; reflexivity. }
    destruct with_file; simpl; fold req;
      destruct (transport (w_attempts w) req) eqn:Hok; simpl;
      [apply (Hstep true) | apply (Hstep false) | apply (Hstep true) | apply (Hstep false)];
      simpl; rewrite ?sends_app; simpl; rewrite ?List.app_nil_r;
      try reflexivity; lia.
Qed.

(** closes the side conditions of one recipient's step *)
Ltac fan_out_step :=
  simpl; rewrite ?sends_app; unfold log_of; rewrite ?omap_app; simpl;
  rewrite ?List.app_nil_r, <- ?List.app_assoc;
  try reflexivity; try discriminate; try lia; repeat constructor.

Lemma send_announcement_to_all_spec (announcement_text : string)
      (file_path : option string) (admin_tg_id : Z) (w w' : World) :
  w' = snd (send_announcement_to_all transport announcement_text file_path admin_tg_id w) ->
  exists groups report_ok,
    attempted_each (map fst (select_users_with_tg (w_db w))) groups /\
    Forall (fun g => length g = 1%nat) groups /\
    sends (w_trace w')
    = (sends (w_trace w) ++ concat groups
       ++ [(mkRequest SendMessage admin_tg_id
                      (AnnouncementReport (successes groups) (failures groups)),
            report_ok)])%list /\
    In (LogAnnouncementDone (successes groups) (failures groups)) (log_of (w_trace w')).
Proof.
  intros Hw'.
  unfold send_announcement_to_all, try_except, bind at 1 2, get_db in Hw'. simpl in Hw'.
  destruct (announce_users_spec announcement_text file_path
              (select_users_with_tg (w_db w)) 0 0 w)
    as (groups & Hall & Hres & Hsends & Hone & Hfiles & Hdb).
  destruct (announce_users transport announcement_text file_path
              (select_users_with_tg (w_db w)) 0 0 w) as [[counts|e] w1];
    simpl in Hres, Hsends, Hfiles, Hdb; [|discriminate].
  injection Hres as ->. simpl in Hsends.
  unfold bind, try_except, bot_send, logging, emit, file_present, os_remove, ret in Hw'.
  simpl in Hw'.
  exists groups.
  exists (transport (w_attempts w1)
            (mkRequest SendMessage admin_tg_id
               (AnnouncementReport (successes groups) (failures groups)))).
  split; [exact Hall|]. split; [exact Hone|].
  destruct (transport (w_attempts w1) _) eqn:Hreport; simpl in Hw';
    destruct (match file_path with
              | Some path => negb (String.eqb path "")
                             && existsb (String.eqb path) (w_files w1)
              | None => false
              end); simpl in Hw'; subst w'; simpl;
    (split; [rewrite ?sends_app; rewrite Hsends; simpl;
             rewrite ?List.app_nil_r, <- ?List.app_assoc; reflexivity|]);
    unfold log_of; rewrite ?omap_app; simpl; rewrite ?in_app_iff; simpl; tauto.
Qed.

(** closes the side conditions of one recipient's attempts *)
Ltac attempts_step :=
  simpl; rewrite ?sends_app; unfold log_of; rewrite ?omap_app; simpl;
  rewrite ?List.app_nil_r, <- ?List.app_assoc;
  try reflexivity; try lia.

Lemma news_users_attempts (news_id : string) (image_url : fs_value)
      (user_tg_ids : list Z) (success_count failed_count : Z) (w : World) :
  exists groups w1,
    news_users transport news_id image_url user_tg_ids success_count failed_count w
    = (Ok (success_count + successes groups, failed_count + failures groups), w1) /\
    Forall2 (news_attempts news_id image_url) user_tg_ids groups /\
    sends (w_trace w1) = (sends (w_trace w) ++ concat groups)%list /\
    log_of (w_trace w1) = log_of (w_trace w) /\
    w_db w1 = w_db w.
Proof.
  revert success_count failed_count w.
  induction user_tg_ids as [|user_id rest IH]; intros s f w.
  - exists [], w. unfold successes, failures; simpl.
    rewrite !Z.add_0_r, List.app_nil_r. repeat split; constructor.
  - simpl.
    assert (Hstep :
              forall g s1 f1 w1,
                news_attempts news_id image_url user_id g ->
                sends (w_trace w1) = (sends (w_trace w) ++ g)%list ->
                log_of (w_trace w1) = log_of (w_trace w) ->
                w_db w1 = w_db w ->
                s1 = s + (if delivered g then 1 else 0) ->
                f1 = f + (if delivered g then 0 else 1) ->
                exists groups w2,
                  news_users transport news_id image_url rest s1 f1 w1
                  = (Ok (s + successes groups, f + failures groups), w2) /\
                  Forall2 (news_attempts news_id image_url) (user_id :: rest) groups /\
                  sends (w_trace w2) = (sends (w_trace w) ++ concat groups)%list /\
                  log_of (w_trace w2) = log_of (w_trace w) /\
                  w_db w2 = w_db w).
    { intros g s1 f1 w1 Hg Hs Hl Hd Hs1 Hf1.
      destruct (IH s1 f1 w1) as (groups & w2 & Heq & Hall & Hsends & Hlog & Hdb).
      exists (g :: groups), w2.
      rewrite Heq, Hsends, Hlog, Hdb, Hs, Hl, Hd, successes_cons, failures_cons.
      simpl. rewrite <- List.app_assoc.
      split; [subst s1 f1; f_equal; f_equal; f_equal; lia|].
      split; [constructor; assumption|].
      repeat split; reflexivity. }
    unfold bind at 1, try_except, bind, lift, bot_send, ret.
    destruct (image_given image_url) as [[|]|e] eqn:Himage; simpl.
    + destruct (transport (w_attempts w) (mkRequest SendPhoto user_id (NewsNotice news_id)))
        eqn:Hphoto; simpl.
      * apply (Hstep [(mkRequest SendPhoto user_id (NewsNotice news_id), true)]);
          [unfold news_attempts; rewrite Himage; left; reflexivity | attempts_step ..].
      * destruct (transport (S (w_attempts w))
                    (mkRequest SendMessage user_id (NewsNotice news_id))) eqn:Hmsg; simpl.
        -- apply (Hstep [(mkRequest SendPhoto user_id (NewsNotice news_id), false);
                         (mkRequest SendMessage user_id (NewsNotice news_id), true)]);
             [unfold news_attempts; rewrite Himage; right; eexists; reflexivity | attempts_step ..].
        -- apply (Hstep [(mkRequest SendPhoto user_id (NewsNotice news_id), false);
                         (mkRequest SendMessage user_id (NewsNotice news_id), false)]);
             [unfold news_attempts; rewrite Himage; right; eexists; reflexivity | attempts_step ..].
    + destruct (transport (w_attempts w) (mkRequest SendMessage user_id (NewsNotice news_id)))
        eqn:Hmsg; simpl.
      * apply (Hstep [(mkRequest SendMessage user_id (NewsNotice news_id), true)]);
          [unfold news_attempts; rewrite Himage; eexists; reflexivity | attempts_step ..].
      * apply (Hstep [(mkRequest SendMessage user_id (NewsNotice news_id), false)]);
          [unfold news_attempts; rewrite Himage; eexists; reflexivity | attempts_step ..].
    + apply (Hstep []); [unfold news_attempts; rewrite Himage; reflexivity | attempts_step ..].
Qed.

(** the whole pass: it returns, leaves the database alone, makes the
    calls of the loop when it gets there, and ends with one log record *)
Lemma send_notification_to_all_users_attempts
      (news_id : string) (news_data : gmap string fs_value) (w : World) :
  exists groups w',
    send_notification_to_all_users transport news_id news_data w = (Ok tt, w') /\
    w_db w' = w_db w /\
    Forall2 (news_pass_attempts news_id news_data) (select_news_recipients (w_db w)) groups /\
    sends (w_trace w') = (sends (w_trace w) ++ concat groups)%list /\
    log_of (w_trace w')
    = (log_of (w_trace w)
       ++ [news_report news_data (select_news_recipients (w_db w)) groups])%list.
Proof.
  unfold send_notification_to_all_users, try_except, bind at 1, get_db. simpl.
  unfold news_report, news_pass_attempts.
  destruct (select_news_recipients (w_db w)) as [|user_id rest] eqn:Hrec.
  - exists []. eexists. unfold logging, emit. simpl.
    split; [reflexivity|]. split; [reflexivity|]. split; [constructor|].
    simpl. rewrite sends_app. unfold log_of. rewrite omap_app. simpl.
    rewrite !List.app_nil_r. auto.
  - unfold bind at 1, lift.
    destruct (format_news_notification news_data) as [[]|e] eqn:Hformat.
    + destruct (news_users_attempts news_id (dict_get news_data "image" (VStr ""))
                  (user_id :: rest) 0 0 w)
        as (groups & w1 & Heq & Hall & Hsends & Hlog & Hdb).
      unfold bind. rewrite Heq. unfold logging, emit. simpl.
      exists groups. eexists. split; [reflexivity|]. simpl.
      split; [exact Hdb|]. split; [exact Hall|].
      rewrite sends_app, Hsends. unfold log_of in *. rewrite omap_app, Hlog. simpl.
      rewrite List.app_nil_r. auto.
    + exists (map (fun _ => []) (user_id :: rest)). eexists.
      unfold logging, emit. simpl.
      split; [reflexivity|]. simpl. split; [reflexivity|].
      split.
      { constructor; [reflexivity|].
        clear. induction rest as [|x rest IH]; simpl; constructor; [reflexivity | exact IH]. }
      assert (Hnone : concat (map (fun _ : Z => @nil (request * bool)) rest) = [])
        by (clear; induction rest as [|x rest IH]; [reflexivity | exact IH]).
      rewrite Hnone, sends_app. unfold log_of. rewrite omap_app. simpl.
      rewrite !List.app_nil_r. auto.
Qed.

(** what the groups of a news pass have in common *)
Lemma news_pass_groups (news_id : string) (news_data : gmap string fs_value)
      (recipients : list Z) (groups : list (list (request * bool))) :
  Forall2 (news_pass_attempts news_id news_data) recipients groups ->
  addressed_each recipients groups /\
  (concat groups <> [] ->
   attempted_each recipients groups /\ format_news_notification news_data = Ok tt).
Proof.
  unfold news_pass_attempts, news_attempts, addressed_each, attempted_each.
  intros Hall.
  destruct (format_news_notification news_data) as [[]|e].
  - destruct (image_given (dict_get news_data "image" (VStr ""))) as [[|]|e'].
    + split.
      * eapply Forall2_impl; [exact Hall|]. simpl.
        intros id g [->|[ok ->]]; repeat constructor.
      * intros _. split; [|reflexivity].
        eapply Forall2_impl; [exact Hall|]. simpl.
        intros id g [->|[ok ->]]; (split; [discriminate | repeat constructor]).
    + split.
      * eapply Forall2_impl; [exact Hall|]. simpl.
        intros id g [ok ->]; repeat constructor.
      * intros _. split; [|reflexivity].
        eapply Forall2_impl; [exact Hall|]. simpl.
        intros id g [ok ->]; (split; [discriminate | repeat constructor]).
    + split.
      * eapply Forall2_impl; [exact Hall|]. simpl. intros id g ->. constructor.
      * intros Hne. exfalso. apply Hne. clear Hne.
        induction Hall as [|id g ids gs Hg _ IH]; [reflexivity|].
        rewrite Hg. exact IH.
  - split.
    + eapply Forall2_impl; [exact Hall|]. simpl. intros id g ->. constructor.
    + intros Hne. exfalso. apply Hne. clear Hne.
      induction Hall as [|id g ids gs Hg _ IH]; [reflexivity|].
      rewrite Hg. exact IH.
Qed.

End FanOut.

(** C8. Fan-out isolation.  In one pass of [send_announcement_to_all]
    every recipient of the list gets its one transport call, in order,
    whatever happened to the recipients before it, and the report to
    the administrator and the log carry exactly the number of recipients
    reached and the number not reached.  In a news pass the calls are
    grouped by recipient, in order (the photo and, if that one fails,
    the message); as soon as the pass makes one transport call, every
    recipient has a call of its own and the log carries the number of
    recipients reached and the number not reached, which add up to the
    number of recipients.  A news pass that makes no call is one whose
    document stops it before any delivery: a content that is not a text
    ends the pass with an error record before the loop, an image field
    that cannot be tested counts every recipient as failed.  With five
    recipients and a transport that fails for the third alone, both
    passes report 4 and 1, and the fourth and fifth recipients are
    reached. *)
Theorem fan_out_isolates_recipient_failures
        (transport : nat -> request -> bool)
        (d : DB) (files : list string) (reads attempts : nat)
        (announcement_text : string) (file_path : option string) (admin_tg_id : Z)
        (news_id : string) (news_data : gmap string fs_value) :
  let w := mkWorld d files reads attempts [] in
  let wa := snd (send_announcement_to_all transport announcement_text file_path
                   admin_tg_id w) in
  let wn := snd (send_notification_to_all_users transport news_id news_data w) in
  (exists groups report_ok,
      attempted_each (map fst (select_users_with_tg d)) groups /\
      Forall (fun g => length g = 1%nat) groups /\
      sends (w_trace wa)
      = (concat groups
         ++ [(mkRequest SendMessage admin_tg_id
                        (AnnouncementReport (successes groups) (failures groups)),
              report_ok)])%list /\
      In (LogAnnouncementDone (successes groups) (failures groups)) (log_of (w_trace wa)) /\
      successes groups + failures groups
      = Z.of_nat (length (select_users_with_tg d))) /\
  (exists groups,
      addressed_each (select_news_recipients d) groups /\
      sends (w_trace wn) = concat groups /\
      successes groups + failures groups
      = Z.of_nat (length (select_news_recipients d)) /\
      (sends (w_trace wn) <> [] ->
       attempted_each (select_news_recipients d) groups /\
       log_of (w_trace wn) = [LogNewsDone (successes groups) (failures groups)]) /\
      (sends (w_trace wn) = [] -> select_news_recipients d <> [] ->
       match format_news_notification news_data with
       | Ok _ => log_of (w_trace wn)
                 = [LogNewsDone 0 (Z.of_nat (length (select_news_recipients d)))]
       | Raise e => log_of (w_trace wn) = [LogNewsFailed e]
       end)) /\
  (let w5 := fresh_world (mkDB five_users [] []) in
   let t5 := w_trace (snd (send_announcement_to_all third_is_unreachable
                             "Assembly at noon" None 42 w5)) in
   let n5 := w_trace (snd (send_notification_to_all_users third_is_unreachable
                             "n1" illustrated_article w5)) in
   In (LogAnnouncementDone 4 1) (log_of t5) /\
   In (mkRequest SendMessage 42 (AnnouncementReport 4 1), true) (sends t5) /\
   In (mkRequest SendMessage 104 (Announcement "Assembly at noon" None), true) (sends t5) /\
   In (mkRequest SendMessage 105 (Announcement "Assembly at noon" None), true) (sends t5) /\
   log_of n5 = [LogNewsDone 4 1] /\
   In (mkRequest SendPhoto 104 (NewsNotice "n1"), true) (sends n5) /\
   In (mkRequest SendPhoto 105 (NewsNotice "n1"), true) (sends n5)).
Proof.
  intros w wa wn. split; [|split].
  - destruct (send_announcement_to_all_spec transport announcement_text file_path
                admin_tg_id w wa eq_refl) as (groups & report_ok & Hall & Hone & Hs & Hl).
    exists groups, report_ok.
    split; [exact Hall|]. split; [exact Hone|]. split; [exact Hs|]. split; [exact Hl|].
    rewrite successes_failures. f_equal.
    rewrite <- (Forall2_length _ _ _ Hall), length_map. reflexivity.
  - destruct (send_notification_to_all_users_attempts transport news_id news_data w)
      as (groups & w' & Heq & Hdb & Hall & Hsends & Hlog).
    subst wn. rewrite Heq. simpl in *.
    destruct (news_pass_groups news_id news_data _ _ Hall) as [Haddr Hmade].
    exists groups.
    split; [exact Haddr|]. split; [exact Hsends|].
    split; [rewrite successes_failures; f_equal;
            rewrite <- (Forall2_length _ _ _ Hall); reflexivity|].
    split.
    + intros Hne. rewrite Hsends in Hne. destruct (Hmade Hne) as [Hatt Hformat].
      split; [exact Hatt|]. rewrite Hlog. unfold news_report. rewrite Hformat.
      destruct (select_news_recipients d) as [|id ids]; [|reflexivity].
      inversion Hall; subst. exfalso. apply Hne. reflexivity.
    + intros Hnone Hsome. rewrite Hlog. unfold news_report.
      destruct (select_news_recipients d) as [|id ids] eqn:Hrec; [contradiction|].
      destruct (format_news_notification news_data) as [[]|e]; [|reflexivity].
      rewrite Hsends in Hnone.
      assert (Hcount : successes groups = 0 /\
                       failures groups = Z.of_nat (length (id :: ids))).
      { clear -Hnone Hall. revert Hnone.
        induction Hall as [|x g xs gs _ _ IH]; intros Hnone; [split; reflexivity|].
        simpl in Hnone. apply List.app_eq_nil in Hnone as [-> Hgs].
        destruct (IH Hgs) as [Hs Hf].
        rewrite successes_cons, failures_cons, Hs, Hf. unfold delivered. simpl existsb.
        simpl length. split; lia. }
      destruct Hcount as [-> ->]. reflexivity.
  - vm_compute. repeat split; auto 10.
Qed.

Lemma fan_out_isolates_recipient_failures_witness :
  let w := mkWorld (mkDB five_users [] []) [] 0 0 [] in
  let wn := snd (send_notification_to_all_users third_is_unreachable "n1"
                   illustrated_article w) in
  exists groups,
    addressed_each (select_news_recipients (mkDB five_users [] [])) groups /\
    sends (w_trace wn) = concat groups /\
    successes groups + failures groups = 5 /\
    attempted_each (select_news_recipients (mkDB five_users [] [])) groups /\
    log_of (w_trace wn) = [LogNewsDone (successes groups) (failures groups)].
Proof.
  intros w wn.
  destruct (proj1 (proj2 (fan_out_isolates_recipient_failures third_is_unreachable
                            (mkDB five_users [] []) [] 0 0 "Assembly at noon" None 42
                            "n1" illustrated_article)))
    as (groups & Haddr & Hsends & Hcount & Hmade & _).
  exists groups.
  split; [exact Haddr|]. split; [exact Hsends|]. split; [exact Hcount|].
  apply Hmade. vm_compute. discriminate.
Defined.


(** ** A send that raises *)

Lemma db_get_upcoming_class_frame (clock : nat -> datetime) (phone_norm : string)
      (minutes_ahead : Z) (w : World) :
  let w1 := snd (db_get_upcoming_class clock phone_norm minutes_ahead w) in
  w_db w1 = w_db w /\ w_files w1 = w_files w /\ w_attempts w1 = w_attempts w.
Proof.
  destruct (db_get_user (w_db w) phone_norm) as [user|] eqn:Huser.
  - rewrite (db_get_upcoming_class_registered _ _ _ _ _ Huser). simpl. auto.
  - rewrite (db_get_upcoming_class_unregistered _ _ _ _ Huser). simpl. auto.
Qed.

(** the three ways a window with a match can go *)
Section WindowStep.

Variable clock : nat -> datetime.
Variable transport : nat -> request -> bool.
Variable tg_id : Z.
Variable user : user_row.
Variable minutes_window : Z.
Variable rest : list Z.
Variable w : World.
Variable upcoming : lesson_row.

Let looked := db_get_upcoming_class clock (u_phone user) minutes_window w.
Let k := mkKey (u_phone user) (u_class_name user)
               (l_day_name upcoming) (l_lesson_number upcoming).
Let req := mkRequest SendMessage tg_id (LessonNotice upcoming).
Let today := clock (w_reads (snd looked)).

Hypothesis lookup_matches : fst looked = Ok (Some upcoming).

Lemma notify_windows_checks :
  notify_windows clock transport tg_id user (minutes_window :: rest) w
  = (let w2 := mkWorld (w_db w) (w_files w) (S (w_reads (snd looked))) (w_attempts w)
                       (w_trace (snd looked)
                        ++ [Log (LogUpcoming (u_class_name user) upcoming minutes_window);
                            Checked k (ledger_has k (ordinal today) (w_db w))]) in
     if negb (ledger_has k (ordinal today) (w_db w)) then
       (let! done :=
          try_except
            (do! bot_send transport req then
             do! emit (Delivered k tg_id) then
             do! logging (LogSent tg_id (u_fio user) upcoming) then
             do! db_record_notification_sent clock (u_phone user) (u_class_name user)
                   (l_day_name upcoming) (l_lesson_number upcoming) then
             ret true)
            is_Exception
            (fun e => do! logging (LogSendError tg_id e) then ret false) in
        if done then ret tt else notify_windows clock transport tg_id user rest) w2
     else (Ok tt, w2)).
Proof.
  destruct (db_get_upcoming_class_frame clock (u_phone user) minutes_window w)
    as (Hdb & Hfiles & Hatt).
  fold looked in Hdb, Hfiles, Hatt.
  simpl. unfold bind at 1. fold looked.
  pose proof lookup_matches as Hlook. unfold today.
  destruct looked as [r w1]. simpl in *. subst r.
  unfold bind at 1, logging, emit. simpl.
  unfold bind at 1, check_notification_already_sent, bind, datetime_now, get_db, emit, ret.
  simpl. rewrite count_positive_existsb. fold k. rewrite Hdb, Hfiles, Hatt.
  change (existsb (sent_matches k (ordinal (clock (w_reads w1)))) (notifications_sent (w_db w)))
    with (ledger_has k (ordinal (clock (w_reads w1))) (w_db w)).
  rewrite <- !List.app_assoc. simpl.
  destruct (ledger_has k (ordinal (clock (w_reads w1))) (w_db w)); reflexivity.
Qed.

Lemma notify_windows_already_sent :
  ledger_has k (ordinal today) (w_db w) = true ->
  notify_windows clock transport tg_id user (minutes_window :: rest) w
  = (Ok tt, mkWorld (w_db w) (w_files w) (S (w_reads (snd looked))) (w_attempts w)
                    (w_trace (snd looked)
                     ++ [Log (LogUpcoming (u_class_name user) upcoming minutes_window);
                         Checked k true])).
Proof. intros Hl. rewrite notify_windows_checks, Hl. reflexivity. Qed.

Lemma notify_windows_send_raises :
  ledger_has k (ordinal today) (w_db w) = false ->
  transport (w_attempts w) req = false ->
  notify_windows clock transport tg_id user (minutes_window :: rest) w
  = notify_windows clock transport tg_id user rest
      (mkWorld (w_db w) (w_files w) (S (w_reads (snd looked))) (S (w_attempts w))
               (w_trace (snd looked)
                ++ [Log (LogUpcoming (u_class_name user) upcoming minutes_window);
                    Checked k false; Sent req false;
                    Log (LogSendError tg_id TelegramAPIError)])).
Proof.
  intros Hl Hfail. rewrite notify_windows_checks, Hl. simpl.
  unfold bind at 1, try_except, bind, bot_send, logging, emit, ret. simpl.
  fold req. rewrite Hfail. simpl. rewrite <- !List.app_assoc. reflexivity.
Qed.

Lemma notify_windows_send_returns :
  ledger_has k (ordinal today) (w_db w) = false ->
  transport (w_attempts w) req = true ->
  notify_windows clock transport tg_id user (minutes_window :: rest) w
  = (Ok tt,
     let row := mkSent (u_phone user) (u_class_name user) (l_day_name upcoming)
                       (l_lesson_number upcoming) (clock (S (w_reads (snd looked)))) in
     mkWorld (mkDB (users (w_db w)) (schedule (w_db w))
                   (notifications_sent (w_db w) ++ [row]))
             (w_files w) (S (S (w_reads (snd looked)))) (S (w_attempts w))
             (w_trace (snd looked)
              ++ [Log (LogUpcoming (u_class_name user) upcoming minutes_window);
                  Checked k false; Sent req true; Delivered k tg_id;
                  Log (LogSent tg_id (u_fio user) upcoming); Recorded row])).
Proof.
  intros Hl Hok. rewrite notify_windows_checks, Hl. simpl.
  unfold bind at 1, try_except, bind, bot_send, logging, emit, ret,
    db_record_notification_sent, bind, datetime_now, insert_sent. simpl.
  fold req. rewrite Hok. simpl. rewrite <- !List.app_assoc. reflexivity.
Qed.

End WindowStep.

(** a window without a match hands over to the next one *)
Lemma notify_windows_no_match (clock : nat -> datetime) (transport : nat -> request -> bool)
      (tg_id : Z) (user : user_row) (minutes_window : Z) (rest : list Z) (w : World) :
  fst (db_get_upcoming_class clock (u_phone user) minutes_window w) = Ok None ->
  notify_windows clock transport tg_id user (minutes_window :: rest) w
  = notify_windows clock transport tg_id user rest
      (snd (db_get_upcoming_class clock (u_phone user) minutes_window w)).
Proof.
  intros Hnone. simpl. unfold bind at 1.
  destruct (db_get_upcoming_class clock (u_phone user) minutes_window w) as [r w1].
  simpl in *. subst r. reflexivity.
Qed.

(** C10. When the lookup of a window returns a lesson whose key has no
    row for today and the send raises, the scanner logs the error,
    leaves [notifications_sent] as it was and goes on with the remaining
    windows from there.  So one tick can check the same key and attempt
    the send once per window, and later ticks do so again until a send
    succeeds and the row is written: three minutes before Algebra, with
    a transport that refuses its first five calls, the first tick checks
    the key four times and fails four sends without writing a row, the
    second tick fails once more, succeeds on the 10-minute window and
    writes the row, and a third tick sends nothing. *)
Theorem failed_send_is_not_recorded_and_is_retried :
  (forall (clock : nat -> datetime) (transport : nat -> request -> bool)
          (tg_id : Z) (user : user_row) (minutes_window : Z) (rest : list Z)
          (w : World) (upcoming : lesson_row),
     let looked := db_get_upcoming_class clock (u_phone user) minutes_window w in
     let k := mkKey (u_phone user) (u_class_name user)
                    (l_day_name upcoming) (l_lesson_number upcoming) in
     let req := mkRequest SendMessage tg_id (LessonNotice upcoming) in
     fst looked = Ok (Some upcoming) ->
     ledger_has k (ordinal (clock (w_reads (snd looked)))) (w_db w) = false ->
     transport (w_attempts w) req = false ->
     exists w2,
       notify_windows clock transport tg_id user (minutes_window :: rest) w
       = notify_windows clock transport tg_id user rest w2 /\
       w_db w2 = w_db w /\
       w_trace w2
       = (w_trace (snd looked)
          ++ [Log (LogUpcoming (u_class_name user) upcoming minutes_window);
              Checked k false; Sent req false;
              Log (LogSendError tg_id TelegramAPIError)])%list) /\
  (let world0 := fresh_world (mkDB [] [] []) in
   let tick := ([pupil], [algebra]) in
   let one := snd (scanner_run monday_0827 refuses_five_calls [tick] world0) in
   let two := snd (scanner_run monday_0827 refuses_five_calls [tick; tick] world0) in
   let three := snd (scanner_run monday_0827 refuses_five_calls [tick; tick; tick] world0) in
   windows_checked (w_trace one) = [5; 10; 20; 30] /\
   checks algebra_key (w_trace one) = [false; false; false; false] /\
   map snd (sends (w_trace one)) = [false; false; false; false] /\
   notifications_sent (w_db one) = [] /\
   map snd (sends (w_trace two)) = [false; false; false; false; false; true] /\
   windows_checked (w_trace two) = [5; 10; 20; 30; 5; 10] /\
   deliveries algebra_key (w_trace two) = 1%nat /\
   ledger_has algebra_key 1 (w_db two) = true /\
   sends (w_trace three) = sends (w_trace two) /\
   checks algebra_key (w_trace three)
   = [false; false; false; false; false; false; true]).
Proof.
  split.
  - intros clock transport tg_id user minutes_window rest w upcoming looked k req
           Hlook Hfresh Hfail.
    eexists. split; [|split].
    + apply (notify_windows_send_raises clock transport tg_id user minutes_window rest w
               upcoming Hlook Hfresh Hfail).
    + reflexivity.
    + reflexivity.
  - vm_compute. repeat split; reflexivity.
Qed.

(** ** Window escalation *)

Lemma replace_hm_shape (base : datetime) (h m : Z) (start_time : datetime) :
  replace_hm base h m = Ok start_time ->
  0 <= h < 24 /\ 0 <= m < 60 /\ start_time = mkDatetime (ordinal base) h m 0 0.
Proof.
  unfold replace_hm.
  destruct (negb (fits_c_int h && fits_c_int m)); [discriminate|].
  destruct ((0 <=? h) && (h <? 24)) eqn:Hh; simpl; [|discriminate].
  destruct ((0 <=? m) && (m <? 60)) eqn:Hm; simpl; [|discriminate].
  intros H. injection H as <-.
  apply andb_true_iff in Hh as [Hh1 Hh2]. apply andb_true_iff in Hm as [Hm1 Hm2].
  apply Z.leb_le in Hh1, Hm1. apply Z.ltb_lt in Hh2, Hm2. auto.
Qed.

(** what [replace] answers depends on the hour and the minute alone *)
Lemma replace_hm_other_base (base base' : datetime) (h m : Z) :
  match replace_hm base h m with
  | Ok _ => replace_hm base' h m = Ok (mkDatetime (ordinal base') h m 0 0)
  | Raise e => replace_hm base' h m = Raise e
  end.
Proof.
  unfold replace_hm.
  destruct (negb (fits_c_int h && fits_c_int m)); [reflexivity|].
  destruct (negb ((0 <=? h) && (h <? 24))); [reflexivity|].
  destruct (negb ((0 <=? m) && (m <? 60))); reflexivity.
Qed.

Lemma lesson_start_shape (base : datetime) (lesson : lesson_row) (start_time : datetime) :
  lesson_start base lesson = Ok start_time ->
  exists h m,
    0 <= h < 24 /\ 0 <= m < 60 /\ start_time = mkDatetime (ordinal base) h m 0 0.
Proof.
  unfold lesson_start, rbind.
  destruct (getitem _ 0) as [p0|]; [|discriminate].
  destruct (py_int p0) as [h|]; [|discriminate].
  destruct (getitem _ 1) as [p1|]; [|discriminate].
  destruct (py_int p1) as [m|]; [|discriminate].
  intros H. exists h, m. apply (replace_hm_shape base). exact H.
Qed.

Lemma lesson_start_guarded (base : datetime) (lesson : lesson_row) :
  start_time_is_guarded lesson = true ->
  match lesson_start base lesson with
  | Ok start_time => exists h m, 0 <= h < 24 /\ 0 <= m < 60 /\
                                 start_time = mkDatetime (ordinal base) h m 0 0
  | Raise e => is_ValueError_or_KeyError e = true
  end.
Proof.
  unfold start_time_is_guarded.
  destruct (lesson_start base lesson) as [st|e] eqn:Hb.
  - intros _. apply (lesson_start_shape base lesson). exact Hb.
  - revert Hb. unfold lesson_start, rbind.
    destruct (getitem _ 0) as [p0|e0]; [|intros H; injection H as <-; auto].
    destruct (py_int p0) as [h|e1]; [|intros H; injection H as <-; auto].
    destruct (getitem _ 1) as [p1|e2]; [|intros H; injection H as <-; auto].
    destruct (py_int p1) as [m|e3]; [|intros H; injection H as <-; auto].
    pose proof (replace_hm_other_base base (mkDatetime 0 0 0 0 0) h m) as Hother.
    intros H. rewrite H in Hother. rewrite Hother. auto.
Qed.











(** ** A tick with guarded start times *)

Lemma Forall_insert_lesson (P : lesson_row -> Prop) (x : lesson_row) (l : list lesson_row) :
  P x -> Forall P l -> Forall P (insert_lesson x l).
Proof.
  intros Hx Hl. induction Hl as [|y rest Hy Hrest IH]; simpl.
  - constructor; [exact Hx | constructor].
  - destruct (l_lesson_number x <=? l_lesson_number y).
    + constructor; [exact Hx | constructor; assumption].
    + constructor; assumption.
Qed.

Lemma Forall_select_schedule (P : lesson_row -> Prop) (d : DB) (class_name day_name : string) :
  Forall P (schedule d) -> Forall P (select_schedule d class_name day_name).
Proof.
  intros H. unfold select_schedule, order_by_lesson_number.
  induction H as [|x rest Hx Hrest IH]; simpl; [constructor|].
  destruct (String.eqb (l_class_name x) class_name && String.eqb (l_day_name x) day_name);
    simpl; [apply Forall_insert_lesson; assumption | exact IH].
Qed.

Lemma scan_today_guarded now minutes_ahead (lessons : list lesson_row) :
  Forall (fun l => start_time_is_guarded l = true) lessons ->
  (exists r, snd (scan_today now minutes_ahead lessons) = Ok r) /\
  forallb scan_record (fst (scan_today now minutes_ahead lessons)) = true.
Proof.
  induction 1 as [|lesson rest Hl _ IH]; simpl; [split; [eexists|]; reflexivity|].
  pose proof (lesson_start_guarded now lesson Hl) as Hs.
  destruct (lesson_start now lesson) as [st|e].
  - destruct (0 <=? timedelta_us st now); [|exact IH].
    destruct (timedelta_us st now <=? _); [|exact IH].
    split; [eexists|]; reflexivity.
  - rewrite Hs. simpl. exact IH.
Qed.

Lemma scan_tomorrow_guarded now tomorrow_date minutes_ahead (lessons : list lesson_row) :
  Forall (fun l => start_time_is_guarded l = true) lessons ->
  (exists r, snd (scan_tomorrow now tomorrow_date minutes_ahead lessons) = Ok r) /\
  forallb scan_record (fst (scan_tomorrow now tomorrow_date minutes_ahead lessons)) = true.
Proof.
  induction 1 as [|lesson rest Hl _ IH]; simpl; [split; [eexists|]; reflexivity|].
  pose proof (lesson_start_guarded tomorrow_date lesson Hl) as Hs.
  destruct (lesson_start tomorrow_date lesson) as [st|e].
  - destruct ((0 <=? timedelta_us st now) && _); [|exact IH].
    split; [eexists|]; reflexivity.
  - rewrite Hs. simpl. exact IH.
Qed.

Lemma two_day_scan_guarded (d : DB) (class_name : string) now minutes_ahead :
  Forall (fun l => start_time_is_guarded l = true) (schedule d) ->
  (exists r, snd (two_day_scan d class_name now minutes_ahead) = Ok r) /\
  forallb scan_record (fst (two_day_scan d class_name now minutes_ahead)) = true.
Proof.
  intros Hg. unfold two_day_scan.
  destruct (scan_today_guarded now minutes_ahead
              (select_schedule d class_name (day_ua (weekday now)))
              (Forall_select_schedule _ d _ _ Hg)) as [[r Hr] Hlogs].
  destruct (scan_tomorrow_guarded now (plus_one_day now) minutes_ahead
              (select_schedule d class_name (day_ua ((weekday now + 1) mod 7)))
              (Forall_select_schedule _ d _ _ Hg)) as [[r' Hr'] Hlogs'].
  rewrite Hr. destruct r as [lesson|].
  - split; [eexists; exact Hr | exact Hlogs].
  - simpl. split; [eexists; exact Hr'|].
    rewrite forallb_app, Hlogs, Hlogs'. reflexivity.
Qed.

(** the records of the scanning loops change none of the four views *)
Lemma scan_records_are_neutral (logs : list log_record) :
  forallb scan_record logs = true ->
  visited (map Log logs) = [] /\
  critical_errors (map Log logs) = [] /\
  send_errors_logged (map Log logs) = [] /\
  refused (map Log logs) = [].
Proof.
  induction logs as [|r logs IH]; simpl; [auto|].
  intros H. apply andb_true_iff in H as [Hr Hlogs].
  destruct (IH Hlogs) as (H1 & H2 & H3 & H4).
  unfold visited, critical_errors, send_errors_logged, refused in *. simpl.
  rewrite H1, H3, H4. destruct r; try discriminate; simpl; auto.
Qed.

Lemma omap_lookup_logs {A} (f : event -> option A) (tr : list event) (phone : string)
      (minutes_ahead : Z) (logs : list log_record) :
  f (Lookup phone minutes_ahead) = None ->
  omap f (map Log logs) = [] ->
  omap f (tr ++ Lookup phone minutes_ahead :: map Log logs)%list = omap f tr.
Proof.
  intros Hf Hlogs.
  change (Lookup phone minutes_ahead :: map Log logs)
    with ([Lookup phone minutes_ahead] ++ map Log logs)%list.
  rewrite !omap_app, Hlogs. simpl. rewrite Hf. rewrite !List.app_nil_r. reflexivity.
Qed.

Lemma tick_goes_on_lookup (clock : nat -> datetime) (phone_norm : string)
      (minutes_ahead : Z) (seen : list string) (w : World) :
  tick_goes_on seen w ->
  (exists r, fst (db_get_upcoming_class clock phone_norm minutes_ahead w) = Ok r) /\
  tick_goes_on seen (snd (db_get_upcoming_class clock phone_norm minutes_ahead w)).
Proof.
  intros (Hg & Hv & Hc & Hl).
  destruct (db_get_user (w_db w) phone_norm) as [user|] eqn:Huser.
  - rewrite (db_get_upcoming_class_registered _ _ _ _ _ Huser). simpl.
    destruct (two_day_scan_guarded (w_db w) (u_class_name user) (clock (w_reads w))
                minutes_ahead Hg) as [Hr Hlogs].
    split; [exact Hr|].
    destruct (scan_records_are_neutral _ Hlogs) as (H1 & H2 & H3 & H4).
    unfold tick_goes_on, visited, critical_errors, send_errors_logged, refused in *.
    simpl. rewrite !omap_lookup_logs by (reflexivity || assumption). auto.
  - rewrite (db_get_upcoming_class_unregistered _ _ _ _ Huser). simpl.
    split; [eexists; reflexivity|].
    unfold tick_goes_on, visited, critical_errors, send_errors_logged, refused in *.
    simpl. rewrite !omap_app. simpl. rewrite !List.app_nil_r. auto.
Qed.

(** rewrites the four views of a trace extended by explicit events *)
Ltac views :=
  unfold tick_goes_on, visited, critical_errors, send_errors_logged, refused in *;
  simpl; rewrite ?omap_app; simpl; rewrite ?List.app_nil_r.

Section GuardedTick.

Variable clock : nat -> datetime.
Variable transport : nat -> request -> bool.

Lemma tick_goes_on_notify_windows (tg_id : Z) (user : user_row) (windows : list Z)
      (seen : list string) (w : World) :
  tick_goes_on seen w ->
  fst (notify_windows clock transport tg_id user windows w) = Ok tt /\
  tick_goes_on seen (snd (notify_windows clock transport tg_id user windows w)).
Proof.
  revert w. induction windows as [|minutes_window rest IH]; intros w Hw.
  - split; [reflexivity | exact Hw].
  - destruct (tick_goes_on_lookup clock (u_phone user) minutes_window seen w Hw)
      as [[r Hr] Hlook].
    destruct (db_get_upcoming_class_frame clock (u_phone user) minutes_window w)
      as (Hdb & _ & _).
    destruct r as [upcoming|].
    + set (k := mkKey (u_phone user) (u_class_name user)
                      (l_day_name upcoming) (l_lesson_number upcoming)).
      set (today := ordinal (clock (w_reads
                      (snd (db_get_upcoming_class clock (u_phone user) minutes_window w))))).
      destruct (ledger_has k today (w_db w)) eqn:Hledger.
      * rewrite (notify_windows_already_sent clock transport tg_id user minutes_window
                   rest w upcoming Hr Hledger).
        split; [reflexivity|]. destruct Hlook as (Hg & Hv & Hc & Hl).
        rewrite Hdb in Hg. views. auto.
      * destruct (transport (w_attempts w)
                    (mkRequest SendMessage tg_id (LessonNotice upcoming))) eqn:Hsend.
        -- rewrite (notify_windows_send_returns clock transport tg_id user minutes_window
                      rest w upcoming Hr Hledger Hsend).
           split; [reflexivity|]. destruct Hlook as (Hg & Hv & Hc & Hl).
           rewrite Hdb in Hg. views. auto.
        -- rewrite (notify_windows_send_raises clock transport tg_id user minutes_window
                      rest w upcoming Hr Hledger Hsend).
           apply IH. destruct Hlook as (Hg & Hv & Hc & Hl).
           rewrite Hdb in Hg. views. rewrite Hl. auto.
    + rewrite (notify_windows_no_match clock transport tg_id user minutes_window rest w Hr).
      apply IH. exact Hlook.
Qed.

Lemma notify_user_unfold (tg_id : Z) (user : user_row) (w : World) :
  notify_user clock transport tg_id user w
  = (let w1 := mkWorld (w_db w) (w_files w) (w_reads w) (w_attempts w)
                       (w_trace w ++ [Visited (u_phone user)]) in
     if negb (db_get_events_notifications (w_db w) (u_phone user)) then (Ok tt, w1)
     else notify_windows clock transport tg_id user check_windows w1).
Proof.
  unfold notify_user, bind, emit, get_db. cbv beta iota zeta. cbn [w_db].
  destruct (negb (db_get_events_notifications (w_db w) (u_phone user))); reflexivity.
Qed.

Lemma tick_goes_on_notify_user (tg_id : Z) (user : user_row) (seen : list string)
      (w : World) :
  tick_goes_on seen w ->
  fst (notify_user clock transport tg_id user w) = Ok tt /\
  tick_goes_on (seen ++ [u_phone user]) (snd (notify_user clock transport tg_id user w)).
Proof.
  intros Hw. rewrite notify_user_unfold. cbv zeta.
  assert (Hw1 : tick_goes_on (seen ++ [u_phone user])
                  (mkWorld (w_db w) (w_files w) (w_reads w) (w_attempts w)
                           (w_trace w ++ [Visited (u_phone user)]))).
  { destruct Hw as (Hg & Hv & Hc & Hl). views. rewrite Hv. auto. }
  destruct (negb (db_get_events_notifications (w_db w) (u_phone user))).
  - split; [reflexivity | exact Hw1].
  - apply tick_goes_on_notify_windows. exact Hw1.
Qed.

Lemma tick_goes_on_notify_users (us : list (Z * user_row)) (seen : list string) (w : World) :
  tick_goes_on seen w ->
  fst (notify_users clock transport us w) = Ok tt /\
  tick_goes_on (seen ++ map (fun tu => u_phone (snd tu)) us)
               (snd (notify_users clock transport us w)).
Proof.
  revert seen w. induction us as [|tu rest IH]; intros seen w Hw.
  - simpl. rewrite List.app_nil_r. split; [reflexivity | exact Hw].
  - destruct tu as [tg_id user]. simpl. unfold bind.
    destruct (tick_goes_on_notify_user tg_id user seen w Hw) as [Hr Hw1].
    destruct (notify_user clock transport tg_id user w) as [r w1]. simpl in *. subst r.
    destruct (IH (seen ++ [u_phone user])%list w1 Hw1) as [Hr2 Hw2].
    rewrite <- List.app_assoc in Hw2. split; assumption.
Qed.

Lemma scanner_tick_unfold (w : World) :
  scanner_tick clock transport w
  = (let w1 := mkWorld (w_db w) (w_files w) (S (w_reads w)) (w_attempts w)
                       (w_trace w ++ [Log (LogBackgroundCheck (clock (w_reads w)))]) in
     match notify_users clock transport (select_users_with_tg (w_db w)) w1 with
     | (Ok _, w2) =>
         (Ok tt, mkWorld (w_db w2) (w_files w2) (w_reads w2) (w_attempts w2)
                         (w_trace w2 ++ [Slept 60]))
     | (Raise e, w2) =>
         (Ok tt, mkWorld (w_db w2) (w_files w2) (w_reads w2) (w_attempts w2)
                         ((w_trace w2 ++ [Log (LogCriticalError e)]) ++ [Slept 60]))
     end).
Proof.
  unfold scanner_tick, try_except, bind, datetime_now, logging, sleep, emit, get_db.
  cbv beta iota zeta. cbn [w_db w_files w_reads w_attempts w_trace].
  destruct (notify_users clock transport (select_users_with_tg (w_db w)) _) as [[[]|e] w2];
    reflexivity.
Qed.

End GuardedTick.

(** What holds of a tick whose stored start times all parse or raise
    what the scanning loops catch, so that the sends are all that can
    raise: the tick takes up every subscriber of its user list, in
    order, whatever the transport does; each send that raises is caught
    and logged with the chat it was for, and nothing reaches the handler
    of the tick. *)
Lemma send_errors_do_not_stop_the_tick
      (clock : nat -> datetime) (transport : nat -> request -> bool)
      (d : DB) (files : list string) (reads attempts : nat) :
  Forall (fun l => start_time_is_guarded l = true) (schedule d) ->
  let w' := snd (scanner_tick clock transport (mkWorld d files reads attempts [])) in
  visited (w_trace w') = map (fun tu => u_phone (snd tu)) (select_users_with_tg d) /\
  critical_errors (w_trace w') = [] /\
  send_errors_logged (w_trace w') = refused (w_trace w').
Proof.
  intros Hg w'. subst w'. rewrite scanner_tick_unfold. cbv zeta.
  cbn [w_db w_files w_reads w_attempts w_trace].
  set (w1 := mkWorld d files (S reads) attempts [Log (LogBackgroundCheck (clock reads))]).
  assert (Hw1 : tick_goes_on [] w1) by (subst w1; views; auto).
  destruct (tick_goes_on_notify_users clock transport (select_users_with_tg d) [] w1 Hw1)
    as [Hr Hw2].
  change ([] ++ [Log (LogBackgroundCheck (clock reads))])%list
    with [Log (LogBackgroundCheck (clock reads))].
  fold w1.
  destruct (notify_users clock transport (select_users_with_tg d) w1) as [r w2].
  simpl in Hr, Hw2. subst r.
  destruct Hw2 as (_ & Hv & Hc & Hl). views. auto.
Qed.

Lemma send_errors_do_not_stop_the_tick_witness :
  let d := mkDB [pupil; classmate] [algebra; chemistry] [] in
  let w' := snd (scanner_tick monday_0812 refuses_first_call (mkWorld d [] 0 0 [])) in
  visited (w_trace w') = map (fun tu => u_phone (snd tu)) (select_users_with_tg d) /\
  critical_errors (w_trace w') = [] /\
  send_errors_logged (w_trace w') = refused (w_trace w').
Proof.
  apply (send_errors_do_not_stop_the_tick monday_0812 refuses_first_call
           (mkDB [pupil; classmate] [algebra; chemistry] []) [] 0 0).
  repeat constructor.
Defined.

(** the same tick, run: the send to the first subscriber raises on the
    20-minute window and is logged, and the second subscriber is served *)
Example refused_send_then_next_subscriber :
  let w' := snd (scanner_tick monday_0812 refuses_first_call
                   (fresh_world (mkDB [pupil; classmate] [algebra; chemistry] []))) in
  visited (w_trace w') = ["380501234567"; "380507654321"] /\
  send_errors_logged (w_trace w') = [1001] /\
  map (fun a => (r_chat (fst a), snd a)) (sends (w_trace w'))
  = [(1001, false); (1001, true); (1002, true)].
Proof. vm_compute. repeat split; reflexivity. Qed.

(** C2, at the failing input.  Monday 08:12; the user list holds a
    subscriber of class 10-B, one of class 10-A and a second one of
    class 10-B; Chemistry of 10-B starts at 08:30; class 10-A has a
    Tuesday lesson whose stored start time is "0745".  The first
    subscriber is notified.  The lookup for the second one raises
    [IndexError] in its loop over tomorrow's lessons, the exception
    passes the user loop and is caught by the handler of the tick, which
    logs it and sleeps: the third subscriber, whose lookup alone returns
    Chemistry, is not taken up.  The next tick ends at the same
    subscriber, so the third one is never notified while the row is
    there. *)
Theorem lookup_exception_starves_the_remaining_subscribers :
  let tables := (users starved_db, schedule starved_db) in
  let one := snd (scanner_run monday_0812 always_delivers [tables]
                    (fresh_world (mkDB [] [] []))) in
  let two := snd (scanner_run monday_0812 always_delivers [tables; tables]
                    (fresh_world (mkDB [] [] []))) in
  map (fun tu => u_phone (snd tu)) (select_users_with_tg starved_db)
  = ["380507654321"; "380501234567"; "380509998877"] /\
  lesson_start (plus_one_day (monday_0812 0)) smudged_tuesday = Raise IndexError /\
  fst (db_get_upcoming_class monday_0812 "380501234567" 5 (fresh_world starved_db))
  = Raise IndexError /\
  fst (db_get_upcoming_class monday_0812 "380509998877" 20 (fresh_world starved_db))
  = Ok (Some chemistry) /\
  visited (w_trace one) = ["380507654321"; "380501234567"] /\
  critical_errors (w_trace one) = [IndexError] /\
  map (fun a => r_chat (fst a)) (sends (w_trace one)) = [1002] /\
  sleeps (w_trace one) = [60] /\
  visited (w_trace two)
  = ["380507654321"; "380501234567"; "380507654321"; "380501234567"] /\
  critical_errors (w_trace two) = [IndexError; IndexError] /\
  map (fun a => r_chat (fst a)) (sends (w_trace two)) = [1002].
Proof. vm_compute. repeat split; reflexivity. Qed.


(** * Further properties of the code *)

(** ** Users *)

Lemma db_get_user_update (d : DB) (p q : string) (set : user_row -> user_row) :
  (forall u, u_phone (set u) = u_phone u) ->
  db_get_user (update_users d p set) q
  = if String.eqb q p then option_map set (db_get_user d p) else db_get_user d q.
Proof.
  intros Hset. unfold db_get_user, update_users. simpl.
  induction (users d) as [|u us IH]; simpl.
  - destruct (String.eqb q p); reflexivity.
  - destruct (String.eqb_spec (u_phone u) p) as [Hup|Hup].
    + rewrite Hset, Hup. destruct (String.eqb_spec q p) as [Hqp|Hqp].
      * subst q. rewrite String.eqb_refl. reflexivity.
      * destruct (String.eqb_spec p q) as [Hpq|Hpq]; [congruence|].
        rewrite IH. destruct (String.eqb_spec q p); [congruence | reflexivity].
    + destruct (String.eqb_spec (u_phone u) q) as [Huq|Huq].
      * destruct (String.eqb_spec q p); [congruence | reflexivity].
      * exact IH.
Qed.

Lemma update_users_phones (d : DB) (p : string) (set : user_row -> user_row) :
  (forall u, u_phone (set u) = u_phone u) ->
  map u_phone (users (update_users d p set)) = map u_phone (users d).
Proof.
  intros Hset. unfold update_users. simpl. rewrite List.map_map.
  apply List.map_ext. intros u. destruct (String.eqb (u_phone u) p); [apply Hset | reflexivity].
Qed.

Lemma find_app {A} (f : A -> bool) (l1 l2 : list A) :
  List.find f (l1 ++ l2)
  = match List.find f l1 with
    | Some x => Some x
    | None => List.find f l2
    end.
Proof.
  induction l1 as [|x l1 IH]; simpl; [reflexivity|].
  destruct (f x); [reflexivity | exact IH].
Qed.

Lemma db_get_user_found (d : DB) (p : string) (u : user_row) :
  db_get_user d p = Some u -> In u (users d) /\ u_phone u = p.
Proof.
  unfold db_get_user. intros H. apply List.find_some in H as [Hin Heq].
  apply String.eqb_eq in Heq. auto.
Qed.

Lemma db_get_user_missing (d : DB) (p : string) :
  db_get_user d p = None <-> ~ In p (map u_phone (users d)).
Proof.
  unfold db_get_user. split.
  - intros H Hin. apply List.in_map_iff in Hin as (u & Hu & Hin).
    pose proof (List.find_none _ _ H u Hin) as Hf. simpl in Hf.
    rewrite Hu, String.eqb_refl in Hf. discriminate.
  - intros Hno. destruct (List.find _ (users d)) as [u|] eqn:Hf; [|reflexivity].
    apply List.find_some in Hf as [Hin Heq]. apply String.eqb_eq in Heq.
    exfalso. apply Hno. apply List.in_map_iff. exists u. auto.
Qed.

(** X1. The registration round trip of [db_upsert_user]: afterwards the
    phone is registered with the name, class and role given; a row that
    was there keeps its Telegram binding and its notification flag, a
    new row has no binding and notifications on; every other phone reads
    as before, the other tables are untouched and the primary key
    holds if it held. *)
Theorem db_upsert_user_round_trip (d : DB) (phone_norm fio class_name role : string) :
  let d' := db_upsert_user d phone_norm fio class_name role in
  (exists u,
      db_get_user d' phone_norm = Some u /\
      u_phone u = phone_norm /\ u_fio u = fio /\
      u_class_name u = class_name /\ u_role u = role /\
      match db_get_user d phone_norm with
      | Some old => u_tg_id u = u_tg_id old
                    /\ u_events_notifications u = u_events_notifications old
      | None => u_tg_id u = None /\ u_events_notifications u = 1
      end) /\
  (forall other, other <> phone_norm -> db_get_user d' other = db_get_user d other) /\
  schedule d' = schedule d /\
  notifications_sent d' = notifications_sent d /\
  (phones_unique d -> phones_unique d').
Proof.
  intros d'. subst d'. unfold db_upsert_user.
  destruct (db_get_user d phone_norm) as [old|] eqn:Hold.
  - split; [|split; [|split; [|split]]].
    + rewrite db_get_user_update by reflexivity.
      rewrite String.eqb_refl, Hold. simpl.
      apply db_get_user_found in Hold as [_ Hp].
      eexists. split; [reflexivity|]. simpl. auto 10.
    + intros other Hne. rewrite db_get_user_update by reflexivity.
      apply String.eqb_neq in Hne. rewrite Hne. reflexivity.
    + reflexivity.
    + reflexivity.
    + unfold phones_unique. rewrite update_users_phones by reflexivity. auto.
  - split; [|split; [|split; [|split]]].
    + unfold db_get_user in *. simpl. rewrite find_app, Hold. simpl.
      rewrite String.eqb_refl. eexists. split; [reflexivity|]. simpl. auto 10.
    + intros other Hne. unfold db_get_user. simpl. rewrite find_app.
      destruct (List.find _ (users d)); [reflexivity|]. simpl.
      apply String.eqb_neq in Hne. rewrite String.eqb_sym, Hne. reflexivity.
    + reflexivity.
    + reflexivity.
    + unfold phones_unique. simpl. rewrite List.map_app. simpl. intros Hnd.
      apply NoDup_app. split; [exact Hnd|]. split.
      * intros x Hx Hx'. apply list_elem_of_In in Hx, Hx'.
        destruct Hx' as [<-|[]]. apply db_get_user_missing in Hold. contradiction.
      * apply NoDup_singleton.
Qed.

Lemma update_users_unregistered (d : DB) (p : string) (set : user_row -> user_row) :
  db_get_user d p = None -> update_users d p set = d.
Proof.
  intros Hnone. apply db_get_user_missing in Hnone.
  unfold update_users. destruct d as [us sch ns]. simpl in *. f_equal.
  induction us as [|u us IH]; simpl; [reflexivity|].
  destruct (String.eqb_spec (u_phone u) p) as [Hup|Hup].
  - exfalso. apply Hnone. left. exact Hup.
  - f_equal. apply IH. intros Hin. apply Hnone. right. exact Hin.
Qed.

(** under the primary key, the row that [db_get_user] finds is the only
    one with that phone *)
Lemma phones_unique_row (d : DB) (p : string) (u r : user_row) :
  phones_unique d -> db_get_user d p = Some u ->
  In r (users d) -> u_phone r = p -> r = u.
Proof.
  unfold phones_unique, db_get_user. induction (users d) as [|x us IH]; simpl.
  - intros _ H. discriminate.
  - intros Hnd Hfind Hin Hr. apply NoDup_cons in Hnd as [Hx Hnd].
    destruct (String.eqb_spec (u_phone x) p) as [Hxp|Hxp].
    + injection Hfind as <-. destruct Hin as [<-|Hin]; [reflexivity|].
      exfalso. apply Hx. apply list_elem_of_In. apply List.in_map_iff.
      exists r. split; [congruence | exact Hin].
    + destruct Hin as [<-|Hin]; [contradiction|]. apply IH; assumption.
Qed.

(** X2. What [db_toggle_events_notifications] does to the answer of
    [db_get_events_notifications]: for a registered phone notifications
    are on afterwards exactly when the stored flag was 0 (a flag of 1
    turns them off; any other value leaves them off); the other phones
    and the other tables are as before, and for a phone that is not
    registered nothing changes at all. *)
Theorem db_toggle_events_notifications_flips (d : DB) (phone_norm : string) :
  let d' := db_toggle_events_notifications d phone_norm in
  db_get_events_notifications d' phone_norm
  = match db_get_user d phone_norm with
    | Some user => u_events_notifications user =? 0
    | None => false
    end /\
  (forall other, other <> phone_norm -> db_get_user d' other = db_get_user d other) /\
  schedule d' = schedule d /\
  notifications_sent d' = notifications_sent d /\
  (db_get_user d phone_norm = None -> d' = d).
Proof.
  intros d'. subst d'. unfold db_toggle_events_notifications.
  split; [|split; [|split; [|split]]].
  - unfold db_get_events_notifications. rewrite db_get_user_update by reflexivity.
    rewrite String.eqb_refl. destruct (db_get_user d phone_norm) as [user|]; simpl;
      [|reflexivity].
    destruct (Z.eqb_spec (u_events_notifications user) 0) as [H0|H0].
    + rewrite H0. reflexivity.
    + apply Z.eqb_neq. lia.
  - intros other Hne. rewrite db_get_user_update by reflexivity.
    apply String.eqb_neq in Hne. rewrite Hne. reflexivity.
  - reflexivity.
  - reflexivity.
  - intros Hnone. apply update_users_unregistered. exact Hnone.
Qed.

(** X3. Under the primary key of [users], toggling the notifications of
    a phone twice gives back the tables as they were. *)
Theorem db_toggle_events_notifications_twice (d : DB) (phone_norm : string) :
  phones_unique d ->
  db_toggle_events_notifications (db_toggle_events_notifications d phone_norm) phone_norm
  = d.
Proof.
  intros Hpk. destruct (db_get_user d phone_norm) as [user|] eqn:Huser.
  - assert (H1 : db_toggle_events_notifications d phone_norm
                 = update_users d phone_norm
                     (fun u => mkUser (u_phone u) (u_fio u) (u_class_name u) (u_role u)
                                      (u_tg_id u) (1 - u_events_notifications user))).
    { unfold db_toggle_events_notifications. rewrite Huser. reflexivity. }
    rewrite H1. unfold db_toggle_events_notifications.
    rewrite db_get_user_update by reflexivity.
    rewrite String.eqb_refl, Huser. simpl.
    unfold update_users. destruct d as [us sch ns]. simpl in *. f_equal.
    rewrite List.map_map.
    rewrite <- (List.map_id us) at 2. apply List.map_ext_in.
    intros r Hin. destruct (String.eqb_spec (u_phone r) phone_norm) as [Hr|Hr]; simpl.
    + rewrite Hr, String.eqb_refl.
      pose proof (phones_unique_row (mkDB us sch ns) phone_norm user r Hpk Huser Hin Hr)
        as Hru.
      subst r. clear Huser Hin. destruct user as [ph fio cl ro tg ev]. simpl in *.
      subst ph. f_equal. lia.
    + destruct (String.eqb_spec (u_phone r) phone_norm); [contradiction | reflexivity].
  - assert (H1 : db_toggle_events_notifications d phone_norm = d).
    { unfold db_toggle_events_notifications. apply update_users_unregistered. exact Huser. }
    rewrite H1. exact H1.
Qed.

Lemma db_toggle_events_notifications_twice_witness :
  db_toggle_events_notifications
    (db_toggle_events_notifications (mkDB [pupil; classmate] [algebra] []) "380501234567")
    "380501234567"
  = mkDB [pupil; classmate] [algebra] [].
Proof.
  apply (db_toggle_events_notifications_twice (mkDB [pupil; classmate] [algebra] [])
           "380501234567").
  unfold phones_unique. simpl.
  apply (bool_decide_unpack (NoDup ["380501234567"; "380507654321"])).
  vm_compute. exact I.
Defined.


(** X4. Roles: after [db_set_user_role] a registered phone reads back
    the role that was set, a phone that is not registered still reads
    the default role (so granting "admin" to an unknown phone grants
    nothing), and every other phone reads as before. *)
Theorem db_set_user_role_round_trip (d : DB) (phone_norm role other : string) :
  db_get_user_role (db_set_user_role d phone_norm role) other
  = (if String.eqb other phone_norm then
       match db_get_user d phone_norm with
       | Some _ => role
       | None => "учень"
       end
     else db_get_user_role d other) /\
  is_admin (db_set_user_role d phone_norm "admin") phone_norm
  = match db_get_user d phone_norm with
    | Some _ => true
    | None => false
    end.
Proof.
  assert (Hrole : forall r,
             db_get_user_role (db_set_user_role d phone_norm r) other
             = (if String.eqb other phone_norm then
                  match db_get_user d phone_norm with
                  | Some _ => r
                  | None => "учень"
                  end
                else db_get_user_role d other)).
  { intros r. unfold db_get_user_role, db_set_user_role.
    rewrite db_get_user_update by reflexivity.
    destruct (String.eqb other phone_norm); [|reflexivity].
    destruct (db_get_user d phone_norm); reflexivity. }
  split; [apply Hrole|].
  unfold is_admin, db_get_user_role, db_set_user_role.
  rewrite db_get_user_update by reflexivity. rewrite String.eqb_refl.
  destruct (db_get_user d phone_norm); reflexivity.
Qed.

(** ** Phone numbers *)

Lemma filter_is_digit_twice (l : list ascii) :
  List.filter is_digit (List.filter is_digit l) = List.filter is_digit l.
Proof.
  induction l as [|c l IH]; simpl; [reflexivity|].
  destruct (is_digit c) eqn:Hc; simpl; [rewrite Hc, IH; reflexivity | exact IH].
Qed.

(** on an ASCII character the pattern [\d] is the test for the ten
    digits, and the character is its one byte *)
Lemma is_decimal_char_ascii (c : ascii) :
  (nat_of_ascii c < 128)%nat -> is_decimal_char [c] = is_digit c /\ is_char [c] = true.
Proof.
  destruct c as [b0 b1 b2 b3 b4 b5 b6 b7].
  destruct b7; [intros H; exfalso; revert H;
                destruct b0, b1, b2, b3, b4, b5, b6; vm_compute; lia|].
  intros _. destruct b0, b1, b2, b3, b4, b5, b6; vm_compute; split; reflexivity.
Qed.

Lemma normalize_ascii (l : list ascii) :
  Forall (fun c => (nat_of_ascii c < 128)%nat) l ->
  concat (List.filter is_decimal_char (chars l)) = List.filter is_digit l.
Proof.
  induction 1 as [|c l Hc _ IH]; [reflexivity|].
  destruct (is_decimal_char_ascii c Hc) as [Hd Hch].
  change (c :: l) with ([c] ++ l)%list. rewrite chars_cons by exact Hch.
  simpl. rewrite Hd. destruct (is_digit c); simpl; rewrite IH; reflexivity.
Qed.

Lemma is_digit_ascii (c : ascii) : is_digit c = true -> (nat_of_ascii c < 128)%nat.
Proof.
  unfold is_digit, digit_val.
  destruct ((48 <=? nat_of_ascii c)%nat && (nat_of_ascii c <=? 57)%nat) eqn:H; [|discriminate].
  intros _. apply andb_true_iff in H as [_ H]. apply Nat.leb_le in H. lia.
Qed.

(** X5. [normalize_phone] on ASCII text: the result consists of digits
    only, normalising it again changes nothing, and a text of digits is
    returned as it is; no text at all ([None]) gives the empty string. *)
Theorem normalize_phone_keeps_the_digits (phone : string) :
  is_ascii_text phone ->
  Forall (fun c => is_digit c = true)
         (list_ascii_of_string (normalize_phone (Some phone))) /\
  normalize_phone (Some (normalize_phone (Some phone))) = normalize_phone (Some phone) /\
  (Forall (fun c => is_digit c = true) (list_ascii_of_string phone) ->
   normalize_phone (Some phone) = phone) /\
  normalize_phone None = "".
Proof.
  intros Hascii. unfold normalize_phone. simpl.
  rewrite (normalize_ascii _ Hascii).
  assert (Hdigits : Forall (fun c => is_digit c = true)
                           (List.filter is_digit (list_ascii_of_string phone))).
  { induction (list_ascii_of_string phone) as [|c l IH]; simpl; [constructor|].
    destruct (is_digit c) eqn:Hc; [constructor; assumption | exact IH]. }
  split; [|split; [|split]].
  - rewrite list_ascii_of_string_of_list_ascii. exact Hdigits.
  - rewrite list_ascii_of_string_of_list_ascii.
    rewrite normalize_ascii
      by (eapply List.Forall_impl; [|exact Hdigits]; apply is_digit_ascii).
    rewrite filter_is_digit_twice. reflexivity.
  - intros Hall. rewrite <- (string_of_list_ascii_of_string phone) at 2. f_equal.
    clear Hascii Hdigits.
    induction Hall as [|c l Hc _ IH]; simpl; [reflexivity|].
    rewrite Hc, IH. reflexivity.
  - reflexivity.
Qed.

Lemma normalize_phone_keeps_the_digits_witness :
  Forall (fun c => is_digit c = true)
         (list_ascii_of_string (normalize_phone (Some "+380 (50) 123-45-67"))) /\
  normalize_phone (Some (normalize_phone (Some "+380 (50) 123-45-67")))
  = normalize_phone (Some "+380 (50) 123-45-67") /\
  (Forall (fun c => is_digit c = true) (list_ascii_of_string "+380 (50) 123-45-67") ->
   normalize_phone (Some "+380 (50) 123-45-67") = "+380 (50) 123-45-67") /\
  normalize_phone None = "".
Proof.
  apply (normalize_phone_keeps_the_digits "+380 (50) 123-45-67").
  unfold is_ascii_text. simpl. repeat constructor; simpl; lia.
Defined.

Example normalize_phone_of_a_contact :
  normalize_phone (Some "+380 (50) 123-45-67") = "380501234567".
Proof. reflexivity. Qed.

(** digits of another script are digits to the pattern: they stay, as
    they are written *)
Example normalize_phone_keeps_other_digits :
  normalize_phone (Some "+٣٨٠ 50") = "٣٨٠50".
Proof. vm_compute. reflexivity. Qed.

(** ** Telegram bindings *)

Lemma users_split (us : list user_row) (p : string) (u : user_row) :
  NoDup (map u_phone us) ->
  List.find (fun x => String.eqb (u_phone x) p) us = Some u ->
  exists l1 l2, us = (l1 ++ u :: l2)%list /\ u_phone u = p /\
                Forall (fun x => u_phone x <> p) l1 /\
                Forall (fun x => u_phone x <> p) l2.
Proof.
  induction us as [|x us IH]; simpl; [discriminate|].
  intros Hnd Hf. apply NoDup_cons in Hnd as [Hx Hnd].
  destruct (String.eqb_spec (u_phone x) p) as [Hxp|Hxp].
  - injection Hf as <-. exists [], us. repeat split; auto.
    apply Forall_forall. intros y Hy Hyp. apply Hx.
    rewrite Hxp, <- Hyp. apply list_elem_of_fmap. exists y. auto.
  - destruct (IH Hnd Hf) as (l1 & l2 & -> & Hu & H1 & H2).
    exists (x :: l1), l2. repeat split; auto.
Qed.

Lemma filter_phone_none (l : list user_row) (p : string) :
  Forall (fun x => u_phone x <> p) l ->
  List.filter (fun x => String.eqb (u_phone x) p) l = [] /\
  List.filter (fun x => negb (String.eqb (u_phone x) p)) l = l /\
  forall set, map (fun x => if String.eqb (u_phone x) p then set x else x) l = l.
Proof.
  induction 1 as [|x l Hx _ (IH1 & IH2 & IH3)]; simpl; [auto|].
  destruct (String.eqb_spec (u_phone x) p) as [|_]; [contradiction|]. simpl.
  rewrite IH1, IH2. repeat split; auto. intros set. rewrite IH3. reflexivity.
Qed.

Lemma filter_phone_app (l1 l2 : list user_row) (u : user_row) (p : string) :
  u_phone u = p ->
  Forall (fun x => u_phone x <> p) l1 ->
  Forall (fun x => u_phone x <> p) l2 ->
  List.filter (fun x => String.eqb (u_phone x) p) (l1 ++ u :: l2) = [u] /\
  List.filter (fun x => negb (String.eqb (u_phone x) p)) (l1 ++ u :: l2) = (l1 ++ l2)%list /\
  forall set, map (fun x => if String.eqb (u_phone x) p then set x else x) (l1 ++ u :: l2)
              = (l1 ++ set u :: l2)%list.
Proof.
  intros Hu H1 H2.
  destruct (filter_phone_none l1 p H1) as (A1 & B1 & C1).
  destruct (filter_phone_none l2 p H2) as (A2 & B2 & C2).
  rewrite !List.filter_app. simpl.
  rewrite Hu, String.eqb_refl. simpl. rewrite A1, A2, B1, B2.
  repeat split; auto. intros set. rewrite List.map_app. simpl.
  rewrite Hu, String.eqb_refl, C1, C2. reflexivity.
Qed.

Lemma tg_not_held (l : list user_row) (tg : Z) :
  existsb (fun u => match u_tg_id u with
                    | Some t => t =? tg
                    | None => false
                    end) l = false ->
  (tg ∉ omap u_tg_id l) /\
  List.find (fun u => match u_tg_id u with
                      | Some t => t =? tg
                      | None => false
                      end) l = None.
Proof.
  induction l as [|x l IH]; simpl; intros H.
  - split; [apply not_elem_of_nil | reflexivity].
  - apply orb_false_iff in H as [Hx Hl]. destruct (IH Hl) as [IH1 IH2].
    rewrite Hx. split; [|exact IH2].
    destruct (u_tg_id x) as [t|]; simpl; [|exact IH1].
    apply not_elem_of_cons. split; [|exact IH1].
    apply Z.eqb_neq in Hx. congruence.
Qed.

(** X6. Binding a Telegram account, with the primary key of [users] and
    the unique index on [tg_id] in force.  When the UPDATE goes through,
    both constraints still hold, the timetable and the ledger are
    untouched, and [db_get_user_by_tg] finds the row of the phone with
    all its other columns as before (for a phone that is not registered
    the database is unchanged: the bind is silently lost).  The UPDATE is
    refused exactly when the phone is registered and another phone
    already holds the account. *)
Theorem db_bind_tg_to_phone_round_trip (d : DB) (tg_id : Z) (phone_norm : string) :
  phones_unique d -> tg_ids_unique d ->
  match db_bind_tg_to_phone d tg_id phone_norm with
  | Some d' =>
      phones_unique d' /\ tg_ids_unique d' /\
      schedule d' = schedule d /\ notifications_sent d' = notifications_sent d /\
      match db_get_user d phone_norm with
      | Some u =>
          db_get_user_by_tg d' tg_id
          = Some (mkUser phone_norm (u_fio u) (u_class_name u) (u_role u)
                         (Some tg_id) (u_events_notifications u)) /\
          db_get_user d' phone_norm = db_get_user_by_tg d' tg_id /\
          forall o, In o (users d) -> u_phone o <> phone_norm -> u_tg_id o <> Some tg_id
      | None => d' = d
      end
  | None =>
      exists u o, db_get_user d phone_norm = Some u /\
                  In o (users d) /\ u_phone o <> phone_norm /\ u_tg_id o = Some tg_id
  end.
Proof.
  intros Hph Htg. unfold db_bind_tg_to_phone.
  destruct (db_get_user d phone_norm) as [u|] eqn:Hu.
  - destruct (users_split _ _ _ Hph Hu) as (l1 & l2 & Hus & Hup & H1 & H2).
    destruct (filter_phone_app l1 l2 u phone_norm Hup H1 H2) as (Hf & Hnf & Hmap).
    rewrite Hus, Hf, Hnf.
    destruct (existsb _ (l1 ++ l2)) eqn:Htaken.
    + apply List.existsb_exists in Htaken as (o & Ho & Hheld).
      exists u, o. split; [reflexivity|]. split; [|split].
      * apply List.in_app_iff in Ho as [Ho|Ho];
          apply List.in_app_iff; [left | right; right]; exact Ho.
      * apply List.in_app_iff in Ho as [Ho|Ho];
          [exact (proj1 (List.Forall_forall _ _) H1 o Ho)
          | exact (proj1 (List.Forall_forall _ _) H2 o Ho)].
      * destruct (u_tg_id o) as [t|]; [|discriminate].
        apply Z.eqb_eq in Hheld. congruence.
    + rewrite List.existsb_app in Htaken. apply orb_false_iff in Htaken as [Ht1 Ht2].
      destruct (tg_not_held l1 tg_id Ht1) as [Hn1 Hfind1].
      destruct (tg_not_held l2 tg_id Ht2) as [Hn2 Hfind2].
      assert (Hphones : phones_unique
                (update_users d phone_norm
                   (fun u0 => mkUser (u_phone u0) (u_fio u0) (u_class_name u0) (u_role u0)
                                     (Some tg_id) (u_events_notifications u0)))).
      { unfold phones_unique. rewrite update_users_phones by reflexivity. exact Hph. }
      assert (Hget : db_get_user_by_tg
                (update_users d phone_norm
                   (fun u0 => mkUser (u_phone u0) (u_fio u0) (u_class_name u0) (u_role u0)
                                     (Some tg_id) (u_events_notifications u0))) tg_id
              = Some (mkUser phone_norm (u_fio u) (u_class_name u) (u_role u)
                             (Some tg_id) (u_events_notifications u))).
      { unfold db_get_user_by_tg, update_users. cbn [users]. rewrite Hus, Hmap.
        rewrite find_app, Hfind1. simpl. rewrite Z.eqb_refl, Hup. reflexivity. }
      split; [exact Hphones|]. split; [|split; [reflexivity|split; [reflexivity|]]].
      * unfold tg_ids_unique, update_users in *. cbn [users]. rewrite Hus in Htg.
        rewrite Hus, Hmap. rewrite omap_app in *. simpl.
        apply NoDup_app in Htg as (Hd1 & Hdis & Hd2).
        apply NoDup_app. split; [exact Hd1|]. split.
        -- intros x Hx1 Hx. apply elem_of_cons in Hx as [->|Hx]; [contradiction|].
           apply (Hdis x Hx1). simpl. destruct (u_tg_id u); [right|]; exact Hx.
        -- apply NoDup_cons. split; [exact Hn2|].
           simpl in Hd2. destruct (u_tg_id u); [apply NoDup_cons in Hd2 as [_ Hd2]|]; exact Hd2.
      * split; [exact Hget|]. split.
        -- rewrite Hget, db_get_user_update by reflexivity.
           rewrite String.eqb_refl, Hu. simpl. rewrite Hup. reflexivity.
        -- intros o Ho Hop Hheld.
           assert (Hin : In o (l1 ++ l2)).
           { apply List.in_app_iff in Ho as [Ho|[Ho|Ho]]; apply List.in_app_iff; auto.
             subst o. contradiction. }
           assert (Hex : existsb (fun u0 => match u_tg_id u0 with
                                            | Some t => t =? tg_id
                                            | None => false
                                            end) (l1 ++ l2) = true).
           { apply List.existsb_exists. exists o. split; [exact Hin|].
             rewrite Hheld. apply Z.eqb_refl. }
           rewrite List.existsb_app, Ht1, Ht2 in Hex. discriminate.
  - assert (Hnone : List.filter (fun u => String.eqb (u_phone u) phone_norm) (users d) = []).
    { apply filter_phone_none. apply Forall_forall. intros x Hx Hxp.
      apply (proj1 (db_get_user_missing d phone_norm) Hu).
      apply List.in_map_iff. exists x. split; [exact Hxp|].
      apply list_elem_of_In. exact Hx. }
    rewrite Hnone. auto.
Qed.

Lemma db_bind_tg_to_phone_round_trip_witness :
  let d := mkDB [mkUser "380501234567" "Іваненко Іван Іванович" "КН-21" "учень" None 1;
                 mkUser "380507654321" "Петренко Петро Петрович" "КН-22" "учень" (Some 42) 1]
                [] [] in
  db_get_user_by_tg d 7 = None /\
  match db_bind_tg_to_phone d 7 "380501234567" with
  | Some d' =>
      option_map u_phone (db_get_user_by_tg d' 7) = Some "380501234567" /\
      tg_ids_unique d'
  | None => False
  end.
Proof.
  intros d. split; [reflexivity|].
  assert (Hph : phones_unique d).
  { unfold phones_unique, d. simpl.
    apply (bool_decide_unpack (NoDup ["380501234567"; "380507654321"])).
    vm_compute. exact I. }
  assert (Htg : tg_ids_unique d).
  { unfold tg_ids_unique, d. simpl. apply NoDup_singleton. }
  pose proof (db_bind_tg_to_phone_round_trip d 7 "380501234567" Hph Htg) as H.
  destruct (db_bind_tg_to_phone d 7 "380501234567") as [d'|] eqn:Hbind.
  - destruct H as (_ & Hu & _ & _ & H). simpl in H. destruct H as (Hget & _).
    rewrite Hget. split; [reflexivity | exact Hu].
  - vm_compute in Hbind. discriminate.
Defined.


(** ** The timetable *)

Lemma In_insert_lesson (x y : lesson_row) (l : list lesson_row) :
  In y (insert_lesson x l) <-> y = x \/ In y l.
Proof.
  induction l as [|z l IH]; simpl.
  - intuition.
  - destruct (l_lesson_number x <=? l_lesson_number z); simpl.
    + intuition.
    + rewrite IH. intuition.
Qed.

Lemma In_order_by_lesson_number (y : lesson_row) (l : list lesson_row) :
  In y (order_by_lesson_number l) <-> In y l.
Proof.
  unfold order_by_lesson_number. induction l as [|x l IH]; simpl; [reflexivity|].
  rewrite In_insert_lesson, IH. intuition.
Qed.

Lemma In_select_schedule (d : DB) (class_name day_name : string) (l : lesson_row) :
  In l (select_schedule d class_name day_name)
  <-> In l (schedule d) /\ l_class_name l = class_name /\ l_day_name l = day_name.
Proof.
  unfold select_schedule. rewrite In_order_by_lesson_number, List.filter_In.
  rewrite andb_true_iff, !String.eqb_eq. reflexivity.
Qed.

Lemma insert_lesson_in_order (x : lesson_row) (l : list lesson_row) :
  in_lesson_order l ->
  (forall y, In y l -> l_lesson_number y <> l_lesson_number x) ->
  in_lesson_order (insert_lesson x l).
Proof.
  unfold in_lesson_order. induction 1 as [|z l Hs IH Hz]; simpl; intros Hne.
  - constructor; constructor.
  - destruct (Z.leb_spec (l_lesson_number x) (l_lesson_number z)) as [Hle|Hgt].
    + assert (Hxz : l_lesson_number x < l_lesson_number z).
      { specialize (Hne z (or_introl eq_refl)). lia. }
      constructor; [constructor; assumption|].
      constructor; [exact Hxz|].
      eapply List.Forall_impl; [|exact Hz]. simpl. intros a Ha. lia.
    + constructor.
      * apply IH. intros y Hy. apply Hne. right. exact Hy.
      * apply List.Forall_forall. intros a Ha.
        apply In_insert_lesson in Ha as [->|Ha]; [lia|].
        exact (proj1 (List.Forall_forall _ _) Hz a Ha).
Qed.

Lemma select_schedule_in_order (d : DB) (class_name day_name : string) :
  slots_unique d -> in_lesson_order (select_schedule d class_name day_name).
Proof.
  intros Hu.
  unfold slots_unique in Hu. unfold select_schedule.
  induction (schedule d) as [|x rest IH]; simpl; [constructor|].
  apply NoDup_cons in Hu as [Hx Hu].
  destruct (String.eqb_spec (l_class_name x) class_name) as [Hc|Hc]; simpl;
    [|exact (IH Hu)].
  destruct (String.eqb_spec (l_day_name x) day_name) as [Hd|Hd]; simpl;
    [|exact (IH Hu)].
  apply insert_lesson_in_order; [exact (IH Hu)|].
  intros y Hy Hn.
  apply In_order_by_lesson_number, List.filter_In in Hy. destruct Hy as [Hyr Hy].
  apply andb_true_iff in Hy as [Hyc Hyd].
  apply String.eqb_eq in Hyc, Hyd.
  apply Hx. apply list_elem_of_fmap. exists y. split.
  - unfold slot_of. rewrite Hc, Hd, Hyc, Hyd, Hn. reflexivity.
  - apply list_elem_of_In. exact Hyr.
Qed.

(** X7. The query behind the timetable views, [SELECT ... WHERE
    class_name = ? AND day_name = ? ORDER BY lesson_number]: it returns
    exactly the lessons of that class and day, and under the UNIQUE
    constraint of [schedule] their lesson numbers are strictly
    increasing, so the order of the answer is fully determined. *)
Theorem select_schedule_is_the_ordered_timetable
        (d : DB) (class_name day_name : string) :
  slots_unique d ->
  (forall l, In l (select_schedule d class_name day_name)
             <-> In l (schedule d) /\ l_class_name l = class_name
                 /\ l_day_name l = day_name) /\
  in_lesson_order (select_schedule d class_name day_name).
Proof.
  intros Hu. split.
  - intros l. apply In_select_schedule.
  - apply select_schedule_in_order. exact Hu.
Qed.

Lemma select_schedule_is_the_ordered_timetable_witness :
  let d := mkDB []
             [mkLesson "КН-21" "Понеділок" 2 "Фізика" "Коваль" "10:00" "11:20";
              mkLesson "КН-22" "Понеділок" 1 "Хімія" "Бондар" "08:30" "09:50";
              mkLesson "КН-21" "Понеділок" 1 "Алгебра" "Шевченко" "08:30" "09:50"] [] in
  in_lesson_order (select_schedule d "КН-21" "Понеділок") /\
  map l_subject (select_schedule d "КН-21" "Понеділок") = ["Алгебра"; "Фізика"].
Proof.
  intros d. split; [|reflexivity].
  apply (select_schedule_is_the_ordered_timetable d "КН-21" "Понеділок").
  unfold slots_unique, d. simpl.
  apply (bool_decide_unpack
           (NoDup [("КН-21", "Понеділок", 2); ("КН-22", "Понеділок", 1);
                   ("КН-21", "Понеділок", 1)])).
  vm_compute. exact I.
Defined.

Lemma same_slot_spec (a b : lesson_row) :
  same_slot a b = true <-> slot_of a = slot_of b.
Proof.
  unfold same_slot, slot_of.
  rewrite !andb_true_iff, !String.eqb_eq, Z.eqb_eq.
  split; [intros [[-> ->] ->]; reflexivity | intros H; injection H; auto].
Qed.

Lemma NoDup_slots_filter (f : lesson_row -> bool) (ls : list lesson_row) :
  NoDup (map slot_of ls) -> NoDup (map slot_of (List.filter f ls)).
Proof.
  induction ls as [|x ls IH]; simpl; [auto|].
  intros H. apply NoDup_cons in H as [Hx H].
  destruct (f x); simpl; [|exact (IH H)].
  apply NoDup_cons. split; [|exact (IH H)].
  intros Hin. apply Hx.
  apply list_elem_of_fmap in Hin as (y & Hy & Hin).
  apply list_elem_of_fmap. exists y. split; [exact Hy|].
  apply list_elem_of_In. apply list_elem_of_In in Hin.
  apply List.filter_In in Hin as [Hin _]. exact Hin.
Qed.

(** X8. [db_insert_schedule] is an INSERT OR REPLACE on the slot (class,
    day, lesson number): afterwards the table holds the new row and the
    old rows of every other slot, nothing else; the UNIQUE constraint
    still holds; the timetable of that class and day shows the new row
    and no other row on that lesson number; users and ledger are
    untouched. *)
Theorem db_insert_schedule_replaces_the_slot
        (d : DB) (class_name day_name : string) (lesson_number : Z)
        (subject teacher start_time end_time : string) :
  slots_unique d ->
  let row := mkLesson class_name day_name lesson_number subject teacher
                      start_time end_time in
  let d' := db_insert_schedule d class_name day_name lesson_number subject teacher
                               start_time end_time in
  slots_unique d' /\
  (forall l, In l (schedule d')
             <-> l = row \/ (In l (schedule d) /\ slot_of l <> slot_of row)) /\
  In row (select_schedule d' class_name day_name) /\
  (forall l, In l (select_schedule d' class_name day_name) ->
             l_lesson_number l = lesson_number -> l = row) /\
  users d' = users d /\ notifications_sent d' = notifications_sent d.
Proof.
  intros Hu row d'.
  assert (Hin : forall l, In l (schedule d')
                          <-> l = row \/ (In l (schedule d) /\ slot_of l <> slot_of row)).
  { intros l. unfold d', db_insert_schedule. cbn [schedule]. fold row.
    rewrite List.in_app_iff, List.filter_In. simpl.
    rewrite negb_true_iff, <- not_true_iff_false, same_slot_spec.
    intuition. }
  split; [|split; [exact Hin|split; [|split; [|split; reflexivity]]]].
  - unfold slots_unique, d', db_insert_schedule. cbn [schedule]. fold row.
    rewrite List.map_app. apply NoDup_app. split; [|split].
    + apply NoDup_slots_filter. exact Hu.
    + intros s Hs Hrow. simpl in Hrow. apply list_elem_of_singleton in Hrow. subst s.
      apply list_elem_of_fmap in Hs as (y & Hy & Hs).
      apply list_elem_of_In, List.filter_In in Hs. destruct Hs as [_ Hs].
      apply negb_true_iff in Hs. apply not_true_iff_false in Hs.
      apply Hs. apply same_slot_spec. symmetry. exact Hy.
    + simpl. apply NoDup_singleton.
  - apply In_select_schedule. split; [|split; reflexivity].
    apply Hin. left. reflexivity.
  - intros l Hl Hn. apply In_select_schedule in Hl as (Hl & Hc & Hd).
    apply Hin in Hl as [Hl|[_ Hl]]; [exact Hl|].
    exfalso. apply Hl. unfold slot_of. rewrite Hc, Hd, Hn. reflexivity.
Qed.

Lemma db_insert_schedule_replaces_the_slot_witness :
  let d := mkDB []
             [mkLesson "КН-21" "Понеділок" 1 "Алгебра" "Шевченко" "08:30" "09:50";
              mkLesson "КН-21" "Понеділок" 2 "Фізика" "Коваль" "10:00" "11:20"] [] in
  let d' := db_insert_schedule d "КН-21" "Понеділок" 1 "Хімія" "Бондар" "08:00" "09:20" in
  slots_unique d' /\
  map l_subject (select_schedule d' "КН-21" "Понеділок") = ["Хімія"; "Фізика"].
Proof.
  intros d d'. split; [|reflexivity].
  apply (db_insert_schedule_replaces_the_slot
           d "КН-21" "Понеділок" 1 "Хімія" "Бондар" "08:00" "09:20").
  unfold slots_unique, d. simpl.
  apply (bool_decide_unpack
           (NoDup [("КН-21", "Понеділок", 1); ("КН-21", "Понеділок", 2)])).
  vm_compute. exact I.
Defined.

Lemma day_ua_of_weekday (now : datetime) : In (day_ua (weekday now)) days_ua.
Proof.
  unfold day_ua, weekday.
  assert (H : (Z.to_nat ((ordinal now + 6) mod 7) < 7)%nat).
  { pose proof (Z.mod_pos_bound (ordinal now + 6) 7 ltac:(lia)). lia. }
  apply List.nth_In. exact H.
Qed.

(** X9. [db_get_schedule_for_user_today] never raises and changes
    neither the database nor the trace.  For a phone that is not
    registered it answers the empty list without reading the clock; for
    a registered one it reads the clock once and answers exactly the
    lessons of the subscriber's class on one of the seven Ukrainian day
    names, the one of the weekday read. *)
Theorem db_get_schedule_for_user_today_answers
        (clock : nat -> datetime) (phone_norm : string) (w : World) :
  let out := db_get_schedule_for_user_today clock phone_norm w in
  w_db (snd out) = w_db w /\ w_trace (snd out) = w_trace w /\
  exists lessons,
    fst out = Ok lessons /\
    match db_get_user (w_db w) phone_norm with
    | None => lessons = [] /\ w_reads (snd out) = w_reads w
    | Some user =>
        w_reads (snd out) = S (w_reads w) /\
        In (day_ua (weekday (clock (w_reads w)))) days_ua /\
        forall l, In l lessons
                  <-> In l (schedule (w_db w))
                      /\ l_class_name l = u_class_name user
                      /\ l_day_name l = day_ua (weekday (clock (w_reads w)))
    end.
Proof.
  unfold db_get_schedule_for_user_today, bind, get_db, datetime_now, ret. simpl.
  destruct (db_get_user (w_db w) phone_norm) as [user|]; simpl.
  - split; [reflexivity|]. split; [reflexivity|]. eexists. split; [reflexivity|].
    split; [reflexivity|]. split; [apply day_ua_of_weekday|].
    intros l. apply In_select_schedule.
  - split; [reflexivity|]. split; [reflexivity|]. exists []. auto.
Qed.


(** ** The lookup of the next lesson *)

Lemma scan_today_sound now minutes_ahead (lessons : list lesson_row) (lesson : lesson_row) :
  snd (scan_today now minutes_ahead lessons) = Ok (Some lesson) ->
  In lesson lessons /\ starts_within now now minutes_ahead lesson.
Proof.
  induction lessons as [|x rest IH]; simpl; [discriminate|].
  destruct (lesson_start now x) as [st|e] eqn:Hst.
  - destruct (Z.leb_spec 0 (timedelta_us st now)) as [H0|H0];
      [|intros H; destruct (IH H); auto].
    destruct (Z.leb_spec (timedelta_us st now) (minutes_ahead * us_per_minute)) as [H1|H1];
      [|intros H; destruct (IH H); auto].
    simpl. intros H. injection H as <-. split; [left; reflexivity|].
    exists st. split; [exact Hst | lia].
  - destruct (is_ValueError_or_KeyError e); simpl; [|discriminate].
    intros H; destruct (IH H); auto.
Qed.

Lemma scan_tomorrow_sound now tomorrow_date minutes_ahead
      (lessons : list lesson_row) (lesson : lesson_row) :
  snd (scan_tomorrow now tomorrow_date minutes_ahead lessons) = Ok (Some lesson) ->
  In lesson lessons /\ starts_within tomorrow_date now minutes_ahead lesson.
Proof.
  induction lessons as [|x rest IH]; simpl; [discriminate|].
  destruct (lesson_start tomorrow_date x) as [st|e] eqn:Hst.
  - destruct (Z.leb_spec 0 (timedelta_us st now)) as [H0|H0]; simpl;
      [|intros H; destruct (IH H); auto].
    destruct (Z.leb_spec (timedelta_us st now) (minutes_ahead * us_per_minute)) as [H1|H1];
      [|intros H; destruct (IH H); auto].
    simpl. intros H. injection H as <-. split; [left; reflexivity|].
    exists st. split; [exact Hst | lia].
  - destruct (is_ValueError_or_KeyError e); simpl; [|discriminate].
    intros H; destruct (IH H); auto.
Qed.

Lemma two_day_scan_sound (d : DB) (class_name : string) now minutes_ahead
      (lesson : lesson_row) :
  snd (two_day_scan d class_name now minutes_ahead) = Ok (Some lesson) ->
  In lesson (schedule d) /\ l_class_name lesson = class_name /\
  ((l_day_name lesson = day_ua (weekday now)
    /\ starts_within now now minutes_ahead lesson) \/
   (l_day_name lesson = day_ua ((weekday now + 1) mod 7)
    /\ starts_within (plus_one_day now) now minutes_ahead lesson)).
Proof.
  unfold two_day_scan.
  destruct (snd (scan_today now minutes_ahead
                   (select_schedule d class_name (day_ua (weekday now)))))
    as [[found|]|e] eqn:Htoday.
  - intros H. rewrite Htoday in H. injection H as ->.
    apply scan_today_sound in Htoday as [Hin Hw].
    apply In_select_schedule in Hin as (Hin & Hc & Hd). auto.
  - simpl. intros H. apply scan_tomorrow_sound in H as [Hin Hw].
    apply In_select_schedule in Hin as (Hin & Hc & Hd). auto.
  - intros H. rewrite Htoday in H. discriminate.
Qed.

(** X10. What [db_get_upcoming_class] answers is sound: a lesson it
    returns belongs to a registered subscriber's own class, is a row of
    the timetable, and either is on today's day name and starts today
    within the window, or is on tomorrow's day name and starts tomorrow
    within the window (the midnight roll-over); its start is never in
    the past. *)
Theorem db_get_upcoming_class_answer_is_in_the_window
        (clock : nat -> datetime) (phone_norm : string) (minutes_ahead : Z)
        (w : World) (lesson : lesson_row) :
  fst (db_get_upcoming_class clock phone_norm minutes_ahead w) = Ok (Some lesson) ->
  let now := clock (w_reads w) in
  exists user,
    db_get_user (w_db w) phone_norm = Some user /\
    In lesson (schedule (w_db w)) /\
    l_class_name lesson = u_class_name user /\
    ((l_day_name lesson = day_ua (weekday now)
      /\ starts_within now now minutes_ahead lesson) \/
     (l_day_name lesson = day_ua ((weekday now + 1) mod 7)
      /\ starts_within (plus_one_day now) now minutes_ahead lesson)).
Proof.
  intros H now.
  destruct (db_get_user (w_db w) phone_norm) as [user|] eqn:Huser.
  - rewrite (db_get_upcoming_class_registered _ _ _ _ _ Huser) in H. simpl in H.
    exists user. split; [reflexivity|].
    apply two_day_scan_sound. exact H.
  - rewrite (db_get_upcoming_class_unregistered _ _ _ _ Huser) in H. discriminate.
Qed.

Lemma db_get_upcoming_class_answer_is_in_the_window_witness :
  let w := fresh_world (mkDB [pupil] [algebra] []) in
  fst (db_get_upcoming_class monday_0812 "380501234567" 20 w) = Ok (Some algebra) /\
  exists user,
    db_get_user (w_db w) "380501234567" = Some user /\
    In algebra (schedule (w_db w)) /\
    l_class_name algebra = u_class_name user /\
    ((l_day_name algebra = day_ua (weekday (monday_0812 (w_reads w)))
      /\ starts_within (monday_0812 (w_reads w)) (monday_0812 (w_reads w)) 20 algebra) \/
     (l_day_name algebra = day_ua ((weekday (monday_0812 (w_reads w)) + 1) mod 7)
      /\ starts_within (plus_one_day (monday_0812 (w_reads w)))
                       (monday_0812 (w_reads w)) 20 algebra)).
Proof.
  intros w. split; [reflexivity|].
  apply (db_get_upcoming_class_answer_is_in_the_window
           monday_0812 "380501234567" 20 w algebra).
  reflexivity.
Defined.

Lemma scan_today_wider now (m m' : Z) (lessons : list lesson_row) :
  m <= m' ->
  match snd (scan_today now m lessons) with
  | Ok (Some _) => exists l', snd (scan_today now m' lessons) = Ok (Some l')
  | Ok None => exists r', snd (scan_today now m' lessons) = Ok r'
  | Raise _ => True
  end.
Proof.
  intros Hm. induction lessons as [|x rest IH]; simpl; [eexists; reflexivity|].
  destruct (lesson_start now x) as [st|e].
  - destruct (Z.leb_spec 0 (timedelta_us st now)) as [H0|H0]; [|exact IH].
    destruct (Z.leb_spec (timedelta_us st now) (m * us_per_minute)) as [H1|H1].
    + destruct (Z.leb_spec (timedelta_us st now) (m' * us_per_minute)) as [H2|H2].
      * simpl. eexists; reflexivity.
      * unfold us_per_minute in *. lia.
    + destruct (Z.leb_spec (timedelta_us st now) (m' * us_per_minute)) as [H2|H2];
        [|exact IH].
      simpl. destruct (snd (scan_today now m rest)) as [[?|]|?]; auto; eexists; reflexivity.
  - destruct (is_ValueError_or_KeyError e); simpl; [exact IH | exact I].
Qed.

Lemma scan_tomorrow_wider now tomorrow_date (m m' : Z) (lessons : list lesson_row) :
  m <= m' ->
  forall l, snd (scan_tomorrow now tomorrow_date m lessons) = Ok (Some l) ->
            exists l', snd (scan_tomorrow now tomorrow_date m' lessons) = Ok (Some l').
Proof.
  intros Hm l. induction lessons as [|x rest IH]; simpl; [discriminate|].
  destruct (lesson_start tomorrow_date x) as [st|e].
  - destruct (Z.leb_spec 0 (timedelta_us st now)) as [H0|H0]; simpl; [|exact IH].
    destruct (Z.leb_spec (timedelta_us st now) (m * us_per_minute)) as [H1|H1].
    + destruct (Z.leb_spec (timedelta_us st now) (m' * us_per_minute)) as [H2|H2].
      * simpl. eexists; reflexivity.
      * unfold us_per_minute in *. lia.
    + destruct (Z.leb_spec (timedelta_us st now) (m' * us_per_minute)) as [H2|H2];
        [|exact IH].
      simpl. eexists; reflexivity.
  - destruct (is_ValueError_or_KeyError e); simpl; [exact IH | discriminate].
Qed.

(** X11. The windows nest: when [db_get_upcoming_class] finds a lesson
    within [m] minutes, the same lookup with any wider window finds a
    lesson too (it neither comes back empty nor raises), so the windows
    that [check_and_notify_upcoming_classes] tries after a refused send
    see a lesson again. *)
Theorem wider_window_still_finds_a_lesson
        (clock : nat -> datetime) (phone_norm : string) (m m' : Z)
        (w : World) (lesson : lesson_row) :
  m <= m' ->
  fst (db_get_upcoming_class clock phone_norm m w) = Ok (Some lesson) ->
  exists lesson', fst (db_get_upcoming_class clock phone_norm m' w) = Ok (Some lesson').
Proof.
  intros Hm H.
  destruct (db_get_user (w_db w) phone_norm) as [user|] eqn:Huser.
  - rewrite (db_get_upcoming_class_registered _ _ _ _ _ Huser) in H.
    rewrite (db_get_upcoming_class_registered _ _ _ _ _ Huser).
    simpl in *. unfold two_day_scan in *.
    pose proof (scan_today_wider (clock (w_reads w)) m m'
                  (select_schedule (w_db w) (u_class_name user)
                     (day_ua (weekday (clock (w_reads w))))) Hm) as Htoday.
    destruct (snd (scan_today (clock (w_reads w)) m _)) as [[found|]|e] eqn:Hscan.
    + destruct Htoday as [l' Hl']. rewrite Hl'. exists l'. exact Hl'.
    + destruct Htoday as [r' Hr']. rewrite Hr'. destruct r' as [l'|].
      * exists l'. exact Hr'.
      * simpl in *. eapply scan_tomorrow_wider; eassumption.
    + rewrite Hscan in H. discriminate.
  - rewrite (db_get_upcoming_class_unregistered _ _ _ _ Huser) in H. discriminate.
Qed.

Lemma wider_window_still_finds_a_lesson_witness :
  let w := fresh_world (mkDB [pupil] [algebra] []) in
  exists lesson', fst (db_get_upcoming_class monday_0812 "380501234567" 30 w)
                  = Ok (Some lesson').
Proof.
  intros w.
  apply (wider_window_still_finds_a_lesson monday_0812 "380501234567" 20 30 w algebra);
    [lia | reflexivity].
Defined.


(** ** The user loop of the scanner *)

Lemma db_get_events_notifications_users (d d' : DB) (phone_norm : string) :
  users d = users d' ->
  db_get_events_notifications d phone_norm = db_get_events_notifications d' phone_norm.
Proof.
  intros H. unfold db_get_events_notifications, db_get_user. rewrite H. reflexivity.
Qed.

Lemma select_users_with_tg_rows (d : DB) :
  Forall (fun tu => In (snd tu) (users d) /\ u_tg_id (snd tu) = Some (fst tu))
         (select_users_with_tg d).
Proof.
  unfold select_users_with_tg. induction (users d) as [|u us IH]; simpl; [constructor|].
  destruct (u_tg_id u) as [tg_id|] eqn:Htg.
  - constructor; [simpl; auto|].
    eapply List.Forall_impl; [|exact IH]. simpl. intros tu [Hin Ht]. auto.
  - eapply List.Forall_impl; [|exact IH]. simpl. intros tu [Hin Ht]. auto.
Qed.

(** An invariant that the markers, the clock and the [try] around the
    send keep is kept by the whole user loop. *)
Section UserLoop.

Variable clock : nat -> datetime.
Variable transport : nat -> request -> bool.
Variable I : World -> Prop.
Variable d0 : DB.

Hypothesis I_tables :
  forall w, I w -> users (w_db w) = users d0 /\ schedule (w_db w) = schedule d0.
Hypothesis I_marker : forall e, is_marker e = true -> preserves I (emit e).
Hypothesis I_now : preserves I (datetime_now clock).
Hypothesis I_logged :
  forall out : list log_record * result (option lesson_row), preserves I (logged out).
Hypothesis I_deliver :
  forall tg_id user upcoming,
    In user (users d0) -> u_tg_id user = Some tg_id ->
    db_get_events_notifications d0 (u_phone user) = true ->
    In upcoming (schedule d0) ->
    preserves I
      (try_except
         (do! bot_send transport (mkRequest SendMessage tg_id (LessonNotice upcoming)) then
          do! emit (Delivered (mkKey (u_phone user) (u_class_name user)
                                     (l_day_name upcoming) (l_lesson_number upcoming))
                              tg_id) then
          do! logging (LogSent tg_id (u_fio user) upcoming) then
          do! db_record_notification_sent clock (u_phone user) (u_class_name user)
                (l_day_name upcoming) (l_lesson_number upcoming) then
          ret true)
         is_Exception
         (fun e => do! logging (LogSendError tg_id e) then ret false)).

Lemma loop_lookup (phone_norm : string) (minutes_ahead : Z) :
  triple I (db_get_upcoming_class clock phone_norm minutes_ahead)
         (fun r w => I w /\ forall l, r = Ok (Some l) -> In l (schedule d0)).
Proof.
  intros w Hw. destruct (I_tables w Hw) as [_ Hsch].
  pose proof (I_marker (Lookup phone_norm minutes_ahead) eq_refl w Hw) as H1.
  destruct (db_get_user (w_db w) phone_norm) as [user|] eqn:Huser.
  - rewrite (db_get_upcoming_class_registered _ _ _ _ _ Huser). simpl. split.
    + pose proof (I_logged (two_day_scan (w_db w) (u_class_name user)
                              (clock (w_reads w)) minutes_ahead) _ (I_now _ H1)) as H2.
      unfold logged, datetime_now, emit in H2. simpl in H2.
      rewrite <- List.app_assoc in H2. exact H2.
    + intros l Hl. rewrite <- Hsch. apply two_day_scan_sound in Hl. tauto.
  - rewrite (db_get_upcoming_class_unregistered _ _ _ _ Huser). simpl.
    split; [exact H1 | discriminate].
Qed.

Lemma loop_check phone_norm class_name day_name lesson_number :
  preserves I
    (check_notification_already_sent clock phone_norm class_name day_name lesson_number).
Proof.
  unfold check_notification_already_sent.
  apply preserves_bind; [exact I_now | intros today].
  apply preserves_bind; [apply preserves_get_db | intros d].
  apply preserves_bind; [apply I_marker; reflexivity | intros _; apply preserves_ret].
Qed.

Lemma loop_notify_windows (tg_id : Z) (user : user_row) (windows : list Z) :
  In user (users d0) -> u_tg_id user = Some tg_id ->
  db_get_events_notifications d0 (u_phone user) = true ->
  preserves I (notify_windows clock transport tg_id user windows).
Proof.
  intros Hin Htg Hev.
  induction windows as [|minutes_window rest IH]; simpl; [apply preserves_ret|].
  eapply triple_bind; [apply loop_lookup | | intros e w [Hw _]; exact Hw].
  intros [upcoming|]; [|intros w [Hw _]; apply IH; exact Hw].
  intros w [Hw Hl]. specialize (Hl upcoming eq_refl).
  refine ((_ : preserves I _) w Hw).
  apply preserves_bind; [apply I_marker; reflexivity | intros _].
  apply preserves_bind; [apply loop_check | intros already_sent].
  destruct already_sent; simpl; [apply preserves_ret|].
  apply preserves_bind; [apply I_deliver; assumption|].
  intros [|]; [apply preserves_ret | exact IH].
Qed.

Lemma loop_notify_user (tg_id : Z) (user : user_row) :
  In user (users d0) -> u_tg_id user = Some tg_id ->
  preserves I (notify_user clock transport tg_id user).
Proof.
  intros Hin Htg w Hw. rewrite notify_user_unfold. cbv zeta.
  pose proof (I_marker (Visited (u_phone user)) eq_refl w Hw) as H1.
  destruct (db_get_events_notifications (w_db w) (u_phone user)) eqn:Hev; cbn [negb].
  - apply (loop_notify_windows tg_id user check_windows); [exact Hin | exact Htg | | exact H1].
    rewrite <- Hev. symmetry. apply db_get_events_notifications_users.
    apply (I_tables w Hw).
  - exact H1.
Qed.

Lemma loop_notify_users (us : list (Z * user_row)) :
  Forall (fun tu => In (snd tu) (users d0) /\ u_tg_id (snd tu) = Some (fst tu)) us ->
  preserves I (notify_users clock transport us).
Proof.
  induction 1 as [|[tg_id user] rest [Hin Htg] _ IH]; simpl; [apply preserves_ret|].
  apply preserves_bind; [apply loop_notify_user; assumption | intros _; exact IH].
Qed.

(** the world in which the tick reaches its [sleep] *)
Lemma loop_tick (w : World) :
  I w -> w_db w = d0 ->
  exists w2 (tail : list event),
    I w2 /\
    Forall (fun e => is_marker e = true) tail /\
    scanner_tick clock transport w
    = (Ok tt, mkWorld (w_db w2) (w_files w2) (w_reads w2) (w_attempts w2)
                      ((w_trace w2 ++ tail) ++ [Slept 60])).
Proof.
  intros Hw Hdb. rewrite scanner_tick_unfold. cbv zeta.
  pose proof (I_now _ (I_marker (Log (LogBackgroundCheck (clock (w_reads w))))
                         eq_refl w Hw)) as H1.
  unfold datetime_now, emit in H1. simpl in H1.
  assert (Hus : Forall (fun tu => In (snd tu) (users d0) /\ u_tg_id (snd tu) = Some (fst tu))
                       (select_users_with_tg (w_db w))).
  { rewrite Hdb. apply select_users_with_tg_rows. }
  pose proof (loop_notify_users _ Hus _ H1) as H2.
  destruct (notify_users clock transport (select_users_with_tg (w_db w)) _)
    as [[[]|e] w2]; simpl in H2.
  - exists w2, []. split; [exact H2|]. split; [constructor|].
    rewrite List.app_nil_r. reflexivity.
  - exists w2, [Log (LogCriticalError e)]. split; [exact H2|].
    split; [repeat constructor | reflexivity].
Qed.

End UserLoop.

Lemma omap_markers {A} (f : event -> option A) (tail : list event) :
  (forall e, is_marker e = true -> f e = None) ->
  Forall (fun e => is_marker e = true) tail -> omap f tail = [].
Proof.
  intros Hf. induction 1 as [|e tail He _ IH]; simpl; [reflexivity|].
  rewrite (Hf e He). exact IH.
Qed.

Lemma omap_logs {A} (f : event -> option A) (logs : list log_record) :
  (forall e, is_marker e = true -> f e = None) -> omap f (map Log logs) = [].
Proof.
  intros Hf. apply omap_markers; [exact Hf|].
  induction logs; simpl; constructor; auto.
Qed.

Lemma scanner_run_cons (clock : nat -> datetime) (transport : nat -> request -> bool)
      (us : list user_row) (sch : list lesson_row)
      (rest : list (list user_row * list lesson_row)) (w : World) :
  scanner_run clock transport ((us, sch) :: rest) w
  = match scanner_tick clock transport
            (mkWorld (mkDB us sch (notifications_sent (w_db w)))
                     (w_files w) (w_reads w) (w_attempts w) (w_trace w)) with
    | (Ok _, w2) => scanner_run clock transport rest w2
    | (Raise e, w2) => (Raise e, w2)
    end.
Proof. reflexivity. Qed.

(** *** Who is sent what *)

Section NoticeSends.

Variable clock : nat -> datetime.
Variable transport : nat -> request -> bool.
Variable P : request * bool -> Prop.
Variable d0 : DB.
Hypothesis notices_satisfy : forall s, is_lesson_notice_for d0 s -> P s.

Lemma sends_of_marker (e : event) :
  is_marker e = true ->
  match e with Sent req ok => Some (req, ok) | _ => None end = None.
Proof. destruct e; simpl; intros H; (reflexivity || discriminate). Qed.

Lemma notice_marker (e : event) :
  is_marker e = true -> preserves (sends_satisfy P d0) (emit e).
Proof.
  intros He w (Hu & Hs & Hf). unfold emit, sends_satisfy; simpl.
  rewrite sends_app. unfold sends at 2. simpl. rewrite (sends_of_marker e He).
  rewrite List.app_nil_r. auto.
Qed.

Lemma notice_now : preserves (sends_satisfy P d0) (datetime_now clock).
Proof. intros w Hw. exact Hw. Qed.

Lemma notice_logged (out : list log_record * result (option lesson_row)) :
  preserves (sends_satisfy P d0) (logged out).
Proof.
  intros w (Hu & Hs & Hf). unfold logged, sends_satisfy; simpl.
  rewrite sends_app. unfold sends at 2.
  rewrite (omap_logs _ (fst out) sends_of_marker), List.app_nil_r. auto.
Qed.

Lemma notice_deliver (tg_id : Z) (user : user_row) (upcoming : lesson_row) :
  In user (users d0) -> u_tg_id user = Some tg_id ->
  db_get_events_notifications d0 (u_phone user) = true ->
  In upcoming (schedule d0) ->
  preserves (sends_satisfy P d0)
    (try_except
       (do! bot_send transport (mkRequest SendMessage tg_id (LessonNotice upcoming)) then
        do! emit (Delivered (mkKey (u_phone user) (u_class_name user)
                                   (l_day_name upcoming) (l_lesson_number upcoming))
                            tg_id) then
        do! logging (LogSent tg_id (u_fio user) upcoming) then
        do! db_record_notification_sent clock (u_phone user) (u_class_name user)
              (l_day_name upcoming) (l_lesson_number upcoming) then
        ret true)
       is_Exception
       (fun e => do! logging (LogSendError tg_id e) then ret false)).
Proof.
  intros Hin Htg Hev Hl w (Hu & Hs & Hf).
  assert (HP : forall ok, P (mkRequest SendMessage tg_id (LessonNotice upcoming), ok)).
  { intros ok. apply notices_satisfy. exists user, upcoming. simpl. auto 8. }
  unfold try_except, bind, bot_send, db_record_notification_sent, bind, datetime_now,
    insert_sent, logging, emit, ret, sends_satisfy; simpl.
  destruct (transport (w_attempts w) _); simpl;
    (split; [exact Hu|]; split; [exact Hs|]);
    unfold sends in *; rewrite !omap_app; simpl; rewrite ?List.app_nil_r;
    apply Forall_app; (split; [exact Hf|]); constructor; auto.
Qed.

Lemma notice_tick (w : World) :
  w_db w = d0 -> sends_satisfy P d0 w ->
  sends_satisfy P d0 (snd (scanner_tick clock transport w)).
Proof.
  intros Hdb Hw.
  destruct (loop_tick clock transport (sends_satisfy P d0) d0
              (fun w H => conj (proj1 H) (proj1 (proj2 H)))
              notice_marker notice_now notice_logged notice_deliver w Hw Hdb)
    as (w2 & tail & (Hu & Hs & Hf) & Htail & Heq).
  rewrite Heq. unfold sends_satisfy. simpl.
  split; [exact Hu|]. split; [exact Hs|].
  rewrite !sends_app. unfold sends at 2 3.
  rewrite (omap_markers _ tail sends_of_marker Htail). simpl.
  rewrite !List.app_nil_r. exact Hf.
Qed.

End NoticeSends.

(** X12. Whom a tick of [check_and_notify_upcoming_classes] writes to:
    the tick leaves the [users] and [schedule] tables as they are, and
    every transport call it makes, whether it returns or raises, is a
    plain text message that carries a lesson of the timetable to the
    chat of a row of [users] whose subscriber has notifications on. *)
Theorem scanner_tick_writes_to_subscribers_only
        (clock : nat -> datetime) (transport : nat -> request -> bool) (w : World) :
  Forall (is_lesson_notice_for (w_db w)) (sends (w_trace w)) ->
  let w' := snd (scanner_tick clock transport w) in
  users (w_db w') = users (w_db w) /\ schedule (w_db w') = schedule (w_db w) /\
  Forall (is_lesson_notice_for (w_db w)) (sends (w_trace w')).
Proof.
  intros Hf.
  apply (notice_tick clock transport (is_lesson_notice_for (w_db w)) (w_db w)
           (fun s H => H) w eq_refl).
  unfold sends_satisfy. auto.
Qed.

Lemma scanner_tick_writes_to_subscribers_only_witness :
  let w := fresh_world (mkDB [pupil] [algebra] []) in
  let w' := snd (scanner_tick monday_0812 always_delivers w) in
  sends (w_trace w')
  = [(mkRequest SendMessage 1001 (LessonNotice algebra), true)] /\
  Forall (is_lesson_notice_for (w_db w)) (sends (w_trace w')).
Proof.
  intros w w'. split; [reflexivity|].
  apply (scanner_tick_writes_to_subscribers_only monday_0812 always_delivers w).
  simpl. constructor.
Defined.

Lemma tg_row_unique (us : list user_row) (a b : user_row) (t : Z) :
  NoDup (omap u_tg_id us) -> In a us -> In b us ->
  u_tg_id a = Some t -> u_tg_id b = Some t -> a = b.
Proof.
  induction us as [|x rest IH]; simpl; [contradiction|].
  intros Hnd Ha Hb Hta Htb.
  assert (Hrest : forall u, In u rest -> u_tg_id u = Some t -> t ∈ omap u_tg_id rest).
  { intros u Hu Ht. apply list_elem_of_omap. exists u. split; [|exact Ht].
    apply list_elem_of_In. exact Hu. }
  destruct (u_tg_id x) as [tx|] eqn:Hx.
  - apply NoDup_cons in Hnd as [Hnx Hnd].
    destruct Ha as [<-|Ha], Hb as [<-|Hb]; auto.
    + exfalso. apply Hnx. assert (tx = t) by congruence. subst tx. eauto.
    + exfalso. apply Hnx. assert (tx = t) by congruence. subst tx. eauto.
  - destruct Ha as [<-|Ha]; [congruence|].
    destruct Hb as [<-|Hb]; [congruence|]. auto.
Qed.

(** X13. A subscriber who has switched the notifications off is left
    alone: with the unique index on [tg_id] in force, a tick makes no
    transport call at all to the chat of a row whose subscriber has
    notifications off. *)
Theorem opted_out_chat_gets_no_lesson_notice
        (clock : nat -> datetime) (transport : nat -> request -> bool) (w : World)
        (user : user_row) (tg_id : Z) :
  tg_ids_unique (w_db w) ->
  In user (users (w_db w)) -> u_tg_id user = Some tg_id ->
  db_get_events_notifications (w_db w) (u_phone user) = false ->
  Forall (fun s => r_chat (fst s) <> tg_id) (sends (w_trace w)) ->
  Forall (fun s => r_chat (fst s) <> tg_id)
         (sends (w_trace (snd (scanner_tick clock transport w)))).
Proof.
  intros Huniq Hin Htg Hoff Hf.
  apply (notice_tick clock transport (fun s => r_chat (fst s) <> tg_id) (w_db w)).
  - intros s (user' & lesson & Hin' & Htg' & Hon & _) Hchat.
    rewrite Hchat in Htg'.
    rewrite (tg_row_unique _ _ _ _ Huniq Hin' Hin Htg' Htg) in Hon. congruence.
  - reflexivity.
  - unfold sends_satisfy. auto.
Qed.

Lemma opted_out_chat_gets_no_lesson_notice_witness :
  let muted := mkUser "380507654321" "Muted" "10-A" "учень" (Some 1002) 0 in
  let w := fresh_world (mkDB [pupil; muted] [algebra] []) in
  sends (w_trace (snd (scanner_tick monday_0812 always_delivers w)))
  = [(mkRequest SendMessage 1001 (LessonNotice algebra), true)] /\
  Forall (fun s => r_chat (fst s) <> 1002)
         (sends (w_trace (snd (scanner_tick monday_0812 always_delivers w)))).
Proof.
  intros muted w. split; [reflexivity|].
  apply (opted_out_chat_gets_no_lesson_notice monday_0812 always_delivers w muted 1002).
  - unfold tg_ids_unique. simpl.
    apply (bool_decide_unpack (NoDup [1001; 1002])). vm_compute. exact I.
  - simpl. right. left. reflexivity.
  - reflexivity.
  - reflexivity.
  - simpl. constructor.
Defined.


(** *** The pace of the scanner *)

Section Pace.

Variable clock : nat -> datetime.
Variable transport : nat -> request -> bool.
Variable d0 : DB.
Variable s0 : list Z.

Abbreviation Paced := (fun w => tables_of d0 w /\ sleeps (w_trace w) = s0).

Lemma sleeps_of_marker (e : event) :
  is_marker e = true ->
  match e with Slept seconds => Some seconds | _ => None end = None.
Proof. destruct e; simpl; intros H; (reflexivity || discriminate). Qed.

Lemma pace_marker (e : event) : is_marker e = true -> preserves Paced (emit e).
Proof.
  intros He w [Ht Hs]. unfold emit, tables_of in *; simpl. split; [exact Ht|].
  unfold sleeps in *. rewrite omap_app. simpl. rewrite (sleeps_of_marker e He).
  rewrite List.app_nil_r. exact Hs.
Qed.

Lemma pace_now : preserves Paced (datetime_now clock).
Proof. intros w Hw. exact Hw. Qed.

Lemma pace_logged (out : list log_record * result (option lesson_row)) :
  preserves Paced (logged out).
Proof.
  intros w [Ht Hs]. unfold logged, tables_of in *; simpl. split; [exact Ht|].
  unfold sleeps in *. rewrite omap_app.
  rewrite (omap_logs _ (fst out) sleeps_of_marker), List.app_nil_r. exact Hs.
Qed.

Lemma pace_deliver (tg_id : Z) (user : user_row) (upcoming : lesson_row) :
  preserves Paced
    (try_except
       (do! bot_send transport (mkRequest SendMessage tg_id (LessonNotice upcoming)) then
        do! emit (Delivered (mkKey (u_phone user) (u_class_name user)
                                   (l_day_name upcoming) (l_lesson_number upcoming))
                            tg_id) then
        do! logging (LogSent tg_id (u_fio user) upcoming) then
        do! db_record_notification_sent clock (u_phone user) (u_class_name user)
              (l_day_name upcoming) (l_lesson_number upcoming) then
        ret true)
       is_Exception
       (fun e => do! logging (LogSendError tg_id e) then ret false)).
Proof.
  intros w [Ht Hs].
  unfold try_except, bind, bot_send, db_record_notification_sent, bind, datetime_now,
    insert_sent, logging, emit, ret, tables_of in *; simpl.
  destruct (transport (w_attempts w) _); simpl; (split; [exact Ht|]);
    unfold sleeps in *; rewrite !omap_app; simpl; rewrite ?List.app_nil_r; exact Hs.
Qed.

Lemma pace_tick (w : World) :
  w_db w = d0 -> sleeps (w_trace w) = s0 ->
  fst (scanner_tick clock transport w) = Ok tt /\
  sleeps (w_trace (snd (scanner_tick clock transport w))) = (s0 ++ [60])%list.
Proof.
  intros Hdb Hs.
  destruct (loop_tick clock transport Paced d0 (fun w H => proj1 H)
              pace_marker pace_now pace_logged
              (fun tg_id user upcoming _ _ _ _ => pace_deliver tg_id user upcoming)
              w) as (w2 & tail & [Ht H2] & Htail & Heq).
  { split; [|exact Hs]. rewrite <- Hdb. split; reflexivity. }
  { exact Hdb. }
  rewrite Heq. simpl. split; [reflexivity|].
  unfold sleeps in *. rewrite !omap_app.
  rewrite (omap_markers _ tail sleeps_of_marker Htail), H2. simpl.
  rewrite List.app_nil_r. reflexivity.
Qed.

End Pace.

(** X14. The scanner paces itself: however many ticks it runs and
    whatever the tables hold at each, [check_and_notify_upcoming_classes]
    never lets an exception out of the loop, and every tick ends in
    exactly one [asyncio.sleep(60)], whether its body returned or ended
    in the handler. *)
Theorem scanner_sleeps_once_per_tick
        (clock : nat -> datetime) (transport : nat -> request -> bool)
        (tables : list (list user_row * list lesson_row)) (w : World) :
  fst (scanner_run clock transport tables w) = Ok tt /\
  sleeps (w_trace (snd (scanner_run clock transport tables w)))
  = (sleeps (w_trace w) ++ repeat 60 (length tables))%list.
Proof.
  revert w. induction tables as [|[us sch] rest IH]; intros w.
  - simpl. rewrite List.app_nil_r. auto.
  - rewrite scanner_run_cons.
    destruct (pace_tick clock transport _ (sleeps (w_trace w))
                (mkWorld (mkDB us sch (notifications_sent (w_db w)))
                         (w_files w) (w_reads w) (w_attempts w) (w_trace w))
                eq_refl eq_refl) as [Hok Hs].
    destruct (scanner_tick clock transport _) as [[[]|e] w2]; simpl in Hok, Hs;
      [|discriminate].
    destruct (IH w2) as [Hok2 Hs2]. split; [exact Hok2|].
    rewrite Hs2, Hs, <- List.app_assoc. reflexivity.
Qed.

(** *** The ledger and the sends *)

Section LedgerRows.

Variable clock : nat -> datetime.
Variable transport : nat -> request -> bool.
Variable d0 : DB.
Variable pre : list (string * Z).

Abbreviation Booked := (fun w => tables_of d0 w /\ ledger_follows_sends pre w).

Lemma delivered_of_marker (e : event) :
  is_marker e = true ->
  match e with
  | Sent req true =>
      match r_payload req with
      | LessonNotice l => Some (l_day_name l, l_lesson_number l)
      | _ => None
      end
  | _ => None
  end = None.
Proof. destruct e; simpl; intros H; (reflexivity || discriminate). Qed.

Lemma booked_marker (e : event) : is_marker e = true -> preserves Booked (emit e).
Proof.
  intros He w [Ht Hl]. unfold emit, tables_of, ledger_follows_sends in *; simpl.
  split; [exact Ht|].
  unfold delivered_lessons in *. rewrite omap_app. simpl.
  rewrite (delivered_of_marker e He), List.app_nil_r. exact Hl.
Qed.

Lemma booked_now : preserves Booked (datetime_now clock).
Proof. intros w Hw. exact Hw. Qed.

Lemma booked_logged (out : list log_record * result (option lesson_row)) :
  preserves Booked (logged out).
Proof.
  intros w [Ht Hl]. unfold logged, tables_of, ledger_follows_sends in *; simpl.
  split; [exact Ht|].
  unfold delivered_lessons in *. rewrite omap_app.
  rewrite (omap_logs _ (fst out) delivered_of_marker), List.app_nil_r. exact Hl.
Qed.

Lemma booked_deliver (tg_id : Z) (user : user_row) (upcoming : lesson_row) :
  preserves Booked
    (try_except
       (do! bot_send transport (mkRequest SendMessage tg_id (LessonNotice upcoming)) then
        do! emit (Delivered (mkKey (u_phone user) (u_class_name user)
                                   (l_day_name upcoming) (l_lesson_number upcoming))
                            tg_id) then
        do! logging (LogSent tg_id (u_fio user) upcoming) then
        do! db_record_notification_sent clock (u_phone user) (u_class_name user)
              (l_day_name upcoming) (l_lesson_number upcoming) then
        ret true)
       is_Exception
       (fun e => do! logging (LogSendError tg_id e) then ret false)).
Proof.
  intros w [Ht Hl].
  unfold try_except, bind, bot_send, db_record_notification_sent, bind, datetime_now,
    insert_sent, logging, emit, ret, tables_of, ledger_follows_sends in *; simpl.
  destruct (transport (w_attempts w) _); simpl; (split; [exact Ht|]);
    unfold delivered_lessons, recorded_lessons in *; simpl;
    rewrite ?List.map_app, !omap_app; simpl; rewrite ?List.app_nil_r.
  - rewrite Hl, <- List.app_assoc. reflexivity.
  - exact Hl.
Qed.

Lemma booked_tick (w : World) :
  w_db w = d0 -> ledger_follows_sends pre w ->
  exists w', scanner_tick clock transport w = (Ok tt, w') /\ ledger_follows_sends pre w'.
Proof.
  intros Hdb Hl.
  destruct (loop_tick clock transport Booked d0 (fun w H => proj1 H)
              booked_marker booked_now booked_logged
              (fun tg_id user upcoming _ _ _ _ => booked_deliver tg_id user upcoming)
              w) as (w2 & tail & [Ht H2] & Htail & Heq).
  { split; [|exact Hl]. rewrite <- Hdb. split; reflexivity. }
  { exact Hdb. }
  rewrite Heq. eexists. split; [reflexivity|].
  unfold ledger_follows_sends, delivered_lessons in *. simpl.
  rewrite !omap_app.
  rewrite (omap_markers _ tail delivered_of_marker Htail). simpl.
  rewrite !List.app_nil_r. exact H2.
Qed.

End LedgerRows.

(** X15. The ledger keeps step with the transport: over any number of
    ticks, and whatever is installed in the [users] and [schedule]
    tables between them, [notifications_sent] gains one row for each
    lesson notice whose send returned, for that lesson and in the order
    of the sends, and no row for a send that raised or for anything
    else. *)
Theorem ledger_gets_a_row_per_delivered_notice
        (clock : nat -> datetime) (transport : nat -> request -> bool)
        (tables : list (list user_row * list lesson_row)) (w : World)
        (pre : list (string * Z)) :
  ledger_follows_sends pre w ->
  ledger_follows_sends pre (snd (scanner_run clock transport tables w)).
Proof.
  revert w. induction tables as [|[us sch] rest IH]; intros w Hl; [exact Hl|].
  rewrite scanner_run_cons.
  destruct (booked_tick clock transport _ pre
              (mkWorld (mkDB us sch (notifications_sent (w_db w)))
                       (w_files w) (w_reads w) (w_attempts w) (w_trace w))
              eq_refl Hl) as (w' & Heq & Hl').
  rewrite Heq. apply IH. exact Hl'.
Qed.

Lemma ledger_gets_a_row_per_delivered_notice_witness :
  let w := fresh_world (mkDB [] [] []) in
  let w' := snd (scanner_run monday_0812 refuses_first_call
                   [([pupil], [algebra]); ([pupil], [algebra])] w) in
  map snd (sends (w_trace w')) = [false; true] /\
  recorded_lessons (w_db w') = [("Понеділок", 1)] /\
  ledger_follows_sends [] w'.
Proof.
  intros w w'. split; [reflexivity|]. split; [reflexivity|].
  apply (ledger_gets_a_row_per_delivered_notice monday_0812 refuses_first_call
           [([pupil], [algebra]); ([pupil], [algebra])] w []).
  reflexivity.
Defined.


(** ** What the listeners schedule *)

Section Snapshots.

Variable qualifies : gmap string fs_value -> bool.

Lemma on_snapshot_scheduled (doc : string) (data : gmap string fs_value)
      (running : bool) (changes : list change) (self : listener) :
  In (Scheduled doc data) (snd (on_snapshot qualifies running changes self)) ->
  running = true /\ ls_loop self = true /\ (doc ∉ ls_tracking self) /\
  qualifies data = true /\
  exists c, In c changes /\ added_or_modified (c_type c) = true /\
            c_document c = mkDocument doc (Some data).
Proof.
  revert self. induction changes as [|change rest IH]; intros self; simpl; [contradiction|].
  assert (Hrest : forall self',
             ls_loop self' = ls_loop self ->
             (forall x, x ∈ ls_tracking self -> x ∈ ls_tracking self') ->
             In (Scheduled doc data) (snd (on_snapshot qualifies running rest self')) ->
             running = true /\ ls_loop self = true /\ (doc ∉ ls_tracking self) /\
             qualifies data = true /\
             exists c, (change = c \/ In c rest) /\ added_or_modified (c_type c) = true /\
                       c_document c = mkDocument doc (Some data)).
  { intros self' Hloop Hsub H.
    destruct (IH self' H) as (Hr & Hl & Hn & Hq & c & Hc & Ht & Hd).
    split; [exact Hr|]. split; [congruence|]. split; [intros Hx; apply Hn, Hsub, Hx|].
    split; [exact Hq|]. exists c. auto. }
  destruct (c_document change) as [id [d|]] eqn:Hdoc; simpl;
    [|apply Hrest; auto].
  destruct (added_or_modified (c_type change)) eqn:Ht; simpl; [|apply Hrest; auto].
  destruct (qualifies d) eqn:Hq; simpl; [|apply Hrest; auto].
  destruct (bool_decide (id ∈ ls_tracking self)) eqn:Hin; simpl; [apply Hrest; auto|].
  apply bool_decide_eq_false in Hin.
  intros [H|H]; [discriminate|]. apply List.in_app_iff in H as [H|H].
  - destruct (ls_loop self) eqn:Hl; simpl in H; [|contradiction].
    destruct running; simpl in H; [|contradiction].
    destruct H as [H|[]]. injection H as <- <-.
    repeat split; auto. exists change. rewrite Hdoc. auto.
  - refine (Hrest (mkListener (ls_db self) (ls_unsubscribe self)
                              ({[id]} ∪ ls_tracking self) (ls_loop self)) eq_refl _ H).
    simpl. intros x Hx. apply elem_of_union. right. exact Hx.
Qed.

(** a change that passes the test leaves its id tracked *)
Lemma on_snapshot_tracks (running : bool) (changes : list change) (self : listener)
      (c : change) (data : gmap string fs_value) :
  In c changes -> added_or_modified (c_type c) = true ->
  doc_data (c_document c) = Some data -> qualifies data = true ->
  doc_id (c_document c) ∈ ls_tracking (fst (on_snapshot qualifies running changes self)).
Proof.
  intros Hin Ht Hd Hq. revert self.
  induction changes as [|change rest IH]; intros self; [contradiction|].
  destruct Hin as [->|Hin].
  - simpl. rewrite Hd, Ht, Hq. simpl.
    destruct (bool_decide (doc_id (c_document c) ∈ ls_tracking self)) eqn:Hb; simpl.
    + apply bool_decide_eq_true in Hb.
      apply (on_snapshot_tracked qualifies _ running rest self Hb).
    + apply (on_snapshot_tracked qualifies _ running rest). simpl.
      apply elem_of_union. left. apply elem_of_singleton. reflexivity.
  - simpl. destruct (doc_data (c_document change)); [|apply IH; exact Hin].
    destruct (_ && _); simpl; apply IH; exact Hin.
Qed.

Lemma on_snapshot_schedules (changes : list change) (self : listener)
      (c : change) (data : gmap string fs_value) :
  ls_loop self = true ->
  In c changes -> added_or_modified (c_type c) = true ->
  doc_data (c_document c) = Some data -> qualifies data = true ->
  doc_id (c_document c) ∉ ls_tracking self ->
  (1 <= scheduled_for (doc_id (c_document c))
          (snd (on_snapshot qualifies true changes self)))%nat.
Proof.
  intros Hloop Hin Ht Hd Hq. revert self Hloop.
  induction changes as [|change rest IH]; intros self Hloop Hnew; [contradiction|].
  simpl.
  assert (Hhead : forall id d out,
             id = doc_id (c_document c) ->
             (1 <= scheduled_for (doc_id (c_document c))
                    (InfoNewDocument id
                     :: (if ls_loop self && true then [Scheduled id d] else []) ++ out))%nat).
  { intros id d out ->. rewrite Hloop. simpl. unfold scheduled_for. simpl.
    rewrite String.eqb_refl. simpl. lia. }
  destruct Hin as [->|Hin].
  - rewrite Hd, Ht, Hq. simpl.
    apply (bool_decide_eq_false_2 (doc_id (c_document c) ∈ ls_tracking self)) in Hnew as Hb.
    rewrite Hb. simpl. apply Hhead. reflexivity.
  - destruct (doc_data (c_document change)) as [d|]; [|apply IH; auto].
    destruct (added_or_modified (c_type change) && qualifies d
              && negb (bool_decide (doc_id (c_document change) ∈ ls_tracking self)));
      [|apply IH; auto].
    simpl.
    destruct (String.eqb_spec (doc_id (c_document change)) (doc_id (c_document c)))
      as [Heq|Hne].
    + apply Hhead. exact Heq.
    + change (InfoNewDocument ?d :: ?l)%list with ([InfoNewDocument d] ++ l)%list.
      rewrite !scheduled_for_app.
      specialize (IH Hin (mkListener (ls_db self) (ls_unsubscribe self)
                                     ({[doc_id (c_document change)]} ∪ ls_tracking self)
                                     (ls_loop self)) Hloop).
      simpl in IH.
      assert (Hstill : doc_id (c_document c)
                       ∉ {[doc_id (c_document change)]} ∪ ls_tracking self).
      { intros Hx. apply elem_of_union in Hx as [Hx|Hx]; [|exact (Hnew Hx)].
        apply elem_of_singleton in Hx. congruence. }
      specialize (IH Hstill). lia.
Qed.

End Snapshots.

(** X16. Nothing is scheduled by mistake: a coroutine that
    [_on_snapshot] hands to the loop, in either listener, is for a
    document of the batch that was added or modified, has data that
    passes the listener's test (status "new", or published), and was not
    tracked when the batch arrived; and the loop was set and running. *)
Theorem scheduled_documents_were_new
        (which : feed) (running : bool) (changes : list change) (self : listener)
        (doc : string) (data : gmap string fs_value) :
  In (Scheduled doc data) (snd (feed_on_snapshot which running changes self)) ->
  running = true /\ ls_loop self = true /\ (doc ∉ ls_tracking self) /\
  feed_qualifies which data = true /\
  exists c, In c changes /\ added_or_modified (c_type c) = true /\
            c_document c = mkDocument doc (Some data).
Proof.
  destruct which; apply on_snapshot_scheduled.
Qed.

Lemma scheduled_documents_were_new_witness :
  let self := mkListener true true ∅ true in
  In (Scheduled "a1" new_application)
     (snd (feed_on_snapshot Applications true a1_modified self)) /\
  feed_qualifies Applications new_application = true.
Proof.
  intros self.
  assert (H : In (Scheduled "a1" new_application)
                 (snd (feed_on_snapshot Applications true a1_modified self))).
  { vm_compute. right. left. reflexivity. }
  split; [exact H|].
  apply (scheduled_documents_were_new Applications true a1_modified self
           "a1" new_application H).
Defined.

(** X17. A change that arrives while the event loop is not running is
    lost for good: the batch schedules nothing, yet the id of every
    document that passes the test is tracked, so no later batch, with
    the loop running or not, schedules that document. *)
Theorem change_seen_without_a_loop_is_never_notified
        (which : feed) (changes : list change) (self : listener)
        (c : change) (data : gmap string fs_value) :
  In c changes -> added_or_modified (c_type c) = true ->
  doc_data (c_document c) = Some data -> feed_qualifies which data = true ->
  let self1 := fst (feed_on_snapshot which false changes self) in
  (forall d x, ~ In (Scheduled d x) (snd (feed_on_snapshot which false changes self))) /\
  doc_id (c_document c) ∈ ls_tracking self1 /\
  forall running' changes',
    scheduled_for (doc_id (c_document c))
      (snd (feed_on_snapshot which running' changes' self1)) = 0%nat.
Proof.
  intros Hin Ht Hd Hq self1.
  assert (Htracked : doc_id (c_document c) ∈ ls_tracking self1).
  { unfold self1. destruct which; eapply on_snapshot_tracks; eassumption. }
  split; [|split; [exact Htracked|]].
  - intros d x H.
    destruct which; apply on_snapshot_scheduled in H as [H _]; discriminate.
  - intros running' changes'.
    destruct which; apply on_snapshot_tracked; exact Htracked.
Qed.

Lemma change_seen_without_a_loop_is_never_notified_witness :
  let self := mkListener true true ∅ true in
  let c := mkChange ADDED (mkDocument "a1" (Some new_application)) in
  let self1 := fst (feed_on_snapshot Applications false [c] self) in
  "a1" ∈ ls_tracking self1 /\
  scheduled_for "a1" (snd (feed_on_snapshot Applications true a1_modified self1)) = 0%nat.
Proof.
  intros self c self1.
  destruct (change_seen_without_a_loop_is_never_notified
              Applications [c] self c new_application)
    as (_ & Htracked & Hnever).
  - left. reflexivity.
  - reflexivity.
  - reflexivity.
  - reflexivity.
  - split; [exact Htracked | apply Hnever].
Defined.

(** X18. With the loop set and running, a batch in which a document
    that is not yet tracked passes the test schedules exactly one
    coroutine for it, however often the batch mentions the document. *)
Theorem untracked_document_is_scheduled_exactly_once
        (which : feed) (changes : list change) (self : listener)
        (c : change) (data : gmap string fs_value) :
  ls_loop self = true ->
  In c changes -> added_or_modified (c_type c) = true ->
  doc_data (c_document c) = Some data -> feed_qualifies which data = true ->
  doc_id (c_document c) ∉ ls_tracking self ->
  scheduled_for (doc_id (c_document c))
    (snd (feed_on_snapshot which true changes self)) = 1%nat.
Proof.
  intros Hloop Hin Ht Hd Hq Hnew.
  destruct which; simpl in *.
  - pose proof (on_snapshot_schedules status_is_new changes self c data
                  Hloop Hin Ht Hd Hq Hnew) as Hge.
    destruct (on_snapshot_at_most_once status_is_new (doc_id (c_document c))
                true changes self) as [Hle _].
    unfold ApplicationsListener._on_snapshot. lia.
  - pose proof (on_snapshot_schedules is_published changes self c data
                  Hloop Hin Ht Hd Hq Hnew) as Hge.
    destruct (on_snapshot_at_most_once is_published (doc_id (c_document c))
                true changes self) as [Hle _].
    unfold NewsListener._on_snapshot. lia.
Qed.

Lemma untracked_document_is_scheduled_exactly_once_witness :
  let self := mkListener true true ∅ true in
  let c := mkChange MODIFIED (mkDocument "n1" (Some published_article)) in
  scheduled_for "n1" (snd (feed_on_snapshot News true [c; c; c] self)) = 1%nat.
Proof.
  intros self c.
  apply (untracked_document_is_scheduled_exactly_once News [c; c; c] self c
           published_article).
  - reflexivity.
  - left. reflexivity.
  - reflexivity.
  - reflexivity.
  - reflexivity.
  - simpl. apply not_elem_of_empty.
Defined.


(** ** The announcement pass *)




(** ** The news pass *)

(** X20. How [_send_notification_to_all_users] reaches a recipient.  The
    pass never lets an exception out and does not write the database.
    When the content of the document is a text (or is missing), its
    transport calls are, recipient by recipient in the order of the
    query: with an image, the photo, followed by the text message
    exactly when the photo call raised; without an image, the text
    message alone.  When the content is not a text, rendering the
    notification raises before the loop and no call is made.  The pass
    ends with one log record: that there is nobody to notify, the two
    counters, or the error of the rendering. *)
Theorem news_goes_out_as_photo_then_as_text
        (transport : nat -> request -> bool) (news_id : string)
        (news_data : gmap string fs_value) (w : World) :
  let out := send_notification_to_all_users transport news_id news_data w in
  let recipients := select_news_recipients (w_db w) in
  fst out = Ok tt /\
  w_db (snd out) = w_db w /\
  exists groups,
    Forall2 (fun user_id g =>
               match dict_get news_data "content" (VStr "") with
               | VStr _ => news_attempts news_id (dict_get news_data "image" (VStr ""))
                                         user_id g
               | _ => g = []
               end) recipients groups /\
    sends (w_trace (snd out)) = (sends (w_trace w) ++ concat groups)%list /\
    log_of (w_trace (snd out))
    = (log_of (w_trace w)
       ++ [match recipients with
           | [] => LogNoNewsRecipients
           | _ =>
               match dict_get news_data "content" (VStr "") with
               | VStr _ => LogNewsDone (successes groups) (failures groups)
               | _ => LogNewsFailed TypeError
               end
           end])%list.
Proof.
  intros out recipients. subst out recipients.
  destruct (send_notification_to_all_users_attempts transport news_id news_data w)
    as (groups & w' & Heq & Hdb & Hall & Hsends & Hlog).
  rewrite Heq. simpl. split; [reflexivity|]. split; [exact Hdb|].
  exists groups.
  unfold news_pass_attempts, news_report, format_news_notification in *.
  destruct (dict_get news_data "content" (VStr "")); auto.
Qed.

Lemma no_attempts_count_as_failures (P : Z -> list (request * bool) -> Prop)
      (ids : list Z) (groups : list (list (request * bool))) :
  (forall id g, P id g -> g = []) ->
  Forall2 P ids groups ->
  concat groups = [] /\ successes groups = 0 /\ failures groups = Z.of_nat (length ids).
Proof.
  intros HP. induction 1 as [|id g ids groups Hg _ IH]; [auto|].
  destruct IH as (Hc & Hs & Hf). rewrite (HP id g Hg).
  rewrite successes_cons, failures_cons, Hs, Hf. simpl concat. rewrite Hc.
  simpl length. split; [reflexivity|]. split; [reflexivity|].
  unfold delivered. simpl. lia.
Qed.

(** X21. An image field that is neither a text nor falsy (a number, or
    [true]) silences the news: testing it raises inside the
    per-recipient [try], so the pass makes no transport call at all and
    counts every recipient as failed (when the content is not a text
    either, the pass has stopped before, with the error of the
    rendering in the log). *)
Theorem news_with_a_non_text_image_reaches_nobody
        (transport : nat -> request -> bool) (news_id : string)
        (news_data : gmap string fs_value) (w : World) (e : exn) :
  image_given (dict_get news_data "image" (VStr "")) = Raise e ->
  select_news_recipients (w_db w) <> [] ->
  let out := send_notification_to_all_users transport news_id news_data w in
  fst out = Ok tt /\
  sends (w_trace (snd out)) = sends (w_trace w) /\
  log_of (w_trace (snd out))
  = (log_of (w_trace w)
     ++ [match dict_get news_data "content" (VStr "") with
         | VStr _ => LogNewsDone 0 (Z.of_nat (length (select_news_recipients (w_db w))))
         | _ => LogNewsFailed TypeError
         end])%list.
Proof.
  intros Himage Hsome out. subst out.
  destruct (send_notification_to_all_users_attempts transport news_id news_data w)
    as (groups & w' & Heq & Hdb & Hall & Hsends & Hlog).
  rewrite Heq. simpl.
  destruct (no_attempts_count_as_failures _ _ _
              (fun id g (H : news_pass_attempts news_id news_data id g) =>
                 ltac:(unfold news_pass_attempts, news_attempts in H; rewrite Himage in H;
                       destruct (format_news_notification news_data); exact H))
              Hall) as (Hc & Hs & Hf).
  rewrite Hc, List.app_nil_r in Hsends.
  split; [reflexivity|]. split; [exact Hsends|].
  rewrite Hlog. unfold news_report, format_news_notification. rewrite Hs, Hf.
  destruct (select_news_recipients (w_db w)); [contradiction|].
  destruct (dict_get news_data "content" (VStr "")); reflexivity.
Qed.

Lemma news_with_a_non_text_image_reaches_nobody_witness :
  let w := fresh_world (mkDB five_users [] []) in
  let out := send_notification_to_all_users always_delivers "n1"
               {[ "published" := VBool true; "image" := VInt 1 ]} w in
  sends (w_trace (snd out)) = [] /\
  log_of (w_trace (snd out)) = [LogNewsDone 0 5].
Proof.
  intros w out.
  destruct (news_with_a_non_text_image_reaches_nobody always_delivers "n1"
              {[ "published" := VBool true; "image" := VInt 1 ]} w AttributeError)
    as (_ & Hs & Hl).
  - reflexivity.
  - discriminate.
  - split; [exact Hs | exact Hl].
Defined.


(** ** Names and keyboards *)

Lemma is_blank_chars (g : list (list ascii)) : is_blank g = true -> forallb is_char g = true.
Proof. apply forallb_weaken. intros ch H. apply andb_true_iff in H. tauto. Qed.

Lemma is_word_chars (w : list (list ascii)) : is_word w = true -> forallb is_char w = true.
Proof.
  destruct w as [|ch w]; [discriminate|]. unfold is_word.
  apply forallb_weaken. intros c H. apply andb_true_iff in H. tauto.
Qed.

Lemma split_whitespace_word (w rest : list (list ascii)) (word : list ascii) :
  is_word w = true ->
  split_whitespace (w ++ rest) word = split_whitespace rest (word ++ concat w).
Proof.
  destruct w as [|ch0 w0]; [discriminate|]. unfold is_word.
  generalize (ch0 :: w0). clear ch0 w0. intros w Hw. revert word.
  induction w as [|ch w IH]; intros word; simpl.
  - rewrite List.app_nil_r. reflexivity.
  - simpl in Hw. apply andb_true_iff in Hw as [Hch Hw].
    apply andb_true_iff in Hch as [_ Hch]. apply negb_true_iff in Hch.
    rewrite Hch, IH by exact Hw. rewrite <- List.app_assoc. reflexivity.
Qed.

Lemma split_whitespace_lead (g rest : list (list ascii)) :
  is_blank g = true -> split_whitespace (g ++ rest) [] = split_whitespace rest [].
Proof.
  induction g as [|ch g IH]; simpl; [reflexivity|].
  intros H. apply andb_true_iff in H as [Hch Hg].
  apply andb_true_iff in Hch as [_ Hch]. rewrite Hch. apply IH. exact Hg.
Qed.

Lemma split_whitespace_gap (g rest : list (list ascii)) (word : list ascii) :
  is_gap g = true -> word <> [] ->
  split_whitespace (g ++ rest) word = word :: split_whitespace rest [].
Proof.
  intros Hg Hword. destruct g as [|ch g]; [discriminate|].
  unfold is_gap in Hg. simpl in Hg. apply andb_true_iff in Hg as [Hch Hg].
  apply andb_true_iff in Hch as [_ Hch].
  simpl. rewrite Hch. destruct word; [contradiction|].
  f_equal. apply split_whitespace_lead. exact Hg.
Qed.

(** a word has bytes *)
Lemma word_has_bytes (w : list (list ascii)) : is_word w = true -> concat w <> [].
Proof.
  destruct w as [|ch w]; [discriminate|]. unfold is_word. simpl.
  intros H. apply andb_true_iff in H as [Hch _]. apply andb_true_iff in Hch as [Hch _].
  destruct ch; [discriminate | discriminate].
Qed.

Lemma split_whitespace_more (more : list (list (list ascii) * list (list ascii)))
      (trail : list (list ascii)) (word : list ascii) :
  forallb (fun gw => is_gap (fst gw) && is_word (snd gw)) more = true ->
  is_blank trail = true ->
  word <> [] ->
  split_whitespace (concat (map (fun gw => fst gw ++ snd gw) more) ++ trail)%list word
  = word :: map (fun gw => concat (snd gw)) more.
Proof.
  intros Hmore Htrail. revert word.
  induction more as [|[g w] more IH]; intros word Hword; simpl.
  - destruct trail as [|ch trail]; simpl.
    + destruct word; [contradiction | reflexivity].
    + simpl in Htrail. apply andb_true_iff in Htrail as [Hch Htrail].
      apply andb_true_iff in Hch as [_ Hch]. rewrite Hch.
      destruct word; [contradiction|]. f_equal.
      rewrite <- (List.app_nil_r trail). rewrite split_whitespace_lead by exact Htrail.
      reflexivity.
  - simpl in Hmore. apply andb_true_iff in Hmore as [Hgw Hmore].
    apply andb_true_iff in Hgw as [Hg Hw].
    rewrite <- !List.app_assoc.
    rewrite split_whitespace_gap by assumption. f_equal.
    rewrite split_whitespace_word by exact Hw. simpl.
    apply IH; [exact Hmore | apply word_has_bytes; exact Hw].
Qed.

(** [p.strip()] of a word is not empty *)
Lemma strip_word (w : list (list ascii)) : is_word w = true -> strip (chars (concat w)) <> [].
Proof.
  intros Hw. rewrite chars_concat by (apply is_word_chars; exact Hw).
  destruct w as [|ch0 w0]; [discriminate|]. unfold is_word in Hw.
  assert (Hl : forall l, forallb (fun ch => is_char ch && negb (isspace ch)) l = true ->
                         lstrip l = l).
  { intros l Hl. destruct l as [|ch l]; simpl; [reflexivity|].
    simpl in Hl. apply andb_true_iff in Hl as [Hch _].
    apply andb_true_iff in Hch as [_ Hch]. apply negb_true_iff in Hch.
    rewrite Hch. reflexivity. }
  unfold strip. rewrite (Hl _ Hw).
  rewrite Hl.
  - rewrite List.rev_involutive. discriminate.
  - rewrite forallb_reverse. exact Hw.
Qed.

(** X22. [is_valid_fio] counts words.  For a text made of words
    separated by white space, with any white space before and after,
    where white space is every character that [str.isspace] accepts (the
    no-break space and the other Unicode spaces among them),
    [str.split] returns the words and [is_valid_fio] answers whether
    there are at least three (every part that [split] returns is a
    word, so the filter of the comprehension drops nothing); for white
    space alone, and for no text at all, it answers no. *)
Theorem is_valid_fio_counts_the_words
        (lead first trail : list (list ascii))
        (more : list (list (list ascii) * list (list ascii))) :
  is_blank lead = true ->
  is_word first = true ->
  forallb (fun gw => is_gap (fst gw) && is_word (snd gw)) more = true ->
  is_blank trail = true ->
  let text := string_of_list_ascii (concat (spaced_words lead first more trail)) in
  split_whitespace (chars (list_ascii_of_string text)) []
  = concat first :: map (fun gw => concat (snd gw)) more /\
  is_valid_fio (Some text) = (2 <=? length more)%nat /\
  is_valid_fio (Some (string_of_list_ascii (concat (lead ++ trail)))) = false /\
  is_valid_fio None = false.
Proof.
  intros Hlead Hfirst Hmore Htrail text.
  assert (Hmore_chars :
            forallb is_char (concat (map (fun gw => (fst gw ++ snd gw)%list) more)) = true).
  { clear -Hmore. induction more as [|[g w] more IH]; simpl; [reflexivity|].
    simpl in Hmore. apply andb_true_iff in Hmore as [Hgw Hmore].
    apply andb_true_iff in Hgw as [Hg Hw].
    rewrite !List.forallb_app, (IH Hmore), (is_word_chars _ Hw).
    destruct g as [|ch g]; [discriminate|].
    rewrite (is_blank_chars _ Hg). reflexivity. }
  assert (Hchars : chars (list_ascii_of_string text) = spaced_words lead first more trail).
  { subst text. rewrite list_ascii_of_string_of_list_ascii. apply chars_concat.
    unfold spaced_words. rewrite !List.forallb_app.
    rewrite (is_blank_chars _ Hlead), (is_word_chars _ Hfirst), Hmore_chars,
      (is_blank_chars _ Htrail). reflexivity. }
  assert (Hsplit : split_whitespace (spaced_words lead first more trail) []
                   = concat first :: map (fun gw => concat (snd gw)) more).
  { unfold spaced_words. rewrite split_whitespace_lead by exact Hlead.
    rewrite split_whitespace_word by exact Hfirst. simpl.
    apply split_whitespace_more;
      [exact Hmore | exact Htrail | apply word_has_bytes; exact Hfirst]. }
  split; [rewrite Hchars; exact Hsplit|]. split; [|split; [|reflexivity]].
  - unfold is_valid_fio. simpl default. rewrite Hchars, Hsplit.
    assert (Hkeep : forall ws, forallb is_word ws = true ->
              List.filter (fun p => match strip (chars p) with [] => false | _ => true end)
                          (map (@concat ascii) ws) = map (@concat ascii) ws).
    { induction ws as [|w ws IH]; simpl; [reflexivity|].
      intros H. apply andb_true_iff in H as [Hw Hws].
      pose proof (strip_word w Hw) as Hs. destruct (strip (chars (concat w))); [contradiction|].
      rewrite (IH Hws). reflexivity. }
    replace (concat first :: map (fun gw => concat (snd gw)) more)
      with (map (@concat ascii) (first :: map snd more))
      by (simpl; rewrite List.map_map; reflexivity).
    rewrite Hkeep.
    + simpl length. rewrite !List.length_map. reflexivity.
    + simpl. rewrite Hfirst. simpl. clear -Hmore.
      induction more as [|[g w] more IH]; simpl; [reflexivity|].
      simpl in Hmore. apply andb_true_iff in Hmore as [Hgw Hmore].
      apply andb_true_iff in Hgw as [_ Hw]. rewrite Hw. exact (IH Hmore).
  - unfold is_valid_fio. simpl default. rewrite list_ascii_of_string_of_list_ascii.
    rewrite chars_concat
      by (rewrite List.forallb_app, (is_blank_chars _ Hlead), (is_blank_chars _ Htrail);
          reflexivity).
    rewrite split_whitespace_lead by exact Hlead.
    rewrite <- (List.app_nil_r trail), split_whitespace_lead by exact Htrail.
    reflexivity.
Qed.

Lemma is_valid_fio_counts_the_words_witness :
  is_valid_fio (Some (" Іваненко" ++ no_break_space ++ "Іван" ++ thin_space ++ "Іванович "))
  = true /\
  is_valid_fio (Some ("Іваненко" ++ no_break_space ++ "Іван")) = false.
Proof.
  split.
  - destruct (is_valid_fio_counts_the_words
                (chars (list_ascii_of_string " "))
                (chars (list_ascii_of_string "Іваненко"))
                (chars (list_ascii_of_string " "))
                [(chars (list_ascii_of_string no_break_space),
                  chars (list_ascii_of_string "Іван"));
                 (chars (list_ascii_of_string thin_space),
                  chars (list_ascii_of_string "Іванович"))])
      as (_ & H & _); [reflexivity | reflexivity | reflexivity | reflexivity |].
    exact H.
  - reflexivity.
Defined.

Lemma kb_rows_pairs (subjects : list string) :
  forall rows,
    kb_rows subjects rows [] = (rows ++ pairs_of subjects)%list /\
    forall a, kb_rows subjects rows [a] = (rows ++ pairs_of (a :: subjects))%list.
Proof.
  induction subjects as [|s rest IH]; intros rows.
  - simpl. rewrite List.app_nil_r. auto.
  - split.
    + simpl. apply IH.
    + intros a. simpl. rewrite (proj1 (IH _)), <- List.app_assoc. reflexivity.
Qed.

Lemma pairs_of_shape (n : nat) :
  forall texts, (length texts <= n)%nat ->
    concat (pairs_of texts) = texts /\
    Forall (fun r => (1 <= length r <= 2)%nat) (pairs_of texts) /\
    Forall (fun r => length r = 2%nat) (removelast (pairs_of texts)) /\
    (2 * length (pairs_of texts) = length texts + length texts mod 2)%nat.
Proof.
  induction n as [|n IH]; intros texts Hn.
  - destruct texts; [|simpl in Hn; lia]. simpl. repeat split; constructor.
  - destruct texts as [|a [|b rest]].
    + simpl. repeat split; constructor.
    + simpl. repeat split; repeat constructor.
    + destruct (IH rest) as (Hc & Hr & Hfull & Hlen); [simpl in Hn; lia|].
      change (pairs_of (a :: b :: rest)) with ([a; b] :: pairs_of rest).
      split; [simpl; rewrite Hc; reflexivity|].
      split; [constructor; [simpl; lia | exact Hr]|].
      split.
      * destruct (pairs_of rest) eqn:Hp; [constructor|].
        change (removelast ([a; b] :: l :: l0)) with ([a; b] :: removelast (l :: l0)).
        constructor; [reflexivity | exact Hfull].
      * simpl length.
        replace (S (S (length rest))) with (length rest + 1 * 2)%nat by lia.
        rewrite Nat.Div0.mod_add. lia.
Qed.

(** X23. The subject keyboard: the loop of [kb_subjects] lays the button
    texts out in rows of two, in order and each exactly once; only the
    last row can hold a single button, and it does exactly when the
    number of texts is odd. *)
Theorem kb_rows_lays_out_pairs (subjects : list string) :
  kb_rows subjects [] [] = pairs_of subjects /\
  concat (kb_rows subjects [] []) = subjects /\
  Forall (fun r => (1 <= length r <= 2)%nat) (kb_rows subjects [] []) /\
  Forall (fun r => length r = 2%nat) (removelast (kb_rows subjects [] [])) /\
  (2 * length (kb_rows subjects [] []) = length subjects + length subjects mod 2)%nat.
Proof.
  rewrite (proj1 (kb_rows_pairs subjects [])). simpl.
  split; [reflexivity|]. apply (pairs_of_shape (length subjects)). lia.
Qed.

(** ** The message handlers *)

Lemma existsb_eqb_In (x : string) (l : list string) :
  existsb (String.eqb x) l = true <-> In x l.
Proof.
  rewrite List.existsb_exists. split.
  - intros (y & Hy & Heq). apply String.eqb_eq in Heq. subst y. exact Hy.
  - intros Hin. exists x. split; [exact Hin | apply String.eqb_refl].
Qed.

Lemma answers_snoc (c : Chat) (d : DB) (wl : gset string) (st : option fsm_state)
      (data : fsm_data) (n m : nat) (r : reply) (ok : bool) (out : list chat_event) :
  answers (mkChat d wl st data n m (out ++ [Answered r ok]))
  = (answers (mkChat d wl st data n m out) ++ [r])%list.
Proof. unfold answers. simpl. rewrite omap_app. reflexivity. Qed.

Lemma answers_out (d d' : DB) (wl wl' : gset string) (st st' : option fsm_state)
      (data data' : fsm_data) (n n' m m' : nat) (out : list chat_event) :
  answers (mkChat d wl st data n m out) = answers (mkChat d' wl' st' data' n' m' out).
Proof. reflexivity. Qed.

Lemma subjects_have_teachers (subject : string) :
  In subject SUBJECTS ->
  teachers_of subject <> [] /\ format_teachers subject <> no_teachers_text.
Proof.
  intros Hin.
  assert (Hall : forallb (fun s => match teachers_of s with [] => false | _ => true end)
                         SUBJECTS = true) by (vm_compute; reflexivity).
  pose proof (proj1 (List.forallb_forall _ _) Hall subject Hin) as Hs.
  cbv beta in Hs. unfold format_teachers.
  destruct (teachers_of subject) as [|t items]; [discriminate|].
  split; [discriminate|].
  unfold no_teachers_text. destruct items; simpl; discriminate.
Qed.

(** X24. The subject list.  In the state [Teachers.waiting_for_subject],
    when the answers go through: a text that is one of [SUBJECTS] is
    answered with the teachers of that subject and the main menu, and
    the state is cleared; every subject of the keyboard has teachers in
    [TEACHERS], so the text is never the one for a subject without
    information.  Any other text is answered with the request to use
    the buttons and the state stays.  The tables are not written. *)
Theorem subject_button_shows_its_teachers
        (delivers : nat -> reply -> bool) (published_news : nat -> list news_item)
        (message : message) (c : Chat) (subject : string) :
  c_state c = Some Teachers_waiting_for_subject ->
  m_text message = Some subject ->
  (forall n r, delivers n r = true) ->
  let c' := snd (handle_message delivers published_news message c) in
  c_db c' = c_db c /\
  (In subject SUBJECTS ->
   answers c' = (answers c ++ [TeachersText (format_teachers subject); MainMenu])%list /\
   c_state c' = None /\
   teachers_of subject <> [] /\ format_teachers subject <> no_teachers_text) /\
  (~ In subject SUBJECTS ->
   answers c' = (answers c ++ [ChooseSubjectButton])%list /\
   c_state c' = Some Teachers_waiting_for_subject).
Proof.
  intros Hstate Htext Hok c'. subst c'.
  unfold handle_message, hbind, get_state. cbn -[SUBJECTS format_teachers].
  rewrite Hstate, Htext.
  destruct (existsb (String.eqb subject) SUBJECTS) eqn:Hin.
  - apply existsb_eqb_In in Hin.
    unfold show_main_menu, answer, state_clear. simpl. rewrite !Hok. simpl.
    split; [reflexivity|]. split; [|intros Hno; contradiction].
    intros _. split.
    + unfold answers. simpl. rewrite !omap_app, <- List.app_assoc. reflexivity.
    + split; [reflexivity | apply subjects_have_teachers; exact Hin].
  - assert (Hno : ~ In subject SUBJECTS).
    { intros Hyes. apply existsb_eqb_In in Hyes. congruence. }
    unfold answer. simpl. rewrite Hok. simpl.
    split; [reflexivity|]. split; [intros Hyes; contradiction|].
    intros _. split; [|exact Hstate].
    unfold answers. simpl. rewrite omap_app. reflexivity.
Qed.

Lemma subject_button_shows_its_teachers_witness :
  let c := mkChat (mkDB [] [] []) ∅ (Some Teachers_waiting_for_subject) no_data 0 0 [] in
  let c' := snd (handle_message (fun _ _ => true) (fun _ => [])
                   (mkMessage 1001 (Some "Хімія") None) c) in
  answers c' = [TeachersText (format_teachers "Хімія"); MainMenu] /\
  format_teachers "Хімія" <> no_teachers_text.
Proof.
  intros c c'.
  destruct (subject_button_shows_its_teachers (fun _ _ => true) (fun _ => [])
              (mkMessage 1001 (Some "Хімія") None) c "Хімія")
    as (_ & Hyes & _).
  - reflexivity.
  - reflexivity.
  - reflexivity.
  - destruct Hyes as (Ha & _ & _ & Hf).
    + apply existsb_eqb_In. vm_compute. reflexivity.
    + split; [exact Ha | exact Hf].
Defined.

(** X25. The timetable view.  In the state [Form.waiting_for_day], when
    the answers go through: for one of the five school days the bot
    answers with exactly the lessons of the chosen class on that day, in
    the order of their lesson numbers (or that the timetable of the day
    is not there yet), then with the main menu; it clears the state and
    the data and writes no table.  Any other text but "Назад", Saturday
    and Sunday among them, is turned down and the state stays. *)
Theorem timetable_view_lists_the_day
        (delivers : nat -> reply -> bool) (published_news : nat -> list news_item)
        (message : message) (c : Chat) (day : string) :
  c_state c = Some Form_waiting_for_day ->
  m_text message = Some day ->
  slots_unique (c_db c) ->
  (forall n r, delivers n r = true) ->
  let c' := snd (handle_message delivers published_news message c) in
  let lessons := timetable (c_db c) (d_class_name (c_data c)) day in
  c_db c' = c_db c /\
  (In day school_days ->
   c_state c' = None /\ c_data c' = no_data /\
   answers c'
   = (answers c
      ++ [match lessons with
          | [] => NoTimetableYet
          | _ => Timetable (d_class_name (c_data c)) day lessons
          end; MainMenu])%list /\
   in_lesson_order lessons /\
   (forall l, In l lessons
              <-> exists class_name,
                    d_class_name (c_data c) = Some class_name /\
                    In l (schedule (c_db c)) /\
                    l_class_name l = class_name /\ l_day_name l = day)) /\
  (~ In day school_days -> day <> "Назад" ->
   c_state c' = Some Form_waiting_for_day /\ c_data c' = c_data c /\
   answers c' = (answers c ++ [ChooseDayText])%list).
Proof.
  intros Hstate Htext Hslots Hok c' lessons. subst c'.
  unfold handle_message, hbind, get_state. cbn -[school_days timetable].
  rewrite Hstate, Htext. cbn -[school_days timetable].
  destruct (String.eqb_spec day "Назад") as [Hback|Hback].
  - subst day. unfold answer, set_state. cbn. rewrite !Hok. cbn.
    split; [reflexivity|]. split; [|intros _ Hne; contradiction].
    intros Hin. exfalso.
    repeat (destruct Hin as [Hin|Hin]; [discriminate|]). exact Hin.
  - destruct (existsb (String.eqb day) school_days) eqn:Hday.
    + apply existsb_eqb_In in Hday.
      unfold get_data, get_tables, show_main_menu, state_clear. cbn -[timetable].
      fold lessons.
      assert (Hout : forall r,
                 (let '(o, c1) := answer delivers r c in
                  match o with
                  | Returned _ =>
                      answer delivers MainMenu
                        (mkChat (c_db c1) (c_welcomed c1) None no_data
                                (c_answers c1) (c_fetches c1) (c_out c1))
                  | Raised e => (Raised e, c1)
                  end)
                 = (Returned tt,
                    mkChat (c_db c) (c_welcomed c) None no_data
                           (S (S (c_answers c))) (c_fetches c)
                           ((c_out c ++ [Answered r true]) ++ [Answered MainMenu true]))).
      { intros r. unfold answer. cbn. rewrite !Hok. reflexivity. }
      split; [destruct lessons; rewrite Hout; reflexivity|].
      split; [|intros Hno; contradiction].
      intros _.
      split; [destruct lessons; rewrite Hout; reflexivity|].
      split; [destruct lessons; rewrite Hout; reflexivity|].
      split; [destruct lessons; rewrite Hout; unfold answers; cbn;
              rewrite !omap_app, <- List.app_assoc; reflexivity|].
      unfold lessons, timetable.
      destruct (d_class_name (c_data c)) as [class_name|].
      * split; [apply select_schedule_in_order; exact Hslots|].
        intros l. rewrite In_select_schedule. split.
        -- intros (H1 & H2 & H3). exists class_name. auto.
        -- intros (cn & Hcn & H1 & H2 & H3). injection Hcn as <-. auto.
      * split; [constructor|]. intros l. split; [contradiction|].
        intros (cn & Hcn & _). discriminate.
    + assert (Hno : ~ In day school_days).
      { intros Hyes. apply existsb_eqb_In in Hyes. congruence. }
      unfold answer. cbn. rewrite Hok. cbn.
      split; [reflexivity|]. split; [intros Hyes; contradiction|].
      intros _ _. split; [exact Hstate|]. split; [reflexivity|].
      unfold answers. cbn. rewrite omap_app. reflexivity.
Qed.

(** splits a handler along its tests, data lookups and transport
    outcomes *)
Ltac crunch :=
  repeat (cbn -[SUBJECTS class_names school_days format_teachers is_valid_fio timetable
                normalize_phone py_strip db_bind_tg_to_phone db_upsert_user
                db_toggle_events_notifications db_get_user db_get_user_by_tg
                db_get_events_notifications db_is_welcomed db_set_welcomed text_is text_in
                registration_data_complete send_news firstn] in *;
          match goal with
          | |- context [match d_phone ?d with _ => _ end] => destruct (d_phone d) eqn:?
          | |- context [match d_tg_id ?d with _ => _ end] => destruct (d_tg_id d) eqn:?
          | |- context [match d_fio ?d with _ => _ end] => destruct (d_fio d) eqn:?
          | |- context [match d_class_name ?d with _ => _ end] =>
              destruct (d_class_name d) eqn:?
          | |- context [match db_bind_tg_to_phone ?d ?t ?p with _ => _ end] =>
              destruct (db_bind_tg_to_phone d t p) eqn:?
          | |- context [match db_get_user ?d ?p with _ => _ end] =>
              destruct (db_get_user d p) eqn:?
          | |- context [match db_get_user_by_tg ?d ?t with _ => _ end] =>
              destruct (db_get_user_by_tg d t) eqn:?
          | |- context [match m_text ?m with _ => _ end] => destruct (m_text m) eqn:?
          | |- context [match m_contact ?m with _ => _ end] => destruct (m_contact m) eqn:?
          | |- context [if ?b then _ else _] => destruct b eqn:?
          | |- context [match ?x with _ => _ end] => destruct x eqn:?
          end).

Ltac handlers_unfold :=
  unfold handle_message, menu, start, dispatch, get_state, get_data, data_item, upsert_user,
    bind_tg_to_phone, welcome_once, get_tables, set_tables, state_clear, show_main_menu,
    answer, set_state, update_data, get_latest_news, hbind, hret, hraise.

Ltac inv_leaf :=
  split; [discriminate
         | unfold registration_data_complete in *;
           cbn -[is_valid_fio class_names In] in *;
           repeat match goal with
                  | H : c_state _ = _ |- _ => rewrite H in *
                  end;
           cbn -[is_valid_fio class_names In] in *;
           repeat match goal with
                  | H : _ /\ _ |- _ => destruct H
                  | H : exists _, _ |- _ => destruct H
                  end;
           repeat split; eauto; try congruence;
           try (eexists; split; [reflexivity|]);
           try (apply existsb_eqb_In; assumption);
           try (apply negb_false_iff; assumption)].

Section Conversation.

Variable delivers : nat -> reply -> bool.
Variable published_news : nat -> list news_item.

Lemma image_given_raises (image_url : fs_value) (e : exn) :
  image_given image_url = Raise e -> e = AttributeError.
Proof.
  destruct image_url as [|b|z|s]; simpl; try discriminate.
  - destruct b; [intros H; injection H; auto | discriminate].
  - destruct (negb (z =? 0)); [intros H; injection H; auto | discriminate].
Qed.

Lemma send_news_keeps (news_list : list news_item) (c : Chat) :
  fst (send_news delivers news_list c) <> Raised (Python KeyError) /\
  c_state (snd (send_news delivers news_list c)) = c_state c /\
  c_data (snd (send_news delivers news_list c)) = c_data c /\
  c_db (snd (send_news delivers news_list c)) = c_db c.
Proof.
  revert c. induction news_list as [|news rest IH]; intros c; [cbn; auto|].
  cbn [send_news]. unfold hbind, htry, answer, pause, hret, hraise, format_news_post.
  destruct (default (VStr "") (n_content news));
    try (cbn; repeat split; try reflexivity; discriminate).
  destruct (image_given (default (VStr "") (n_image news))) as [[|]|e] eqn:Himage; cbn.
  - destruct (delivers (c_answers c) (NewsPhoto (n_id news))); cbn.
    + match goal with
      | |- context [send_news delivers rest ?c1] => destruct (IH c1) as (H1 & H2 & H3 & H4)
      end. auto.
    + destruct (delivers (S (c_answers c)) (NewsText (n_id news))); cbn.
      * match goal with
        | |- context [send_news delivers rest ?c1] => destruct (IH c1) as (H1 & H2 & H3 & H4)
        end. auto.
      * repeat split; try reflexivity; discriminate.
  - destruct (delivers (c_answers c) (NewsText (n_id news))); cbn.
    + match goal with
      | |- context [send_news delivers rest ?c1] => destruct (IH c1) as (H1 & H2 & H3 & H4)
      end. auto.
    + repeat split; try reflexivity; discriminate.
  - rewrite (image_given_raises _ _ Himage). repeat split; try reflexivity; discriminate.
Qed.

Lemma registration_data_same (c c' : Chat) :
  c_state c' = c_state c -> c_data c' = c_data c ->
  registration_data_complete c -> registration_data_complete c'.
Proof.
  unfold registration_data_complete. intros -> ->. auto.
Qed.

Lemma dispatch_keeps_registration_data (i : incoming) (c : Chat) :
  registration_data_complete c ->
  fst (dispatch delivers published_news i c) <> Raised (Python KeyError) /\
  registration_data_complete (snd (dispatch delivers published_news i c)).
Proof.
  intros Hc. destruct i as [message|message].
  - handlers_unfold. crunch; inv_leaf.
  - destruct (c_state c) as [[]|] eqn:Hst.
    all: handlers_unfold; cbn; rewrite Hst; handlers_unfold; crunch; try inv_leaf.
    all: try (exfalso; unfold registration_data_complete in Hc; rewrite Hst in Hc;
              cbn -[is_valid_fio class_names In] in Hc;
              repeat match goal with
                     | H : _ /\ _ |- _ => destruct H
                     | H : exists _, _ |- _ => destruct H
                     end;
              congruence).
    all: match goal with
         | |- context [send_news delivers ?l ?c1] =>
             destruct (send_news_keeps l c1) as (H1 & H2 & H3 & H4);
             split; [exact H1|];
             apply (registration_data_same c); [rewrite H2; reflexivity
                                              | rewrite H3; reflexivity | exact Hc]
         end.
Qed.

End Conversation.

(** X26. The registration dialogue never misses its data.  Whatever
    messages arrive, in whatever order and with whatever answers
    failing, the FSM data holds what the state needs: the phone and the
    Telegram id once the contact was taken, a name of at least three
    words once the name was accepted, a class of the school once the
    class was chosen.  So no [data[...]] of [handle_message] raises
    [KeyError], at any point of any conversation. *)
Theorem registration_never_misses_its_data
        (delivers : nat -> reply -> bool) (published_news : nat -> list news_item)
        (messages : list incoming) (c : Chat) :
  registration_data_complete c ->
  registration_data_complete (converse delivers published_news messages c) /\
  forall next,
    fst (dispatch delivers published_news next
           (converse delivers published_news messages c))
    <> Raised (Python KeyError).
Proof.
  revert c. induction messages as [|i rest IH]; intros c Hc.
  - split; [exact Hc|]. intros next.
    apply dispatch_keeps_registration_data. exact Hc.
  - simpl. apply IH. apply dispatch_keeps_registration_data. exact Hc.
Qed.

Lemma registration_never_misses_its_data_witness :
  let c := mkChat (mkDB [] [] []) ∅ None no_data 0 0 [] in
  let contact := mkMessage 1001 None (Some "+380 (50) 123-45-67") in
  let text s := mkMessage 1001 (Some s) None in
  let c' := converse (fun _ _ => true) (fun _ => [])
              [StartCommand (text "/start"); Other contact;
               Other (text "Ivanenko Ivan Ivanovych"); Other (text "Так")] c in
  c_state c' = Some Reg_choose_class /\
  registration_data_complete c'.
Proof.
  intros c contact text c'. split; [reflexivity|].
  apply (registration_never_misses_its_data (fun _ _ => true) (fun _ => [])
           [StartCommand (text "/start"); Other contact;
            Other (text "Ivanenko Ivan Ivanovych"); Other (text "Так")] c).
  exact I.
Defined.

(** *** Registration *)

Lemma find_none_existsb {A} (f : A -> bool) (l : list A) :
  List.find f l = None -> existsb f l = false.
Proof.
  induction l as [|x l IH]; simpl; [reflexivity|].
  destruct (f x); [discriminate | exact IH].
Qed.





(** *** What the handlers write *)

Lemma text_is_eq (text : option string) (s : string) :
  text_is text s = true <-> text = Some s.
Proof.
  destruct text as [t|]; simpl; [|split; discriminate].
  rewrite String.eqb_eq. split; congruence.
Qed.

Lemma db_bind_tg_to_phone_tables (d d' : DB) (tg_id : Z) (phone_norm : string) :
  db_bind_tg_to_phone d tg_id phone_norm = Some d' ->
  schedule d' = schedule d /\ notifications_sent d' = notifications_sent d.
Proof.
  unfold db_bind_tg_to_phone.
  destruct (List.filter _ (users d)) as [|u [|u' l]]; [| |discriminate].
  - intros H. injection H as <-. auto.
  - destruct (existsb _ _); [discriminate|]. intros H. injection H as <-. auto.
Qed.

Lemma db_upsert_user_tables (d : DB) (phone_norm fio class_name role : string) :
  schedule (db_upsert_user d phone_norm fio class_name role) = schedule d /\
  notifications_sent (db_upsert_user d phone_norm fio class_name role)
  = notifications_sent d.
Proof. unfold db_upsert_user. destruct (db_get_user d phone_norm); auto. Qed.

(** X28. Where the handlers write the tables.  [start] writes none.
    [handle_message] never touches [schedule] or [notifications_sent],
    and it changes [users] in three places only: on "Так" in the states
    [Reg.confirm_found_fio] and [Reg.confirm_class], and on the text
    "Уведомлення про події" in the state [Settings.main_menu]. *)
Theorem handle_message_writes_users_in_three_places
        (delivers : nat -> reply -> bool) (published_news : nat -> list news_item)
        (message : message) (c : Chat) :
  let c' := snd (handle_message delivers published_news message c) in
  c_db (snd (start delivers message c)) = c_db c /\
  schedule (c_db c') = schedule (c_db c) /\
  notifications_sent (c_db c') = notifications_sent (c_db c) /\
  (c_db c' <> c_db c ->
   m_text message = Some "Так"
   /\ (c_state c = Some Reg_confirm_found_fio \/ c_state c = Some Reg_confirm_class)
   \/ m_text message = Some "Уведомлення про події"
      /\ c_state c = Some Settings_main_menu).
Proof.
  intros c'. subst c'. split.
  - unfold start, hbind, state_clear, get_tables, show_main_menu, answer, set_state. cbn.
    destruct (db_get_user_by_tg (c_db c) (m_from_user message)); cbn;
      repeat match goal with
             | |- context [if ?b then _ else _] => destruct b; cbn
             end; reflexivity.
  - destruct (c_state c) as [[]|] eqn:Hst.
    all: handlers_unfold; cbn; rewrite Hst; handlers_unfold; crunch.
    all: cbn -[db_bind_tg_to_phone db_upsert_user db_toggle_events_notifications send_news
               firstn text_is text_in].
    all: try (repeat split; try reflexivity; intros Hne; exfalso; apply Hne; reflexivity).
    all: try match goal with
           | |- context [send_news ?dl ?l ?c1] =>
               destruct (send_news_keeps dl l c1) as (H1 & H2 & H3 & H4);
               rewrite H4; repeat split; try reflexivity;
               intros Hne; exfalso; apply Hne; reflexivity
           end.
    all: repeat match goal with
           | Hb : db_bind_tg_to_phone _ _ _ = Some _ |- _ =>
               apply db_bind_tg_to_phone_tables in Hb; destruct Hb as [? ?]
           | Ht : text_is _ _ = true |- _ => apply text_is_eq in Ht
           end.
    all: repeat match goal with
           | Hn : negb (text_is _ _ || false) = false |- _ =>
               apply negb_false_iff, orb_true_iff in Hn;
               destruct Hn as [Hn|Hn]; [apply text_is_eq in Hn | discriminate]
           end.
    all: rewrite ?(proj1 (db_upsert_user_tables _ _ _ _ _)),
           ?(proj2 (db_upsert_user_tables _ _ _ _ _)) in *.
    all: unfold db_toggle_events_notifications, update_users; cbn [schedule notifications_sent].
    all: split; [|split];
           [congruence | congruence
           | intros _; first [left; split; [assumption | auto]
                             | right; split; [assumption | reflexivity]]].
Qed.

(** *** The settings *)

Lemma text_in_false (text : option string) (options : list string) :
  (forall w, In w options -> text <> Some w) -> text_in text options = false.
Proof.
  intros Hno. unfold text_in.
  destruct (existsb (text_is text) options) eqn:He; [|reflexivity].
  apply List.existsb_exists in He as (w & Hw & Ht).
  apply text_is_eq in Ht. exfalso. exact (Hno w Hw Ht).
Qed.

(** X29. Text typed in the settings.  The block of [handle_message] for
    the state [Settings.main_menu] stands after the answer to unknown
    text, so in that state every text but the five menu words and
    "Скасувати" is first answered with "Я не знаю, що з цим робити" and
    only then handled: "Назад" clears the state and shows the menu, the
    text of the notifications button switches the flag of the bound
    account and reports it.  If that first answer cannot be delivered,
    nothing else happens: the state stays and no table is written. *)
Theorem settings_texts_are_answered_with_dont_know
        (delivers : nat -> reply -> bool) (published_news : nat -> list news_item)
        (message : message) (c : Chat) :
  c_state c = Some Settings_main_menu ->
  (forall w, In w ["Скасувати"; "Предмети"; "Розклад"; "Параметри"; "Події"] ->
             m_text message <> Some w) ->
  let c' := snd (handle_message delivers published_news message c) in
  let heard := delivers (c_answers c) DontKnow in
  exists rest,
    c_out c' = (c_out c ++ Answered DontKnow heard :: rest)%list /\
    (heard = false ->
     rest = [] /\ c_state c' = Some Settings_main_menu /\ c_db c' = c_db c) /\
    (heard = true -> m_text message = Some "Назад" ->
     rest = [Answered MainMenu (delivers (S (c_answers c)) MainMenu)] /\
     c_state c' = None /\ c_db c' = c_db c) /\
    (heard = true -> m_text message = Some "Уведомлення про події" ->
     forall user, db_get_user_by_tg (c_db c) (m_from_user message) = Some user ->
       c_db c' = db_toggle_events_notifications (c_db c) (u_phone user) /\
       exists tail,
         rest = Answered (NotificationsNow
                            (db_get_events_notifications (c_db c') (u_phone user)))
                         (delivers (S (c_answers c))
                            (NotificationsNow
                               (db_get_events_notifications (c_db c') (u_phone user))))
                :: tail).
Proof.
  intros Hst Hmenu c' heard. subst c' heard.
  assert (Hno : forall w, In w ["Скасувати"; "Предмети"; "Розклад"; "Параметри"; "Події"] ->
                          text_is (m_text message) w = false).
  { intros w Hw. destruct (text_is (m_text message) w) eqn:Ht; [|reflexivity].
    apply text_is_eq in Ht. exfalso. exact (Hmenu w Hw Ht). }
  unfold handle_message, hbind, get_state. cbn -[text_is]. rewrite Hst.
  unfold menu. cbn -[text_is].
  rewrite !Hno by (simpl; tauto).
  unfold hbind, answer, state_clear, show_main_menu, get_tables, set_tables.
  cbn -[text_is db_toggle_events_notifications db_get_events_notifications].
  assert (Hassoc : forall (a : list chat_event) x y, ((a ++ [x]) ++ y = a ++ x :: y)%list).
  { intros a x y. rewrite <- List.app_assoc. reflexivity. }
  destruct (delivers (c_answers c) DontKnow) eqn:Hheard;
    cbn -[text_is db_toggle_events_notifications db_get_events_notifications].
  - rewrite Hst.
    destruct (text_is (m_text message) "Назад") eqn:Hback.
    + apply text_is_eq in Hback. unfold answer. cbn.
      eexists. split; [rewrite ?Hassoc; reflexivity|].
      split; [discriminate|]. split; [auto|].
      intros _ Htoggle. rewrite Hback in Htoggle. discriminate.
    + assert (Hnot : m_text message <> Some "Назад").
      { intros Heq. apply text_is_eq in Heq. congruence. }
      destruct (text_is (m_text message) "Уведомлення про події") eqn:Htoggle.
      * cbn -[db_toggle_events_notifications db_get_events_notifications].
        destruct (db_get_user_by_tg (c_db c) (m_from_user message)) as [user|] eqn:Huser;
          cbn -[db_toggle_events_notifications db_get_events_notifications].
        -- unfold answer.
           destruct (delivers (S (c_answers c))
                       (NotificationsNow
                          (db_get_events_notifications
                             (db_toggle_events_notifications (c_db c) (u_phone user))
                             (u_phone user)))) eqn:Hn;
             cbn -[db_toggle_events_notifications db_get_events_notifications];
             rewrite ?Hn;
             (eexists; split; [rewrite ?Hassoc; reflexivity|]);
             (split; [discriminate|]); (split; [intros _ Heq; contradiction|]);
             intros _ _ user' Huser'; injection Huser' as <-;
             (split; [reflexivity|]); eexists; rewrite ?Hn; reflexivity.
        -- exists []. split; [reflexivity|].
           split; [discriminate|]. split; [intros _ Heq; contradiction|].
           intros _ _ user' Huser'. discriminate.
      * assert (Hnot' : m_text message <> Some "Уведомлення про події").
        { intros Heq. apply text_is_eq in Heq. congruence. }
        unfold answer. cbn.
        eexists. split; [rewrite ?Hassoc; reflexivity|].
        split; [discriminate|]. split; intros _ Heq; contradiction.
  - exists []. split; [reflexivity|].
    split; [intros _; rewrite Hst; auto|]. split; discriminate.
Qed.

Lemma settings_texts_are_answered_with_dont_know_witness :
  let c := mkChat (mkDB [pupil] [] []) ∅ (Some Settings_main_menu) no_data 0 0 [] in
  let c' := snd (handle_message (fun _ _ => true) (fun _ => [])
                   (mkMessage 1001 (Some "Уведомлення про події") None) c) in
  answers c' = [DontKnow; NotificationsNow false; MainMenu] /\
  c_db c' = db_toggle_events_notifications (c_db c) "380501234567".
Proof.
  intros c c'. split; [reflexivity|].
  destruct (settings_texts_are_answered_with_dont_know (fun _ _ => true) (fun _ => [])
              (mkMessage 1001 (Some "Уведомлення про події") None) c)
    as (rest & _ & _ & _ & Htoggle).
  - reflexivity.
  - intros w Hw Heq. simpl in Hw.
    repeat (destruct Hw as [<-|Hw]; [discriminate|]). exact Hw.
  - destruct (Htoggle eq_refl eq_refl pupil eq_refl) as [Hdb _]. exact Hdb.
Defined.

Lemma timetable_view_lists_the_day_witness :
  let d := mkDB []
             [mkLesson "10-А" "Понеділок" 2 "Фізика" "Хомчак В.М." "09:25" "10:10";
              mkLesson "10-А" "Понеділок" 1 "Алгебра" "Білик Ю.П." "08:30" "09:15";
              mkLesson "10-Б" "Понеділок" 1 "Хімія" "Нечитайло М.М." "08:30" "09:15"] [] in
  let c := mkChat d ∅ (Some Form_waiting_for_day)
                  (mkData None None None None (Some "10-А")) 0 0 [] in
  let c' := snd (handle_message (fun _ _ => true) (fun _ => [])
                   (mkMessage 1001 (Some "Понеділок") None) c) in
  c_state c' = None /\
  map l_subject (timetable d (Some "10-А") "Понеділок") = ["Алгебра"; "Фізика"] /\
  in_lesson_order (timetable d (Some "10-А") "Понеділок").
Proof.
  intros d c c'.
  destruct (timetable_view_lists_the_day (fun _ _ => true) (fun _ => [])
              (mkMessage 1001 (Some "Понеділок") None) c "Понеділок")
    as (_ & Hday & _).
  - reflexivity.
  - reflexivity.
  - unfold slots_unique, c, d. simpl.
    apply (bool_decide_unpack
             (NoDup [("10-А", "Понеділок", 2); ("10-А", "Понеділок", 1);
                     ("10-Б", "Понеділок", 1)])).
    vm_compute. exact I.
  - reflexivity.
  - destruct Hday as (Hstate & _ & _ & Horder & _).
    + simpl. left. reflexivity.
    + split; [exact Hstate|]. split; [reflexivity | exact Horder].
Defined.

(** *** Whose contact it is *)

Lemma existsb_app_false {A} (f : A -> bool) (l1 l2 : list A) (x : A) :
  existsb f (l1 ++ x :: l2) = false -> existsb f (l1 ++ l2) = false /\ f x = false.
Proof.
  rewrite !List.existsb_app. simpl. intros H.
  apply orb_false_iff in H as [H1 H2]. apply orb_false_iff in H2 as [Hx H2].
  rewrite H1, H2. auto.
Qed.

Lemma bind_found_row (d : DB) (tg_id : Z) (phone_norm : string) (user : user_row) :
  phones_unique d ->
  db_get_user d phone_norm = Some user ->
  db_get_user_by_tg d tg_id = None ->
  let row := mkUser (u_phone user) (u_fio user) (u_class_name user) (u_role user)
                    (Some tg_id) (u_events_notifications user) in
  exists d',
    db_bind_tg_to_phone d tg_id phone_norm = Some d' /\
    db_get_user d' phone_norm = Some row /\
    db_get_user_by_tg d' tg_id = Some row /\
    (tg_ids_unique d ->
     forall old, u_tg_id user = Some old -> old <> tg_id ->
                 db_get_user_by_tg d' old = None).
Proof.
  intros Hph Hu Htg row.
  destruct (users_split _ _ _ Hph Hu) as (l1 & l2 & Hus & Hup & H1 & H2).
  destruct (filter_phone_app l1 l2 user phone_norm Hup H1 H2) as (Hf & Hnf & Hmap).
  pose proof (find_none_existsb _ _ Htg) as Hnone. rewrite Hus in Hnone.
  apply existsb_app_false in Hnone as [Hothers Huser].
  unfold db_bind_tg_to_phone. rewrite Hus, Hf, Hnf, Hothers.
  eexists. split; [reflexivity|].
  rewrite List.existsb_app in Hothers. apply orb_false_iff in Hothers as [Ho1 Ho2].
  destruct (tg_not_held l1 tg_id Ho1) as [_ Hfind1].
  split; [|split].
  - rewrite db_get_user_update by reflexivity. rewrite String.eqb_refl, Hu. reflexivity.
  - unfold db_get_user_by_tg, update_users. cbn [users]. rewrite Hus, Hmap.
    rewrite find_app, Hfind1. simpl. rewrite Z.eqb_refl. reflexivity.
  - intros Huniq old Hold Hne.
    unfold db_get_user_by_tg, update_users. cbn [users]. rewrite Hus, Hmap.
    assert (Hrest : forall l, (forall x, In x l -> In x (users d) /\ u_phone x <> phone_norm) ->
              List.find (fun u => match u_tg_id u with
                                  | Some t => t =? old
                                  | None => false
                                  end) l = None).
    { intros l Hl. destruct (List.find _ l) as [x|] eqn:Hx; [|reflexivity].
      apply List.find_some in Hx as [Hin Hheld].
      destruct (u_tg_id x) as [t|] eqn:Hxt; [|discriminate].
      apply Z.eqb_eq in Hheld. subst t.
      destruct (Hl x Hin) as [Hxd Hxp]. exfalso. apply Hxp.
      assert (Huin : In user (users d)) by (rewrite Hus; apply List.in_app_iff; right; left; reflexivity).
      rewrite (tg_row_unique _ _ _ _ Huniq Hxd Huin Hxt Hold). exact Hup. }
    rewrite find_app, Hrest.
    + simpl. destruct (Z.eqb_spec tg_id old) as [Heq|_]; [congruence|].
      apply Hrest. intros x Hx. split.
      * rewrite Hus. apply List.in_app_iff. right. right. exact Hx.
      * exact (proj1 (List.Forall_forall _ _) H2 x Hx).
    + intros x Hx. split.
      * rewrite Hus. apply List.in_app_iff. left. exact Hx.
      * exact (proj1 (List.Forall_forall _ _) H1 x Hx).
Qed.

(** X30. The contact is taken at its word.  [handle_message] never asks
    whose contact it was sent: when an account that is not bound sends
    the contact of a registered phone and confirms the name with "Так"
    (the answers going through), the row of that phone is bound to this
    account, whatever it was bound to before; the account that held the
    row is then no longer found by [db_get_user_by_tg]. *)
Theorem confirming_the_found_name_rebinds_the_row
        (delivers : nat -> reply -> bool) (published_news : nat -> list news_item)
        (c : Chat) (tg_id : Z) (phone_number : string) (user : user_row) :
  (forall n r, delivers n r = true) ->
  phones_unique (c_db c) ->
  tg_ids_unique (c_db c) ->
  db_get_user_by_tg (c_db c) tg_id = None ->
  phone_number <> "" ->
  db_get_user (c_db c) (normalize_phone (Some phone_number)) = Some user ->
  let row := mkUser (u_phone user) (u_fio user) (u_class_name user) (u_role user)
                    (Some tg_id) (u_events_notifications user) in
  let c' := converse delivers published_news
              [StartCommand (mkMessage tg_id (Some "/start") None);
               Other (mkMessage tg_id None (Some phone_number));
               Other (mkMessage tg_id (Some "Так") None)] c in
  c_state c' = None /\
  db_get_user_by_tg (c_db c') tg_id = Some row /\
  (forall old, u_tg_id user = Some old -> old <> tg_id ->
               db_get_user_by_tg (c_db c') old = None) /\
  answers c'
  = (answers c ++ [Greeting; Thanks; IsThisYourFio (u_fio user)]
     ++ (if bool_decide (normalize_phone (Some phone_number) ∈ c_welcomed c)
         then [] else [Welcome])
     ++ [MainMenu])%list.
Proof.
  intros Hok Hph Huniq Htg Hphone Huser row c'.
  apply String.eqb_neq in Hphone.
  destruct (bind_found_row (c_db c) tg_id (normalize_phone (Some phone_number)) user
              Hph Huser Htg) as (d' & Hbind & Hget & Hbytg & Hold).
  fold row in Hget, Hbytg.
  assert (Hfinal :
            c_state c' = None /\ c_db c' = d' /\
            c_out c'
            = (c_out c ++ map (fun r => Answered r true)
                 ([Greeting; Thanks; IsThisYourFio (u_fio user)]
                  ++ (if bool_decide (normalize_phone (Some phone_number) ∈ c_welcomed c)
                      then [] else [Welcome])
                  ++ [MainMenu]))%list).
  { subst c'. cbn [converse dispatch].
    remember (snd (start delivers _ c)) as c1 eqn:E1.
    unfold start, hbind, state_clear, get_tables, answer, set_state in E1.
    cbn in E1. rewrite Htg, Hok in E1. cbn in E1. subst c1.
    match goal with
    | |- context [handle_message delivers published_news
                    (mkMessage tg_id None (Some phone_number)) ?c0] =>
        remember (snd (handle_message delivers published_news
                         (mkMessage tg_id None (Some phone_number)) c0)) as c2 eqn:E2
    end.
    unfold handle_message, hbind, get_state, update_data, get_tables, answer, set_state in E2.
    cbn -[normalize_phone] in E2. rewrite Hphone in E2.
    cbn -[normalize_phone] in E2. rewrite !Hok in E2.
    cbn -[normalize_phone] in E2. rewrite Huser in E2.
    cbn -[normalize_phone] in E2. rewrite !Hok in E2.
    cbn -[normalize_phone] in E2. subst c2.
    unfold handle_message, hbind, get_state, get_data, data_item, bind_tg_to_phone,
      welcome_once, get_tables, set_tables, state_clear, show_main_menu, answer, hbind,
      hret, hraise.
    cbn -[normalize_phone db_bind_tg_to_phone db_is_welcomed db_set_welcomed].
    rewrite Hbind.
    cbn -[normalize_phone db_is_welcomed db_set_welcomed].
    unfold db_is_welcomed. rewrite Hget.
    destruct (bool_decide (normalize_phone (Some phone_number) ∈ c_welcomed c));
      cbn -[normalize_phone db_set_welcomed]; rewrite ?Hok;
      cbn -[normalize_phone db_set_welcomed]; rewrite ?Hok;
      (split; [reflexivity|]); (split; [reflexivity|]);
      rewrite <- ?List.app_assoc; reflexivity. }
  destruct Hfinal as (Hstate & Hdb & Hout).
  rewrite Hdb. split; [exact Hstate|]. split; [exact Hbytg|].
  split; [exact (Hold Huniq)|].
  unfold answers. rewrite Hout, omap_app. f_equal.
  destruct (bool_decide _); reflexivity.
Qed.

Lemma confirming_the_found_name_rebinds_the_row_witness :
  let c := mkChat (mkDB [pupil] [] []) ∅ None no_data 0 0 [] in
  let c' := converse (fun _ _ => true) (fun _ => [])
              [StartCommand (mkMessage 2002 (Some "/start") None);
               Other (mkMessage 2002 None (Some "+380501234567"));
               Other (mkMessage 2002 (Some "Так") None)] c in
  option_map u_phone (db_get_user_by_tg (c_db c') 2002) = Some "380501234567" /\
  db_get_user_by_tg (c_db c') 1001 = None.
Proof.
  intros c c'.
  destruct (confirming_the_found_name_rebinds_the_row (fun _ _ => true) (fun _ => [])
              c 2002 "+380501234567" pupil)
    as (_ & Hnew & Hold & _).
  - reflexivity.
  - unfold phones_unique. simpl. apply NoDup_singleton.
  - unfold tg_ids_unique. simpl. apply NoDup_singleton.
  - reflexivity.
  - discriminate.
  - reflexivity.
  - split.
    + exact (f_equal (option_map u_phone) Hnew).
    + apply (Hold 1001); [reflexivity | discriminate].
Defined.
